(** * The sweep and trial controllers of [scripts/mlp_loop_combined.py]

    A shallow embedding of [run_experiment], [experiment_loop] and the grid of
    [main], and the properties of the specification that concern them.

    The script is sequential Python that drives a number of collaborators
    (numpy's process-wide generator, the [learning2learn] package, Keras,
    the file system, [sys.stdout]).  It is embedded as a state-and-error
    monad over an explicit store, which also logs every call that leaves the
    script as an event, so that statements about *when* and *with what* a
    collaborator is called can be read off the event log. *)

From Stdlib Require Import ZArith Lia Ascii.
From stdpp Require Import base option list gmap strings pretty fin_maps.

Set Default Proof Using "Type".

(** ** Python values *)

(** Exceptions the script can raise or let through. *)
Inductive Exn : Type :=
  | AssertionError
  | ValueError
  | FileNotFoundError
  | FileExistsError
  | IndexError
  | OSError
  | TrainerError.

Inductive Res (A : Type) : Type :=
  | Ok (a : A)
  | Raise (e : Exn).
Arguments Ok {A} a.
Arguments Raise {A} e.

(** A path is its list of components: ['../data/mlp_combined.h5'] is
    [[".."; "data"; "mlp_combined.h5"]], and [os.path.join p name] is
    [p ++ [name]]. *)
Abbreviation path := (list string).

Definition os_path_join (p : path) (name : string) : path := p ++ [name].

Definition parent (p : path) : path := removelast p.

(** [is_under p q]: [q] is [p] or lies below it. *)
Fixpoint is_under (p q : path) : bool :=
  match p, q with
  | [], _ => true
  | a :: p', b :: q' => if decide (a = b) then is_under p' q' else false
  | _ :: _, [] => false
  end.

(** The keys of the parameter dictionary built by [main]. *)
Record Params (Noise : Type) : Type := mkParams {
  nb_epochs : Z;
  batch_size : Z;
  nb_trials : Z;
  nb_test : Z;
  noise : Noise;
}.
Arguments mkParams {Noise}.
Arguments nb_epochs {Noise}.
Arguments batch_size {Noise}.
Arguments nb_trials {Noise}.
Arguments nb_test {Noise}.
Arguments noise {Noise}.

(** [ModelCheckpoint(weights_file, monitor='loss', save_best_only=True,
    save_weights_only=True, period=2)]. *)
Record Checkpoint : Type := mkCheckpoint {
  filepath : path;
  monitor : string;
  save_best_only : bool;
  save_weights_only : bool;
  period : Z;
}.

(** What one call of [train_model] leaves behind: the model after the last
    epoch (or the exception that ended training), the snapshot the checkpoint
    callback wrote last, if it ever wrote one, and the generator state. *)
Record TrainOutcome (Model Weights Rng : Type) : Type := mkTrainOutcome {
  trained : Res Model;
  saved : option Weights;
  rng_after : Rng;
}.
Arguments mkTrainOutcome {Model Weights Rng}.
Arguments trained {Model Weights Rng}.
Arguments saved {Model Weights Rng}.
Arguments rng_after {Model Weights Rng}.

(** ** The collaborators

    Everything the script imports and calls; none of it is in the script.
    The random state is threaded through every collaborator that may draw
    from it. *)
Class Learning2Learn : Type := {
  Rng : Type;
  AttrValue : Type;
  DataFrame : Type;
  Labels : Type;
  Batch : Type;
  OneHot : Type;
  Noise : Type;
  Score : Type;
  Model : Type;
  Weights : Type;
  (** the value [0.0] of a score *)
  score_zero : Score;
  (** [np.random.seed] *)
  np_random_seed : Z -> Rng -> Rng;
  (** a draw of a natural number, used by the model of [train_test_split] *)
  np_random_randint : nat -> Rng -> nat * Rng;
  (** [learning2learn.wrangle] *)
  get_train_test_parameters :
    bool -> Z -> Rng ->
    ((list AttrValue * list AttrValue) *
     (list AttrValue * list AttrValue) *
     (list AttrValue * list AttrValue)) * Rng;
  synthesize_data : Z -> Z -> Rng -> (DataFrame * Labels) * Rng;
  build_train_set_bits :
    DataFrame -> list AttrValue -> list AttrValue -> list AttrValue ->
    Rng -> Batch * Rng;
  build_test_trials_o1_bits :
    DataFrame -> list AttrValue -> list AttrValue -> list AttrValue ->
    list AttrValue -> list AttrValue -> list AttrValue -> Z ->
    Rng -> Batch * Rng;
  build_test_trials_o2_bits :
    list AttrValue -> list AttrValue -> list AttrValue -> Z ->
    Rng -> Batch * Rng;
  (** [OneHotEncoder(sparse=False).fit_transform(labels.reshape(-1, 1))] *)
  ohe_fit_transform : Labels -> OneHot;
  (** [X.shape[-1]] and [Y.shape[-1]] *)
  batch_width : Batch -> Z;
  onehot_width : OneHot -> Z;
  (** [learning2learn.util] and [learning2learn.models] *)
  add_noise : Batch -> Noise -> Rng -> Batch * Rng;
  simple_mlp : Z -> Z -> Rng -> Model * Rng;
  train_model :
    Model -> Batch -> OneHot -> Z -> Z -> Checkpoint -> Z -> Rng ->
    TrainOutcome Model Weights Rng;
  set_weights : Model -> Weights -> Model;
  evaluate_generalization : Model -> Batch -> Z -> Z -> Score;
  (** [p >= 0. and p <= 1.] on floats *)
  noise_in_unit_interval : Noise -> bool;
}.

(** A result tensor, indexed by category count, exemplar count and
    repetition. *)
Abbreviation Tensor := (list (list (list Score))).

Section Monad.
Context `{L : Learning2Learn}.

(** ** The store *)

Inductive FileData : Type :=
  | FWeights (w : Weights)
  | FInts (l : list Z)
  | FTensor (t : Tensor)
  | FText.

Inductive Node : Type :=
  | Dir
  | File (d : FileData).

(** Where [sys.stdout] points. *)
Inductive Target : Type :=
  | Console
  | LogFile (p : path).

Record Store : Type := mkStore {
  rng : Rng;
  fs : gmap path Node;
  stdout : Target;
}.

Definition set_rng (g : Rng) (s : Store) : Store :=
  {| rng := g; fs := fs s; stdout := stdout s |}.
Definition set_fs (m : gmap path Node) (s : Store) : Store :=
  {| rng := rng s; fs := m; stdout := stdout s |}.
Definition set_stdout (t : Target) (s : Store) : Store :=
  {| rng := rng s; fs := fs s; stdout := t |}.

(** ** Events *)

Inductive Msg : Type :=
  | MsgBuildingTrain
  | MsgBuildingTest
  | MsgRound (i : Z)
  | MsgFirstOrder (s : Score)
  | MsgSecondOrder (s : Score)
  | MsgTesting (c e : Z)
  | MsgLoopComplete
  | MsgNoiseLevel (p : Noise).

Inductive Attr : Type := Shape | Color | Texture.
Inductive Order : Type := Order1 | Order2.
Inductive Role : Type := TrainSet | TestSet (o : Order).

#[warnings="-register-all"]
Inductive Event : Type :=
  | EvSeed (z : Z)
  | EvSessionOpen
  | EvSetSession
  | EvClearSession
  | EvSessionClose
  | EvGetParameters
  | EvSplit (a : Attr) (test_size : Z)
  | EvPrint (t : Target) (m : Msg)
  | EvSynthesize (c e : Z)
  | EvBuildTrain (shape_train color_train texture_train : list AttrValue)
  | EvBuildTestO1
      (shape_train shape_test color_train color_test
       texture_train texture_test : list AttrValue) (n : Z)
  | EvBuildTestO2 (shape_test color_test texture_test : list AttrValue) (n : Z)
  | EvAddNoise (r : Role) (x : Batch) (y : Batch)
  | EvModel (nb_in nb_classes : Z)
  | EvRemove (p : path)
  | EvTrain (x : Batch) (epochs bsize : Z) (c : Checkpoint) (burn : Z)
      (w : option Weights)
  | EvLoadWeights (p : path)
  | EvEvaluate (o : Order) (m : Model) (x : Batch) (s : Score)
  | EvWarn (m : string)
  | EvRmtree (p : path)
  | EvMkdir (p : path)
  | EvSave (p : path) (d : FileData)
  | EvOpen (p : path)
  | EvStdout (t : Target)
  | EvExec (c e : Z) (inner : list Event)
      (r : Res (list Score * list Score)).

(** ** The monad *)

Record Out (A : Type) : Type := mkOut {
  res : Res A;
  st : Store;
  evs : list Event;
}.
Arguments mkOut {A}.
Arguments res {A}.
Arguments st {A}.
Arguments evs {A}.

Definition M (A : Type) : Type := Store -> Out A.

Definition ret {A} (a : A) : M A := fun s => mkOut (Ok a) s [].

Definition raise {A} (e : Exn) : M A := fun s => mkOut (Raise e) s [].

Definition bind {A B} (m : M A) (f : A -> M B) : M B := fun s =>
  let o := m s in
  match res o with
  | Ok a => let o' := f a (st o) in mkOut (res o') (st o') (evs o ++ evs o')
  | Raise e => mkOut (Raise e) (st o) (evs o)
  end.

Definition emit (e : Event) : M unit := fun s => mkOut (Ok tt) s [e].

Definition gets {A} (f : Store -> A) : M A := fun s => mkOut (Ok (f s)) s [].

Definition modify (f : Store -> Store) : M unit :=
  fun s => mkOut (Ok tt) (f s) [].

End Monad.

Arguments mkOut {L A}.
Arguments res {L A}.
Arguments st {L A}.
Arguments evs {L A}.

Declare Scope py_scope.
Delimit Scope py_scope with py.
Notation "'let*' x ':=' c1 'in' c2" := (bind c1 (fun x => c2))
  (at level 10, x pattern, c1 at level 100, c2 at level 200) : py_scope.
Notation "c1 ;; c2" := (bind c1 (fun _ => c2))
  (at level 100, c2 at level 200, right associativity) : py_scope.

Open Scope py_scope.

Section Controllers.
Context `{L : Learning2Learn}.

(** ** Python and library primitives *)

Definition py_assert (b : bool) : M unit :=
  if b then ret tt else raise AssertionError.

(** [range(n)] *)
Definition py_range (n : Z) : list Z := Z.of_nat <$> seq 0 (Z.to_nat n).

(** [enumerate(l)] *)
Definition enumerate {A} (l : list A) : list (nat * A) :=
  zip (seq 0 (length l)) l.

(** [for a in l: s = body(a, s)], leaving the loop at the first exception. *)
Fixpoint for_each {A S} (l : list A) (body : A -> S -> M S) (s0 : S) : M S :=
  match l with
  | [] => ret s0
  | a :: l' => let* s1 := body a s0 in for_each l' body s1
  end.

(** [print] writes to wherever [sys.stdout] points at the time. *)
Definition print (m : Msg) : M unit :=
  let* t := gets stdout in emit (EvPrint t m).

(** [sys.stdout = t] *)
Definition assign_stdout (t : Target) : M unit :=
  emit (EvStdout t) ;; modify (set_stdout t).

Definition warnings_warn (m : string) : M unit := emit (EvWarn m).

(** A collaborator that draws from the process-wide generator. *)
Definition with_rng {A} (f : Rng -> A * Rng) : M A := fun s =>
  let r := f (rng s) in mkOut (Ok r.1) (set_rng r.2 s) [].

Definition is_dir (m : gmap path Node) (p : path) : bool :=
  match m !! p with Some Dir => true | _ => false end.

Definition is_file (m : gmap path Node) (p : path) : bool :=
  match m !! p with Some (File _) => true | _ => false end.

Definition os_path_isdir (p : path) : M bool :=
  gets (fun s => is_dir (fs s) p).

Definition os_path_isfile (p : path) : M bool :=
  gets (fun s => is_file (fs s) p).

Definition os_remove (p : path) : M unit :=
  emit (EvRemove p) ;;
  let* m := gets fs in
  match m !! p with
  | Some (File _) => modify (set_fs (delete p m))
  | Some Dir => raise OSError
  | None => raise FileNotFoundError
  end.

(** [shutil.rmtree p] removes [p] and everything below it. *)
Definition rmtree (p : path) (m : gmap path Node) : gmap path Node :=
  filter (fun kv => is_under p kv.1 = false) m.

Definition shutil_rmtree (p : path) : M unit :=
  emit (EvRmtree p) ;;
  let* m := gets fs in
  match m !! p with
  | Some Dir => modify (set_fs (rmtree p m))
  | Some (File _) => raise OSError
  | None => raise FileNotFoundError
  end.

Definition os_mkdir (p : path) : M unit :=
  emit (EvMkdir p) ;;
  let* m := gets fs in
  match m !! p with
  | Some _ => raise FileExistsError
  | None =>
      if is_dir m (parent p) then modify (set_fs (<[p := Dir]> m))
      else raise FileNotFoundError
  end.

(** Creating or truncating the file [p] and writing [d] to it. *)
Definition write_file (p : path) (d : FileData) : M unit :=
  let* m := gets fs in
  match m !! p with
  | Some Dir => raise OSError
  | _ =>
      if is_dir m (parent p) then modify (set_fs (<[p := File d]> m))
      else raise FileNotFoundError
  end.

(** [np.save(p, arr)]; every name the script saves under ends in [.npy]. *)
Definition np_save (p : path) (d : FileData) : M unit :=
  emit (EvSave p d) ;; write_file p d.

(** [open(p, 'w')] *)
Definition open_w (p : path) : M Target :=
  emit (EvOpen p) ;; write_file p FText ;; ret (LogFile p).

(** [np.zeros(shape=(a, b, c))], [a] and [b] being lengths. *)
Definition np_zeros (a b : nat) (c : Z) : M Tensor :=
  if (c <? 0)%Z then raise ValueError
  else ret (replicate a (replicate b (replicate (Z.to_nat c) score_zero))).

(** numpy's broadcasting of a one-dimensional [v] to length [n]. *)
Definition broadcast_to (n : nat) (v : list Score) : option (list Score) :=
  if decide (length v = n) then Some v
  else match v with
       | [x] => Some (replicate n x)
       | _ => None
       end.

(** [T[i, j] = v] *)
Definition setitem (T : Tensor) (i j : nat) (v : list Score) : M Tensor :=
  match T !! i ≫= (.!! j) with
  | None => raise IndexError
  | Some old =>
      match broadcast_to (length old) v with
      | Some v' => ret (alter (<[j := v']>) i T)
      | None => raise ValueError
      end
  end.

(** ['%0.4i' % z]: at least four digits, padded with zeros, after the sign. *)
Definition fmt_04i (z : Z) : string :=
  let d := pretty (Z.abs_N z) in
  ((if (z <? 0)%Z then "-" else "") +:+
   String.concat "" (replicate (4 - String.length d) "0") +:+ d)%string.

(** ** Calls into [learning2learn] and Keras *)

Definition seed (z : Z) : M unit :=
  emit (EvSeed z) ;; modify (fun s => set_rng (np_random_seed z (rng s)) s).

Definition call_get_train_test_parameters (images : bool) (nb_bits : Z) :=
  emit EvGetParameters ;; with_rng (get_train_test_parameters images nb_bits).

(** Modelled from the spec: [learning2learn.util.train_test_split], which is
    not in the script.  "A uniform-random subset of the full train pool,
    chosen without replacement": [test_size] values are drawn out of [x] one
    after the other, each from what is left; the first component keeps the
    rest in its order, the second the values split off. *)
Fixpoint split_off {A} (k : nat) (x : list A) (g : Rng)
  : (list A * list A) * Rng :=
  match k with
  | O => ((x, []), g)
  | S k' =>
      let d := np_random_randint (length x) g in
      let i := (d.1 mod length x)%nat in
      match x !! i with
      | None => ((x, []), d.2)
      | Some a =>
          let r := split_off k' (delete i x) d.2 in
          ((r.1.1, a :: r.1.2), r.2)
      end
  end.

Definition train_test_split {A} (a : Attr) (x : list A) (test_size : Z)
  : M (list A * list A) :=
  emit (EvSplit a test_size) ;;
  if ((test_size <? 0) || (Z.of_nat (length x) <? test_size))%Z
  then raise ValueError
  else with_rng (split_off (Z.to_nat test_size) x).

Definition call_synthesize_data (c e : Z) :=
  emit (EvSynthesize c e) ;; with_rng (synthesize_data c e).

Definition call_build_train_set_bits df (st ct tt : list AttrValue) :=
  emit (EvBuildTrain st ct tt) ;; with_rng (build_train_set_bits df st ct tt).

Definition call_build_test_trials_o1_bits df
    (st ste ct cte tt tte : list AttrValue) (nb : Z) :=
  emit (EvBuildTestO1 st ste ct cte tt tte nb) ;;
  with_rng (build_test_trials_o1_bits df st ste ct cte tt tte nb).

Definition call_build_test_trials_o2_bits
    (ste cte tte : list AttrValue) (nb : Z) :=
  emit (EvBuildTestO2 ste cte tte nb) ;;
  with_rng (build_test_trials_o2_bits ste cte tte nb).

Definition call_add_noise (r : Role) (x : Batch) (p : Noise) : M Batch :=
  let* y := with_rng (add_noise x p) in
  emit (EvAddNoise r x y) ;; ret y.

Definition call_simple_mlp (nb_in nb_classes : Z) : M Model :=
  emit (EvModel nb_in nb_classes) ;; with_rng (simple_mlp nb_in nb_classes).

(** Modelled from the spec: [learning2learn.util.train_model], which is not
    in the script.  The trainer touches the file system through the
    checkpoint callback only: "the lowest training-loss-so-far epoch's
    weights are persisted to a scoped checkpoint location, overwriting any
    prior snapshot"; when no snapshot is ever written the location is left
    as it was. *)
Definition call_train_model (model : Model) (x : Batch) (y : OneHot)
    (epochs bsize : Z) (c : Checkpoint) (burn_period : Z) : M Model :=
  let* g := gets rng in
  let o := train_model model x y epochs bsize c burn_period g in
  emit (EvTrain x epochs bsize c burn_period (saved o)) ;;
  modify (set_rng (rng_after o)) ;;
  match saved o with
  | Some w => write_file (filepath c) (FWeights w)
  | None => ret tt
  end ;;
  match trained o with
  | Ok model' => ret model'
  | Raise x => raise x
  end.

(** [model.load_weights(p)] *)
Definition load_weights (model : Model) (p : path) : M Model :=
  emit (EvLoadWeights p) ;;
  let* m := gets fs in
  match m !! p with
  | Some (File (FWeights w)) => ret (set_weights model w)
  | _ => raise OSError
  end.

Definition call_evaluate_generalization (o : Order) (model : Model)
    (x : Batch) (layer_num bsize : Z) : M Score :=
  let s := evaluate_generalization model x layer_num bsize in
  emit (EvEvaluate o model x s) ;; ret s.

(** ** [run_experiment] *)

Definition weights_file : path := [".."; "data"; "mlp_combined.h5"].

(** [int(np.floor(nb_categories*nb_exemplars/5))].  With true division the
    quotient is a float; its floor is the integer quotient as long as the
    product stays below 2^53 in absolute value, which the assertion on
    [nb_categories] and any data set that fits in memory guarantee. *)
Definition batch_cap (nb_categories nb_exemplars : Z) : Z :=
  (nb_categories * nb_exemplars) `div` 5.

(** Lines 42 to 54: the train pools are cut down, the test pools are not
    mentioned. *)
Definition reduce_train_pools (nb_categories : Z)
    (shape_set_train color_set_train texture_set_train : list AttrValue)
  : M (list AttrValue * list AttrValue * list AttrValue) :=
  if (nb_categories <? 50)%Z then
    let* (shape_set_train, _) :=
      train_test_split Shape shape_set_train (50 - nb_categories) in
    let* (color_set_train, _) :=
      train_test_split Color color_set_train (50 - nb_categories) in
    let* (texture_set_train, _) :=
      train_test_split Texture texture_set_train (50 - nb_categories) in
    ret (shape_set_train, color_set_train, texture_set_train)
  else ret (shape_set_train, color_set_train, texture_set_train).

(** Lines 89 to 91. *)
Definition remove_stale_weights : M unit :=
  let* b := os_path_isfile weights_file in
  if b then os_remove weights_file else ret tt.

(** The body of the loop over [range(params['nb_trials'])], lines 80 to 121;
    [scores] are the two lists the loop appends to. *)
Definition run_trial (X_train : Batch) (Y_train : OneHot)
    (X_test_order1 X_test_order2 : Batch) (batch_size : Z)
    (params : Params Noise) (i : Z) (scores : list Score * list Score)
  : M (list Score * list Score) :=
  print (MsgRound (i + 1)) ;;
  let* X_train_noisy := call_add_noise TrainSet X_train (noise params) in
  let* model :=
    call_simple_mlp (batch_width X_train) (onehot_width Y_train) in
  remove_stale_weights ;;
  let checkpoint := mkCheckpoint weights_file "loss" true true 2 in
  let* model :=
    call_train_model model X_train_noisy Y_train (nb_epochs params)
      batch_size checkpoint 100 in
  let* model := load_weights model weights_file in
  let* score_order1 :=
    call_evaluate_generalization Order1 model X_test_order1 (-3) 128 in
  let* score_order2 :=
    call_evaluate_generalization Order2 model X_test_order2 (-3) 128 in
  print (MsgFirstOrder score_order1) ;;
  print (MsgSecondOrder score_order2) ;;
  ret (scores.1 ++ [score_order1], scores.2 ++ [score_order2]).

(** Lines 22 to 76: everything before the loop.  It hands the loop the
    training set, its labels, the two noised test batches and the batch
    size. *)
Definition run_setup (nb_categories nb_exemplars : Z) (params : Params Noise)
  : M (Batch * OneHot * Batch * Batch * Z) :=
  py_assert (nb_categories <=? 50)%Z ;;
  let batch_size :=
    Z.min (batch_size params) (batch_cap nb_categories nb_exemplars) in
  seed 0 ;;
  emit EvSessionOpen ;;
  emit EvSetSession ;;
  let* pools := call_get_train_test_parameters false 20 in
  let '((shape_set_train, shape_set_test),
        (color_set_train, color_set_test),
        (texture_set_train, texture_set_test)) := pools in
  let* (shape_set_train, color_set_train, texture_set_train) :=
    reduce_train_pools nb_categories
      shape_set_train color_set_train texture_set_train in
  print MsgBuildingTrain ;;
  let* (df_train, labels) := call_synthesize_data nb_categories nb_exemplars in
  let* X_train :=
    call_build_train_set_bits df_train
      shape_set_train color_set_train texture_set_train in
  let Y_train := ohe_fit_transform labels in
  print MsgBuildingTest ;;
  let* X_test_order1 :=
    call_build_test_trials_o1_bits df_train
      shape_set_train shape_set_test color_set_train color_set_test
      texture_set_train texture_set_test (nb_test params) in
  let* X_test_order2 :=
    call_build_test_trials_o2_bits
      shape_set_test color_set_test texture_set_test (nb_test params) in
  let* X_test_order1 :=
    call_add_noise (TestSet Order1) X_test_order1 (noise params) in
  let* X_test_order2 :=
    call_add_noise (TestSet Order2) X_test_order2 (noise params) in
  ret (X_train, Y_train, X_test_order1, X_test_order2, batch_size).

Definition run_experiment (nb_categories nb_exemplars : Z)
    (params : Params Noise) : M (list Score * list Score) :=
  let* (X_train, Y_train, X_test_order1, X_test_order2, batch_size) :=
    run_setup nb_categories nb_exemplars params in
  let* scores :=
    for_each (py_range (nb_trials params))
      (run_trial X_train Y_train X_test_order1 X_test_order2 batch_size params)
      ([], []) in
  emit EvClearSession ;;
  emit EvSessionClose ;;
  ret scores.

(** ** [experiment_loop] *)

Definition log_name (nb_categories nb_exemplars : Z) : string :=
  ("log_ca" +:+ fmt_04i nb_categories +:+ "_ex" +:+ fmt_04i nb_exemplars)%string.

(** The call of [exectue_fn]; what it logs is kept apart, inside the event
    of the call. *)
Definition call_exectue_fn
    (exectue_fn : Z -> Z -> Params Noise -> M (list Score * list Score))
    (c e : Z) (params : Params Noise) : M (list Score * list Score) :=
  fun s =>
    let o := exectue_fn c e params s in
    mkOut (res o) (st o) [EvExec c e (evs o) (res o)].

(** Lines 131 to 134. *)
Definition fresh_results_dir (results_path : path) : M unit :=
  let* b := os_path_isdir results_path in
  (if b then
     warnings_warn "Removing old results folder of the same name!" ;;
     shutil_rmtree results_path
   else ret tt) ;;
  os_mkdir results_path.

(** The body of the inner loop, lines 148 to 161, for the cell at row [i] and
    column [j]; [results] are the two tensors. *)
Definition run_cell
    (exectue_fn : Z -> Z -> Params Noise -> M (list Score * list Score))
    (params : Params Noise) (results_path : path) (stdout0 : Target)
    (i : nat) (nb_categories : Z) (j : nat) (nb_exemplars : Z)
    (results : Tensor * Tensor) : M (Tensor * Tensor) :=
  print (MsgTesting nb_categories nb_exemplars) ;;
  let log_file :=
    os_path_join results_path (log_name nb_categories nb_exemplars) in
  let* f := open_w log_file in
  assign_stdout f ;;
  let* (o1, o2) := call_exectue_fn exectue_fn nb_categories nb_exemplars params in
  let* results_o1_gen := setitem results.1 i j o1 in
  let* results_o2_gen := setitem results.2 i j o2 in
  assign_stdout stdout0 ;;
  np_save (os_path_join results_path "results_o1_gen.npy")
    (FTensor results_o1_gen) ;;
  np_save (os_path_join results_path "results_o2_gen.npy")
    (FTensor results_o2_gen) ;;
  ret (results_o1_gen, results_o2_gen).

(** Lines 135 to 162: what follows the creation of the directory. *)
Definition sweep
    (exectue_fn : Z -> Z -> Params Noise -> M (list Score * list Score))
    (category_trials exemplar_trials : list Z) (params : Params Noise)
    (results_path : path) (stdout0 : Target) : M unit :=
  np_save (os_path_join results_path "category_trials.npy")
    (FInts category_trials) ;;
  np_save (os_path_join results_path "exemplar_trials.npy")
    (FInts exemplar_trials) ;;
  let* results_o1_gen :=
    np_zeros (length category_trials) (length exemplar_trials)
      (nb_trials params) in
  let* results_o2_gen :=
    np_zeros (length category_trials) (length exemplar_trials)
      (nb_trials params) in
  for_each (enumerate category_trials)
    (fun '(i, nb_categories) =>
       for_each (enumerate exemplar_trials)
         (fun '(j, nb_exemplars) =>
            run_cell exectue_fn params results_path stdout0
              i nb_categories j nb_exemplars))
    (results_o1_gen, results_o2_gen) ;;
  print MsgLoopComplete.

Definition experiment_loop
    (exectue_fn : Z -> Z -> Params Noise -> M (list Score * list Score))
    (category_trials exemplar_trials : list Z) (params : Params Noise)
    (results_path : path) : M unit :=
  let* stdout0 := gets stdout in
  fresh_results_dir results_path ;;
  sweep exectue_fn category_trials exemplar_trials params results_path stdout0.

(** ** [main] *)

Record Args : Type := mkArgs {
  args_nb_epochs : Z;
  args_save_path : path;
  args_noise : Noise;
  args_batch_size : Z;
}.

Definition category_trials : list Z := [2; 4; 8; 16; 32; 50]%Z.
Definition exemplar_trials : list Z := [3; 6; 9; 12; 15; 18]%Z.

Definition main (args : Args) : M unit :=
  py_assert (noise_in_unit_interval (args_noise args)) ;;
  print (MsgNoiseLevel (args_noise args)) ;;
  let params :=
    mkParams (args_nb_epochs args) (args_batch_size args) 10 1000
      (args_noise args) in
  experiment_loop run_experiment category_trials exemplar_trials params
    (args_save_path args).

End Controllers.

(** * Vocabulary of the statements

    Classifiers of events, the shapes of event logs, and the pure functions
    on tensors the statements below refer to. *)

Section Observations.
Context `{L : Learning2Learn}.

Definition count (f : Event -> bool) (l : list Event) : nat :=
  length (List.filter f l).

Definition is_seed (e : Event) : bool :=
  match e with EvSeed _ => true | _ => false end.

Definition is_model (e : Event) : bool :=
  match e with EvModel _ _ => true | _ => false end.

Definition is_train (e : Event) : bool :=
  match e with EvTrain _ _ _ _ _ _ => true | _ => false end.

Definition is_noise (r : Role) (e : Event) : bool :=
  match e, r with
  | EvAddNoise TrainSet _ _, TrainSet => true
  | EvAddNoise (TestSet Order1) _ _, TestSet Order1 => true
  | EvAddNoise (TestSet Order2) _ _, TestSet Order2 => true
  | _, _ => false
  end.


Definition is_build (e : Event) : bool :=
  match e with
  | EvBuildTrain _ _ _ | EvBuildTestO1 _ _ _ _ _ _ _ | EvBuildTestO2 _ _ _ _ =>
      true
  | _ => false
  end.

Definition is_split (e : Event) : bool :=
  match e with EvSplit _ _ => true | _ => false end.

Definition is_evaluate (o : Order) (e : Event) : bool :=
  match e, o with
  | EvEvaluate Order1 _ _ _, Order1 => true
  | EvEvaluate Order2 _ _ _, Order2 => true
  | _, _ => false
  end.

(** What a repetition can log: every event of [run_trial] is one of these,
    with these arguments. *)
Definition trial_ev (X_train X_test_order1 X_test_order2 : Batch) (bsize : Z)
    (params : Params Noise) (e : Event) : Prop :=
  match e with
  | EvPrint _ (MsgRound _) | EvPrint _ (MsgFirstOrder _)
  | EvPrint _ (MsgSecondOrder _) => True
  | EvAddNoise TrainSet x _ => x = X_train
  | EvModel _ _ => True
  | EvRemove p => p = weights_file
  | EvTrain _ epochs b c burn _ =>
      epochs = nb_epochs params /\ b = bsize /\
      c = mkCheckpoint weights_file "loss" true true 2 /\ burn = 100%Z
  | EvLoadWeights p => p = weights_file
  | EvEvaluate Order1 _ x _ => x = X_test_order1
  | EvEvaluate Order2 _ x _ => x = X_test_order2
  | _ => False
  end.

(** What the setup can log after the reseeding. *)
Definition setup_ev (e : Event) : Prop :=
  match e with
  | EvSessionOpen | EvSetSession | EvGetParameters | EvSplit _ _
  | EvPrint _ MsgBuildingTrain | EvPrint _ MsgBuildingTest
  | EvSynthesize _ _ | EvBuildTrain _ _ _
  | EvBuildTestO1 _ _ _ _ _ _ _ | EvBuildTestO2 _ _ _ _
  | EvAddNoise (TestSet _) _ _ => True
  | _ => False
  end.

Definition the_checkpoint : Checkpoint :=
  mkCheckpoint weights_file "loss" true true 2.

Definition trains_with (b : Z) (ev : Event) : Prop :=
  match ev with EvTrain _ _ b' _ _ _ => b' = b | _ => True end.

Definition split_events (c : Z) : list Event :=
  if (c <? 50)%Z
  then [EvSplit Shape (50 - c); EvSplit Color (50 - c);
        EvSplit Texture (50 - c)]
  else [].




Definition is_remove (e : Event) : bool :=
  match e with EvRemove _ => true | _ => false end.


(** [T[i, j]] *)
Definition slice (T : Tensor) (i j : nat) : option (list Score) :=
  T !! i ≫= (.!! j).

(** What [T[i, j] = v] makes of [T], when it does not raise. *)
Definition write_slice (T : Tensor) (i j : nat) (v : list Score)
  : option Tensor :=
  old ← slice T i j;
  v' ← broadcast_to (length old) v;
  Some (alter (<[j := v']>) i T).

Definition zeros (a b : nat) (c : Z) : Tensor :=
  replicate a (replicate b (replicate (Z.to_nat c) score_zero)).

(** The cells of the grid in the order the two loops visit them: row by row,
    each with its indices. *)
Definition cells (cats exs : list Z) : list ((nat * Z) * (nat * Z)) :=
  enumerate cats ≫= (fun a => pair a <$> enumerate exs).

Definition cell_body
    (f : Z -> Z -> Params Noise -> M (list Score * list Score))
    (params : Params Noise) (p : path) (out0 : Target)
    (cell : (nat * Z) * (nat * Z)) : Tensor * Tensor -> M (Tensor * Tensor) :=
  run_cell f params p out0 cell.1.1 cell.1.2 cell.2.1 cell.2.2.

Definition is_exec (e : Event) : bool :=
  match e with EvExec _ _ _ _ => true | _ => false end.

(** What the sweep keeps of a completed cell: what the call logged, the two
    score sequences it returned, and the two tensors saved after it. *)
Record CellLog : Type := mkCellLog {
  cl_inner : list Event;
  cl_o1 : list Score;
  cl_o2 : list Score;
  cl_T1 : Tensor;
  cl_T2 : Tensor;
  cl_store : Store;
}.

(** Both tensors are in their files in the store the cell leaves behind. *)
Definition persisted (p : path) (k : CellLog) : Prop :=
  fs (cl_store k) !! os_path_join p "results_o1_gen.npy"
    = Some (File (FTensor (cl_T1 k))) /\
  fs (cl_store k) !! os_path_join p "results_o2_gen.npy"
    = Some (File (FTensor (cl_T2 k))).

(** The events of a completed cell, in order: the announcement, the
    redirection to the log file, the call, the restoring of the output, and
    the saving of both tensors. *)
Definition cell_events (p : path) (out0 : Target)
    (cell : (nat * Z) * (nat * Z)) (k : CellLog) : list Event :=
  let c := cell.1.2 in
  let e := cell.2.2 in
  let log_file := os_path_join p (log_name c e) in
  [EvPrint out0 (MsgTesting c e);
   EvOpen log_file;
   EvStdout (LogFile log_file);
   EvExec c e (cl_inner k) (Ok (cl_o1 k, cl_o2 k));
   EvStdout out0;
   EvSave (os_path_join p "results_o1_gen.npy") (FTensor (cl_T1 k));
   EvSave (os_path_join p "results_o2_gen.npy") (FTensor (cl_T2 k))].

(** The chain of writes behind a list of completed cells: each cell's
    tensors are the previous ones with the cell's scores written into the
    cell's slice. *)
Fixpoint sweep_log (T : Tensor * Tensor) (l : list ((nat * Z) * (nat * Z)))
    (logs : list CellLog) {struct logs} : Prop :=
  match logs, l with
  | [], _ => True
  | _ :: _, [] => False
  | k :: logs', cell :: l' =>
      write_slice T.1 cell.1.1 cell.2.1 (cl_o1 k) = Some (cl_T1 k) /\
      write_slice T.2 cell.1.1 cell.2.1 (cl_o2 k) = Some (cl_T2 k) /\
      sweep_log (cl_T1 k, cl_T2 k) l' logs'
  end.

Definition idx (cell : (nat * Z) * (nat * Z)) : nat * nat :=
  (cell.1.1, cell.2.1).

(** Every slice of [T] has length [n]. *)
Definition uniform (n : nat) (T : Tensor) : Prop :=
  forall i j v, slice T i j = Some v -> length v = n.

(** The tensors as they are before cell number [m] runs. *)
Definition tensors_before (T : Tensor * Tensor) (logs : list CellLog)
    (m : nat) : Tensor * Tensor :=
  match m with
  | O => T
  | S m' =>
      match logs !! m' with
      | Some k => (cl_T1 k, cl_T2 k)
      | None => T
      end
  end.

(** The shape of the log of a sweep over the cells [cs], started with both
    tensors equal to [T0]: some events that are not calls, then the events
    of the completed cells, cell by cell, then what is left, with at most one
    call in it; a sweep that returns has completed every cell. *)
Definition sweep_shape (p : path) (out0 : Target)
    (cs : list ((nat * Z) * (nat * Z))) (T0 : Tensor) (o : Out unit)
    (header : list Event) (logs : list CellLog) (tail : list Event) : Prop :=
  evs o = header ++ concat (zip_with (cell_events p out0) cs logs) ++ tail /\
  count is_exec header = 0%nat /\
  (count is_exec tail <= 1)%nat /\
  sweep_log (T0, T0) cs logs /\
  Forall (persisted p) logs /\
  match res o with
  | Ok _ => length logs = length cs /\ tail = [EvPrint out0 MsgLoopComplete]
  | Raise _ => True
  end.

Definition quiet {A} (m : M A) : Prop :=
  forall s, count is_exec (evs (m s)) = 0%nat /\ stdout (st (m s)) = stdout s.

Definition overwrite_warning : string :=
  "Removing old results folder of the same name!".


(** The spec's reading of the reseeding: once per repetition. *)
Definition reseeded_per_repetition (c e : Z) (params : Params Noise)
    (s : Store) : Prop :=
  count is_seed (evs (run_experiment c e params s)) =
  Z.to_nat (nb_trials params).


(** The spec's reading of a batch size of zero: the call raises and the
    trainer is never called. *)
Definition fails_fast_on_zero_batch (c e : Z) (params : Params Noise)
    (s : Store) : Prop :=
  Z.min (batch_size params) (batch_cap c e) = 0%Z ->
  (exists x, res (run_experiment c e params s) = Raise x) /\
  count is_train (evs (run_experiment c e params s)) = 0%nat.

(** The scores of the evaluations of one order, in the order they were
    made. *)
Definition eval_scores (o : Order) (l : list Event) : list Score :=
  omap (fun e => match e, o with
                 | EvEvaluate Order1 _ _ x, Order1 => Some x
                 | EvEvaluate Order2 _ _ x, Order2 => Some x
                 | _, _ => None
                 end) l.

(** A computation that leaves [sys.stdout] where it points and every path
    but [q] as it is. *)
Definition touches_only (q : path) {A} (m : M A) : Prop :=
  forall s,
    stdout (st (m s)) = stdout s /\
    forall r, r <> q -> fs (st (m s)) !! r = fs s !! r.

(** What a call of [exectue_fn] logged by the sweep looks like: it is made
    at a category count and an exemplar count of the grid, and it carries
    the log and the outcome of [exectue_fn] there, run from some store. *)
Definition exec_ev
    (f : Z -> Z -> Params Noise -> M (list Score * list Score))
    (params : Params Noise) (cats exs : list Z) (ev : Event) : Prop :=
  match ev with
  | EvExec c e inner r =>
      c ∈ cats /\ e ∈ exs /\
      exists s', inner = evs (f c e params s') /\ r = res (f c e params s')
  | _ => True
  end.

(** The results directory as [experiment_loop] hands it to the sweep when it
    was there before: emptied and created anew. *)
Definition fresh_dir (p : path) (m : gmap path Node) : gmap path Node :=
  <[p := Dir]> (rmtree p m).

(** The two grids saved under [p]. *)
Definition with_grids (p : path) (cats exs : list Z) (m : gmap path Node)
  : gmap path Node :=
  <[os_path_join p "exemplar_trials.npy" := File (FInts exs)]>
    (<[os_path_join p "category_trials.npy" := File (FInts cats)]> m).

(** What every sweep over an existing directory logs first. *)
Definition sweep_prelude (p : path) (cats exs : list Z) : list Event :=
  [EvWarn overwrite_warning; EvRmtree p; EvMkdir p;
   EvSave (os_path_join p "category_trials.npy") (FInts cats);
   EvSave (os_path_join p "exemplar_trials.npy") (FInts exs)].

(** A log that ends with a call of [exectue_fn] is the log of a
    computation that raised, with the exception of the call if the call
    raised, and that left [sys.stdout] at the log file of the call's cell. *)
Definition stops_at_call (p : path) {A} (o : Out A) : Prop :=
  forall c e inner r,
    last (evs o) = Some (EvExec c e inner r) ->
    (exists x, res o = Raise x /\ forall y, r = Raise y -> x = y) /\
    stdout (st o) = LogFile (os_path_join p (log_name c e)).

(** A training run with a batch size between [lo] and [hi]. *)
Definition batch_within (lo hi : Z) (ev : Event) : Prop :=
  match ev with
  | EvTrain _ _ b _ _ _ => (lo <= b <= hi)%Z
  | _ => True
  end.

(** A call of [exectue_fn] all of whose training runs have a batch size
    between [lo] and [hi]. *)
Definition calls_train_within (lo hi : Z) (ev : Event) : Prop :=
  match ev with
  | EvExec _ _ inner _ => Forall (batch_within lo hi) inner
  | _ => True
  end.

(** A computation that leaves the node [n] at the path [q], if it is
    there. *)
Definition keeps (q : path) (n : Node) {A} (m : M A) : Prop :=
  forall s, fs s !! q = Some n -> fs (st (m s)) !! q = Some n.

(** The number of training runs logged inside a call of [exectue_fn]. *)
Definition trainings_in (ev : Event) : nat :=
  match ev with
  | EvExec _ _ inner _ => count is_train inner
  | _ => 0%nat
  end.

(** Reading back the two numbers from a name made by [log_name]: the
    decimal digits at the front of a string, an integer with its sign, and
    the two integers after the fixed parts ["log_ca"] and ["_ex"]. *)
Fixpoint read_digits (acc : N) (s : string) : N * string :=
  match s with
  | String a t =>
      match Ascii.is_nat a with
      | Some d => read_digits (10 * acc + N.of_nat d) t
      | None => (acc, s)
      end
  | EmptyString => (acc, s)
  end.

Definition read_int (s : string) : Z * string :=
  match s with
  | String a t =>
      if decide (a = "-"%char)
      then let r := read_digits 0 t in (- Z.of_N r.1, r.2)%Z
      else let r := read_digits 0 s in (Z.of_N r.1, r.2)
  | EmptyString => (0%Z, s)
  end.

Fixpoint drop_chars (n : nat) (s : string) : string :=
  match n, s with
  | S n', String _ t => drop_chars n' t
  | _, _ => s
  end.

Definition read_log_name (s : string) : Z * Z :=
  let r1 := read_int (drop_chars 6 s) in
  let r2 := read_int (drop_chars 3 r1.2) in
  (r1.1, r2.1).

Definition is_session_open (e : Event) : bool :=
  match e with EvSessionOpen => true | _ => false end.

Definition is_session_close (e : Event) : bool :=
  match e with EvSessionClose => true | _ => false end.

(** A training run started for [epochs] epochs, with the checkpoint callback
    of the script and its burn period of 100 epochs. *)
Definition trains_as_configured (epochs : Z) (ev : Event) : Prop :=
  match ev with
  | EvTrain _ n _ c burn _ =>
      n = epochs /\ burn = 100%Z /\ filepath c = weights_file /\
      monitor c = "loss" /\ save_best_only c = true /\
      save_weights_only c = true /\ period c = 2%Z
  | _ => True
  end.

(** [experiment_loop] cut short after the first [n] cells of its grid: lines
    129 to 145, then the first [n] rounds of the two loops of lines 146 to
    161, without the closing message.  It returns the two tensors. *)
Definition sweep_upto
    (f : Z -> Z -> Params Noise -> M (list Score * list Score))
    (cats exs : list Z) (params : Params Noise) (p : path) (n : nat)
  : M (Tensor * Tensor) :=
  let* stdout0 := gets stdout in
  fresh_results_dir p ;;
  np_save (os_path_join p "category_trials.npy") (FInts cats) ;;
  np_save (os_path_join p "exemplar_trials.npy") (FInts exs) ;;
  let* results_o1_gen :=
    np_zeros (length cats) (length exs) (nb_trials params) in
  let* results_o2_gen :=
    np_zeros (length cats) (length exs) (nb_trials params) in
  for_each (take n (cells cats exs)) (cell_body f params p stdout0)
    (results_o1_gen, results_o2_gen).

(** [logs] are the cells the sweep completed, in order, each with what it
    left behind: there are no more of them than the grid has cells; the
    sweep up to and including cell number [m] returns the
    tensors of [logs !! m], in the store of [logs !! m], having logged
    [header] and the events of the cells up to that one; the cell after the
    last of [logs], if the grid has one, did not complete, it raised and so
    did the sweep; and the whole sweep is the sweep up to the last cell of
    the grid followed by the closing message. *)
Definition completed_cells
    (f : Z -> Z -> Params Noise -> M (list Score * list Score))
    (cats exs : list Z) (params : Params Noise) (p : path) (s : Store)
    (header : list Event) (logs : list CellLog) : Prop :=
  (length logs <= length (cells cats exs))%nat /\
  (forall m k,
     logs !! m = Some k ->
     sweep_upto f cats exs params p (S m) s =
     mkOut (Ok (cl_T1 k, cl_T2 k)) (cl_store k)
       (header ++
        concat (take (S m)
                  (zip_with (cell_events p (stdout s)) (cells cats exs)
                     logs)))) /\
  ((length logs < length (cells cats exs))%nat ->
   exists x,
     res (sweep_upto f cats exs params p (S (length logs)) s) = Raise x /\
     res (experiment_loop f cats exs params p s) = Raise x) /\
  experiment_loop f cats exs params p s =
    bind (sweep_upto f cats exs params p (length (cells cats exs)))
      (fun _ => print MsgLoopComplete) s.

End Observations.

(** ** A small instance of the collaborators

    Numbers stand for everything: the generator counts its draws, a pool is
    a range of numbers, a stimulus is a number, noise adds to it.  The
    trainer refuses a batch size of zero and writes a snapshot only when the
    epoch budget exceeds the burn-in. *)
Module Demo.

Definition pool (k : nat) : list nat * list nat := (seq k 50, seq (k + 50) 50).

Definition sum_list (l : list nat) : nat := foldr Nat.add 0%nat l.

Definition demo_train (model : list nat) (x : list nat) (y : nat)
    (epochs bsize : Z) (c : Checkpoint) (burn : Z) (g : nat)
  : TrainOutcome (list nat) (list nat) nat :=
  if (bsize <=? 0)%Z then mkTrainOutcome (Raise TrainerError) None (S g)
  else
    mkTrainOutcome (Ok (g :: model))
      (if (burn <? epochs)%Z then Some [sum_list x; g] else None) (S g).

#[export] Instance demo : Learning2Learn := {|
  Rng := nat;
  AttrValue := nat;
  DataFrame := list nat;
  Labels := list nat;
  Batch := list nat;
  OneHot := nat;
  Noise := nat;
  Score := nat;
  Model := list nat;
  Weights := list nat;
  score_zero := 0%nat;
  np_random_seed := fun z _ => Z.to_nat z;
  np_random_randint := fun n g => ((7 * g + 3)%nat, S g);
  get_train_test_parameters := fun _ _ g => ((pool 0, pool 100, pool 200), S g);
  synthesize_data := fun c e g =>
    let l := seq 0 (Z.to_nat c) ≫= (fun k => replicate (Z.to_nat e) k) in
    ((l, l), S g);
  build_train_set_bits := fun df st ct tt g =>
    ((fun k => st !!! k + ct !!! k + tt !!! k)%nat <$> df, S g);
  build_test_trials_o1_bits := fun df st ste ct cte tt tte nb g =>
    ((fun k => st !!! k + ct !!! (k + 1) + tt !!! (k + 2) + 1)%nat
       <$> seq g (Z.to_nat nb), S g);
  build_test_trials_o2_bits := fun ste cte tte nb g =>
    ((fun k => ste !!! k + cte !!! k + tte !!! k)%nat
       <$> seq g (Z.to_nat nb), S g);
  ohe_fit_transform := fun l => length (remove_dups l);
  batch_width := fun _ => 60%Z;
  onehot_width := fun y => Z.of_nat y;
  add_noise := fun x p g => ((fun v => v + p * g)%nat <$> x, S g);
  simple_mlp := fun nb_in nb_classes g =>
    ([Z.to_nat nb_in; Z.to_nat nb_classes; g], S g);
  train_model := demo_train;
  set_weights := fun m w => w ++ m;
  evaluate_generalization := fun m x _ _ => (sum_list m + sum_list x)%nat;
  noise_in_unit_interval := fun p => (p <=? 100)%nat;
|}.

(** A store with the working directory, [..], [../data] and [../results]. *)
Definition store0 : Store :=
  mkStore 0%nat
    (<[ [] := Dir ]> (<[ [".."] := Dir ]> (<[ [".."; "data"] := Dir ]>
      (<[ [".."; "results"] := Dir ]> ∅))))
    Console.

Definition params0 (trials : Z) : Params (@Noise demo) :=
  mkParams 400 32 trials 3 1%nat.

(** The same store with results of an earlier sweep in [../results/old]. *)
Definition store1 : Store :=
  mkStore 0%nat
    (<[ [".."; "results"; "old"] := Dir ]>
       (<[ [".."; "results"; "old"; "results_o1_gen.npy"]
             := File (FTensor [[[7%nat]]]) ]>
          (<[ [".."; "results"; "old"; "log_ca0002_ex0003"] := File FText ]>
             (fs store0))))
    Console.

(** Command-line arguments: the defaults of the script for the epochs and
    the batch size, no noise, and [../results/old] as the results path. *)
Definition args0 : @Args demo :=
  mkArgs 400 [".."; "results"; "old"] 0%nat 32.

End Demo.

(** * Properties *)

Section Facts.
Context `{L : Learning2Learn}.

(** ** The monad *)

Lemma bind_Ok {A B} (m : M A) (f : A -> M B) s a :
  res (m s) = Ok a ->
  bind m f s =
  mkOut (res (f a (st (m s)))) (st (f a (st (m s))))
    (evs (m s) ++ evs (f a (st (m s)))).
Proof. intros H. unfold bind. now rewrite H. Qed.

Lemma bind_Raise {A B} (m : M A) (f : A -> M B) s e :
  res (m s) = Raise e ->
  bind m f s = mkOut (Raise e) (st (m s)) (evs (m s)).
Proof. intros H. unfold bind. now rewrite H. Qed.

Lemma bind_run {A B} (m : M A) (f : A -> M B) s r s1 l :
  m s = mkOut r s1 l ->
  bind m f s =
  match r with
  | Ok a => mkOut (res (f a s1)) (st (f a s1)) (l ++ evs (f a s1))
  | Raise e => mkOut (Raise e) s1 l
  end.
Proof. intros H. unfold bind. rewrite H. now destruct r. Qed.

Lemma res_bind_Ok {A B} (m : M A) (f : A -> M B) s b :
  res (bind m f s) = Ok b ->
  exists a, res (m s) = Ok a /\ res (f a (st (m s))) = Ok b.
Proof.
  unfold bind. destruct (res (m s)) as [a|e]; cbn; [eauto | discriminate].
Qed.

Lemma evs_bind_prefix {A B} (m : M A) (f : A -> M B) s :
  exists t, evs (bind m f s) = evs (m s) ++ t.
Proof.
  unfold bind. destruct (res (m s)); cbn; [eauto |].
  exists []. now rewrite app_nil_r.
Qed.

Lemma Forall_evs_bind {A B} (Q : Event -> Prop) (m : M A) (f : A -> M B) s :
  Forall Q (evs (m s)) ->
  (forall a, res (m s) = Ok a -> Forall Q (evs (f a (st (m s))))) ->
  Forall Q (evs (bind m f s)).
Proof.
  intros Hm Hf. unfold bind. destruct (res (m s)) as [a|e]; cbn; [|done].
  apply Forall_app. split; [done | now apply Hf].
Qed.

Lemma Forall_evs_for_each {A S} (Q : Event -> Prop)
    (l : list A) (body : A -> S -> M S) :
  (forall a acc s, a ∈ l -> Forall Q (evs (body a acc s))) ->
  forall acc s, Forall Q (evs (for_each l body acc s)).
Proof.
  induction l as [|a l IH]; intros Hb acc s; cbn; [constructor|].
  apply Forall_evs_bind.
  - apply Hb. constructor.
  - intros acc' _. apply IH. intros. apply Hb. now constructor.
Qed.

(** ** Counting events *)

Lemma count_app f l1 l2 : count f (l1 ++ l2) = (count f l1 + count f l2)%nat.
Proof. unfold count. now rewrite List.filter_app, length_app. Qed.

Lemma count_none f l : Forall (fun e => f e = false) l -> count f l = 0%nat.
Proof.
  unfold count. induction 1 as [|e l He _ IH]; cbn; [done|]. now rewrite He.
Qed.

(** ** One repetition *)

Lemma Forall_evs_bind_any {A B} (Q : Event -> Prop)
    (m : M A) (f : A -> M B) s :
  Forall Q (evs (m s)) ->
  (forall a s', Forall Q (evs (f a s'))) ->
  Forall Q (evs (bind m f s)).
Proof. intros Hm Hf. apply Forall_evs_bind; auto. Qed.

Lemma evs_remove_stale_weights s :
  evs (remove_stale_weights s) =
  if is_file (fs s) weights_file then [EvRemove weights_file] else [].
Proof.
  unfold remove_stale_weights, os_path_isfile, os_remove, bind, gets, is_file.
  destruct (fs s !! weights_file) as [[|d]|] eqn:E; cbn; rewrite ?E; done.
Qed.

Lemma st_remove_stale_weights s :
  st (remove_stale_weights s) =
  if is_file (fs s) weights_file
  then set_fs (delete weights_file (fs s)) s else s.
Proof.
  unfold remove_stale_weights, os_path_isfile, os_remove, bind, gets, is_file.
  destruct (fs s !! weights_file) as [[|d]|] eqn:E; cbn; rewrite ?E; done.
Qed.

Lemma res_remove_stale_weights s : res (remove_stale_weights s) = Ok tt.
Proof.
  unfold remove_stale_weights, os_path_isfile, os_remove, bind, gets, is_file.
  destruct (fs s !! weights_file) as [[|d]|] eqn:E; cbn; rewrite ?E; done.
Qed.

Lemma evs_write_file p d s : evs (write_file p d s) = [].
Proof.
  unfold write_file, bind, gets. cbn.
  destruct (fs s !! p) as [[|?]|]; cbn; try done;
    destruct (is_dir (fs s) (parent p)); done.
Qed.

Lemma evs_call_train_model model x y epochs bsize c burn s :
  evs (call_train_model model x y epochs bsize c burn s) =
  [EvTrain x epochs bsize c burn
     (saved (train_model model x y epochs bsize c burn (rng s)))].
Proof.
  unfold call_train_model, bind, gets. cbn -[write_file].
  destruct (saved _) as [w|]; cbn -[write_file].
  - rewrite evs_write_file.
    destruct (res (write_file _ _ _)); cbn; [|done].
    now destruct (trained _).
  - now destruct (trained _).
Qed.

Lemma evs_load_weights model p s :
  evs (load_weights model p s) = [EvLoadWeights p].
Proof.
  unfold load_weights, bind, gets. cbn.
  destruct (fs s !! p) as [[|[]]|]; reflexivity.
Qed.

Lemma remove_stale_weights_run s :
  remove_stale_weights s =
  if is_file (fs s) weights_file
  then mkOut (Ok tt) (set_fs (delete weights_file (fs s)) s)
         [EvRemove weights_file]
  else mkOut (Ok tt) s [].
Proof.
  unfold remove_stale_weights, os_path_isfile, os_remove, bind, gets, is_file.
  destruct (fs s !! weights_file) as [[|d]|] eqn:E; cbn; rewrite ?E; done.
Qed.

Lemma call_train_model_run model x y epochs bsize c burn s :
  let o := train_model model x y epochs bsize c burn (rng s) in
  let s1 := set_rng (rng_after o) s in
  let ev := EvTrain x epochs bsize c burn (saved o) in
  call_train_model model x y epochs bsize c burn s =
  match saved o with
  | None => mkOut (trained o) s1 [ev]
  | Some w =>
      match fs s !! filepath c with
      | Some Dir => mkOut (Raise OSError) s1 [ev]
      | _ =>
          if is_dir (fs s) (parent (filepath c))
          then mkOut (trained o)
                 (set_fs (<[filepath c := File (FWeights w)]> (fs s)) s1) [ev]
          else mkOut (Raise FileNotFoundError) s1 [ev]
      end
  end.
Proof.
  unfold call_train_model, write_file, bind, gets. cbn.
  destruct (saved _) as [w|]; cbn.
  - destruct (fs s !! filepath c) as [[|?]|]; cbn; try done;
      destruct (is_dir (fs s) (parent (filepath c))); cbn; try done;
      now destruct (trained _).
  - now destruct (trained _).
Qed.

Lemma load_weights_run model p s :
  load_weights model p s =
  mkOut (match fs s !! p with
         | Some (File (FWeights w)) => Ok (set_weights model w)
         | _ => Raise OSError
         end) s [EvLoadWeights p].
Proof.
  unfold load_weights, bind, gets. cbn.
  destruct (fs s !! p) as [[|[]]|]; reflexivity.
Qed.

(** Case analysis on an event under a predicate defined by cases. *)
Ltac ev_cases :=
  let ev := fresh "ev" in
  intros ev; destruct ev; cbn; try done;
  repeat match goal with
         | |- context [match ?x with _ => _ end] => destruct x; cbn; try done
         end;
  try tauto.

Ltac evs_leaf := cbn; repeat constructor; cbn; auto.

Ltac evs_step :=
  lazymatch goal with
  | |- Forall _ (evs (bind _ _ _)) =>
      apply Forall_evs_bind_any; [| intros ? ?]
  | |- Forall _ (evs (match ?x with _ => _ end _)) => destruct x
  | |- Forall _ (evs (for_each _ _ _ _)) =>
      apply Forall_evs_for_each; intros ? ? ? _
  end.

Lemma run_trial_evs X_train Y_train X1 X2 bsize params i acc s :
  Forall (trial_ev X_train X1 X2 bsize params)
    (evs (run_trial X_train Y_train X1 X2 bsize params i acc s)).
Proof.
  unfold run_trial.
  repeat evs_step;
    rewrite ?evs_remove_stale_weights, ?evs_call_train_model,
      ?evs_load_weights;
    try destruct (is_file _ _); evs_leaf.
Qed.

(** ** Splitting values off a pool *)

Lemma split_off_spec {A} (k : nat) : forall (x : list A) (g : Rng),
  (k <= length x)%nat ->
  length (split_off k x g).1.1 = (length x - k)%nat /\
  length (split_off k x g).1.2 = k /\
  sublist (split_off k x g).1.1 x /\
  (split_off k x g).1.1 ++ (split_off k x g).1.2 ≡ₚ x.
Proof.
  induction k as [|k IH]; intros x g Hk; cbn.
  - repeat split; [lia | done | by rewrite app_nil_r].
  - assert (Hi : (((np_random_randint (length x) g).1 mod length x)
                  < length x)%nat)
      by (apply Nat.mod_upper_bound; lia).
    destruct (lookup_lt_is_Some_2 _ _ Hi) as [a Ha]. rewrite Ha. cbn.
    set (i := ((np_random_randint (length x) g).1 mod length x)%nat) in *.
    assert (Hd : length (delete i x) = (length x - 1)%nat).
    { rewrite length_delete by eauto. lia. }
    destruct (IH (delete i x) (np_random_randint (length x) g).2)
      as (H1 & H2 & H3 & H4); [lia|].
    repeat split.
    + rewrite H1. lia.
    + now rewrite H2.
    + etrans; [exact H3 | apply sublist_delete].
    + rewrite <- Permutation_middle, H4. symmetry.
      now apply delete_Permutation.
Qed.

Lemma train_test_split_run {A} (a : Attr) (x : list A) (k : Z) s :
  (0 <= k <= Z.of_nat (length x))%Z ->
  train_test_split a x k s =
  mkOut (Ok (split_off (Z.to_nat k) x (rng s)).1)
    (set_rng (split_off (Z.to_nat k) x (rng s)).2 s) [EvSplit a k].
Proof.
  intros Hk. unfold train_test_split.
  replace ((k <? 0)%Z || (Z.of_nat (length x) <? k)%Z) with false by lia.
  reflexivity.
Qed.

Lemma train_test_split_evs {A} (a : Attr) (x : list A) (k : Z) s :
  evs (train_test_split a x k s) = [EvSplit a k].
Proof.
  unfold train_test_split. cbn.
  now destruct ((k <? 0)%Z || (Z.of_nat (length x) <? k)%Z).
Qed.

(** With fifty or more categories the pools are handed on as they are. *)
Lemma reduce_train_pools_keep c (st0 ct0 tt0 : list AttrValue) s :
  (c <? 50)%Z = false ->
  reduce_train_pools c st0 ct0 tt0 s = mkOut (Ok (st0, ct0, tt0)) s [].
Proof. intros H. unfold reduce_train_pools. now rewrite H. Qed.

(** With fewer, and pools of fifty values, each pool keeps [c] of its
    values and nothing else is logged than the three splits. *)
Lemma reduce_train_pools_cut c (st0 ct0 tt0 : list AttrValue) s :
  (0 <= c < 50)%Z ->
  length st0 = 50%nat -> length ct0 = 50%nat -> length tt0 = 50%nat ->
  exists st' ct' tt' g,
    reduce_train_pools c st0 ct0 tt0 s =
    mkOut (Ok (st', ct', tt')) (set_rng g s)
      [EvSplit Shape (50 - c); EvSplit Color (50 - c);
       EvSplit Texture (50 - c)] /\
    (length st' = Z.to_nat c /\ sublist st' st0) /\
    (length ct' = Z.to_nat c /\ sublist ct' ct0) /\
    (length tt' = Z.to_nat c /\ sublist tt' tt0).
Proof.
  intros Hc H1 H2 H3. unfold reduce_train_pools.
  replace (c <? 50)%Z with true by lia.
  assert (Hk : forall x : list AttrValue, length x = 50%nat ->
            (0 <= 50 - c <= Z.of_nat (length x))%Z) by (intros; lia).
  assert (Hn : forall x : list AttrValue, length x = 50%nat ->
            (Z.to_nat (50 - c) <= length x)%nat) by (intros; lia).
  rewrite (bind_run _ _ _ _ _ _ (train_test_split_run Shape st0 _ s (Hk _ H1))).
  destruct (split_off (Z.to_nat (50 - c)) st0 (rng s)) as [[st' r1] g1] eqn:E1.
  cbn.
  rewrite (bind_run _ _ _ _ _ _
             (train_test_split_run Color ct0 _ (set_rng g1 s) (Hk _ H2))).
  destruct (split_off (Z.to_nat (50 - c)) ct0 (rng (set_rng g1 s)))
    as [[ct' r2] g2] eqn:E2.
  cbn.
  rewrite (bind_run _ _ _ _ _ _
             (train_test_split_run Texture tt0 _
                (set_rng g2 (set_rng g1 s)) (Hk _ H3))).
  destruct (split_off (Z.to_nat (50 - c)) tt0 (rng (set_rng g2 (set_rng g1 s))))
    as [[tt' r3] g3] eqn:E3.
  cbn. exists st', ct', tt', g3. split; [reflexivity|].
  pose proof (split_off_spec _ st0 (rng s) (Hn _ H1)) as S1.
  pose proof (split_off_spec _ ct0 (rng (set_rng g1 s)) (Hn _ H2)) as S2.
  pose proof (split_off_spec _ tt0 (rng (set_rng g2 (set_rng g1 s)))
                (Hn _ H3)) as S3.
  rewrite E1 in S1. rewrite E2 in S2. rewrite E3 in S3. cbn in S1, S2, S3.
  repeat split; try tauto; lia.
Qed.

Lemma reduce_train_pools_evs c (st0 ct0 tt0 : list AttrValue) s :
  Forall (fun e => exists a, e = EvSplit a (50 - c))
    (evs (reduce_train_pools c st0 ct0 tt0 s)).
Proof.
  unfold reduce_train_pools. destruct (c <? 50)%Z; [|constructor].
  repeat evs_step; rewrite ?train_test_split_evs; evs_leaf; eauto.
Qed.

(** ** The setup *)

Lemma run_setup_assert c e params s :
  (c <=? 50)%Z = false ->
  run_setup c e params s = mkOut (Raise AssertionError) s [].
Proof. intros H. unfold run_setup. now rewrite H. Qed.

(** The events of the setup, given how the reduction of the pools ends. *)
Lemma run_setup_shape c e params s :
  (c <=? 50)%Z = true ->
  exists pools g1 o,
    get_train_test_parameters false 20 (np_random_seed 0 (rng s)) = (pools, g1)
    /\ o = reduce_train_pools c pools.1.1.1 pools.1.2.1 pools.2.1
             (mkStore g1 (fs s) (stdout s))
    /\ match res o with
       | Raise x =>
           run_setup c e params s =
           mkOut (Raise x) (st o)
             ([EvSeed 0; EvSessionOpen; EvSetSession; EvGetParameters]
                ++ evs o)
       | Ok (st', ct', tt') =>
           exists X_train Y_train x1 y1 x2 y2 s',
             run_setup c e params s =
             mkOut
               (Ok (X_train, Y_train, y1, y2,
                    Z.min (batch_size params) (batch_cap c e)))
               s'
               ([EvSeed 0; EvSessionOpen; EvSetSession; EvGetParameters]
                  ++ evs o
                  ++ [EvPrint (stdout (st o)) MsgBuildingTrain;
                      EvSynthesize c e;
                      EvBuildTrain st' ct' tt';
                      EvPrint (stdout (st o)) MsgBuildingTest;
                      EvBuildTestO1 st' pools.1.1.2 ct' pools.1.2.2
                        tt' pools.2.2 (nb_test params);
                      EvBuildTestO2 pools.1.1.2 pools.1.2.2 pools.2.2
                        (nb_test params);
                      EvAddNoise (TestSet Order1) x1 y1;
                      EvAddNoise (TestSet Order2) x2 y2])
             /\ fs s' = fs (st o) /\ stdout s' = stdout (st o)
       end.
Proof.
  intros Hc. unfold run_setup. rewrite Hc.
  destruct (get_train_test_parameters false 20 (np_random_seed 0 (rng s)))
    as [[[[st0 ste] [ct0 cte]] [tt0 tte]] g1] eqn:Hp.
  eexists _, _, _. split; [reflexivity|]. split; [reflexivity|].
  cbn. rewrite Hp. cbn.
  change (set_rng g1 (set_rng (np_random_seed 0 (rng s)) s))
    with (mkStore g1 (fs s) (stdout s)).
  destruct (reduce_train_pools c st0 ct0 tt0 (mkStore g1 (fs s) (stdout s)))
    as [[[[st' ct'] tt']|x] s1 ev1] eqn:Ho;
    rewrite (bind_run _ _ _ _ _ _ Ho); cbn; [|done].
  destruct (synthesize_data c e (rng s1)) as [[df labels] g2].
  cbn. eexists _, _, _, _, _, _, _. split; [reflexivity|].
  split; reflexivity.
Qed.

Lemma run_setup_evs c e params s :
  (c <=? 50)%Z = true ->
  exists rest,
    evs (run_setup c e params s) = EvSeed 0 :: rest /\ Forall setup_ev rest.
Proof.
  intros Hc.
  destruct (run_setup_shape c e params s Hc) as (pools & g1 & o & _ & Ho & H).
  assert (Hs : Forall setup_ev (evs o)).
  { subst o. eapply Forall_impl; [apply reduce_train_pools_evs|].
    intros ? [a ->]. exact I. }
  destruct (res o) as [[[st' ct'] tt']|x].
  - destruct H as (X & Y & x1 & y1 & x2 & y2 & s' & -> & _). cbn.
    eexists. split; [reflexivity|].
    repeat (apply Forall_cons; split; [exact I|]).
    apply Forall_app. split; [exact Hs|]. repeat constructor.
  - rewrite H. cbn. eexists. split; [reflexivity|].
    repeat (apply Forall_cons; split; [exact I|]). exact Hs.
Qed.

(** ** The whole call *)

Lemma run_experiment_run c e params s :
  let o := run_setup c e params s in
  match res o with
  | Raise x => run_experiment c e params s = mkOut (Raise x) (st o) (evs o)
  | Ok (X_train, Y_train, y1, y2, bsize) =>
      let l := for_each (py_range (nb_trials params))
                 (run_trial X_train Y_train y1 y2 bsize params) ([], [])
                 (st o) in
      run_experiment c e params s =
      match res l with
      | Ok sc =>
          mkOut (Ok sc) (st l)
            (evs o ++ evs l ++ [EvClearSession; EvSessionClose])
      | Raise x => mkOut (Raise x) (st l) (evs o ++ evs l)
      end
  end.
Proof.
  unfold run_experiment. cbn zeta.
  destruct (run_setup c e params s)
    as [[[[[[X Y] y1] y2] b]|x] s1 l1] eqn:Ho;
    rewrite (bind_run _ _ _ _ _ _ Ho); cbn; [|done].
  destruct (for_each _ _ _ s1) as [[sc|x] s2 l2] eqn:Hl;
    rewrite (bind_run _ _ _ _ _ _ Hl); cbn; done.
Qed.

(** Every event of a call, after the reseeding, is an event of the setup, an
    event of a repetition, or the closing of the session: what holds of all
    of these holds of every event of the call. *)
Lemma run_experiment_evs (Q : Event -> Prop) c e params s :
  (c <=? 50)%Z = true ->
  (forall ev, setup_ev ev -> Q ev) ->
  (forall X_train y1 y2 ev,
     trial_ev X_train y1 y2 (Z.min (batch_size params) (batch_cap c e))
       params ev -> Q ev) ->
  Q EvClearSession -> Q EvSessionClose ->
  exists rest,
    evs (run_experiment c e params s) = EvSeed 0 :: rest /\ Forall Q rest.
Proof.
  intros Hc Qs Qt Q1 Q2. pose proof (run_experiment_run c e params s) as Hr.
  destruct (run_setup_evs c e params s Hc) as (rest & Hev & Hrest).
  destruct (run_setup_shape c e params s Hc) as (pools & g1 & o & _ & _ & H).
  cbn zeta in Hr.
  assert (Hs : Forall Q rest) by (eapply Forall_impl; eauto).
  destruct (res o) as [[[st' ct'] tt']|x].
  - destruct H as (X & Y & x1 & y1 & x2 & y2 & s' & H & _).
    rewrite H in Hr, Hev. cbn [res st evs] in Hr, Hev.
    set (l := for_each _ _ _ s') in Hr.
    assert (Hl : Forall Q (evs l)).
    { eapply Forall_impl.
      - apply Forall_evs_for_each. intros. apply run_trial_evs.
      - intros ev Hev'. eapply Qt, Hev'. }
    exists (rest ++ evs l ++
              match res l with
              | Ok _ => [EvClearSession; EvSessionClose] | Raise _ => []
              end).
    split.
    + destruct (res l); rewrite Hr; cbn [evs]; rewrite Hev; cbn;
        now rewrite ?app_nil_r.
    + rewrite !Forall_app. repeat split; [apply Hs | exact Hl |].
      destruct (res l); repeat constructor; auto.
  - rewrite H in Hr, Hev. cbn [res st evs] in Hr, Hev.
    exists rest. split; [now rewrite Hr | apply Hs].
Qed.

(** ** A repetition that completes *)

(** A repetition that returns has logged exactly this: the snapshot the model
    is evaluated with is the one its own training saved. *)
Lemma run_trial_Ok X_train Y_train y1 y2 bsize params i acc s sc :
  res (run_trial X_train Y_train y1 y2 bsize params i acc s) = Ok sc ->
  exists xn m w,
    let m' := set_weights m w in
    let sc1 := evaluate_generalization m' y1 (-3) 128 in
    let sc2 := evaluate_generalization m' y2 (-3) 128 in
    evs (run_trial X_train Y_train y1 y2 bsize params i acc s) =
      [EvPrint (stdout s) (MsgRound (i + 1));
       EvAddNoise TrainSet X_train xn;
       EvModel (batch_width X_train) (onehot_width Y_train)]
      ++ (if is_file (fs s) weights_file then [EvRemove weights_file] else [])
      ++ [EvTrain xn (nb_epochs params) bsize the_checkpoint 100 (Some w);
          EvLoadWeights weights_file;
          EvEvaluate Order1 m' y1 sc1;
          EvEvaluate Order2 m' y2 sc2;
          EvPrint (stdout s) (MsgFirstOrder sc1);
          EvPrint (stdout s) (MsgSecondOrder sc2)] /\
    sc = (acc.1 ++ [sc1], acc.2 ++ [sc2]) /\
    fs (st (run_trial X_train Y_train y1 y2 bsize params i acc s))
      !! weights_file = Some (File (FWeights w)) /\
    stdout (st (run_trial X_train Y_train y1 y2 bsize params i acc s))
      = stdout s.
Proof.
  unfold run_trial.
  cbn -[remove_stale_weights call_train_model load_weights].
  change (mkCheckpoint weights_file "loss" true true 2) with the_checkpoint.
  set (s2 := set_rng _ (set_rng _ s)).
  set (xn := (add_noise X_train (noise params) (rng s)).1).
  set (m0 := (simple_mlp _ _ _).1).
  assert (Hrest : forall s3 : Store,
    is_file (fs s3) weights_file = false -> stdout s3 = stdout s ->
    let k := (let* model :=
                call_train_model m0 xn Y_train (nb_epochs params) bsize
                  the_checkpoint 100 in
              let* model0 := load_weights model weights_file in
              let* score_order1 :=
                call_evaluate_generalization Order1 model0 y1 (-3) 128 in
              let* score_order2 :=
                call_evaluate_generalization Order2 model0 y2 (-3) 128 in
              print (MsgFirstOrder score_order1) ;;
              print (MsgSecondOrder score_order2) ;;
              ret (acc.1 ++ [score_order1], acc.2 ++ [score_order2])) s3 in
    res k = Ok sc ->
    exists m w,
      let m' := set_weights m w in
      let sc1 := evaluate_generalization m' y1 (-3) 128 in
      let sc2 := evaluate_generalization m' y2 (-3) 128 in
      evs k =
        [EvTrain xn (nb_epochs params) bsize the_checkpoint 100 (Some w);
         EvLoadWeights weights_file;
         EvEvaluate Order1 m' y1 sc1;
         EvEvaluate Order2 m' y2 sc2;
         EvPrint (stdout s) (MsgFirstOrder sc1);
         EvPrint (stdout s) (MsgSecondOrder sc2)] /\
      sc = (acc.1 ++ [sc1], acc.2 ++ [sc2]) /\
      fs (st k) !! weights_file = Some (File (FWeights w)) /\
      stdout (st k) = stdout s).
  { intros s3 Hnf Hout k. subst k.
    pose proof (call_train_model_run m0 xn Y_train (nb_epochs params) bsize
                  the_checkpoint 100 s3) as Ht.
    cbn zeta in Ht. change (filepath the_checkpoint) with weights_file in Ht.
    unfold is_file in Hnf.
    destruct (saved _) as [w|].
    - destruct (fs s3 !! weights_file) as [[|d]|] eqn:Hlk; [|done|].
      + rewrite (bind_run _ _ _ _ _ _ Ht). discriminate.
      + destruct (is_dir (fs s3) (parent weights_file));
          rewrite (bind_run _ _ _ _ _ _ Ht); [|discriminate].
        destruct (trained _) as [m1|x]; [|discriminate].
        rewrite (bind_run _ _ _ _ _ _ (load_weights_run m1 weights_file _)).
        cbn. rewrite lookup_insert_eq. cbn. rewrite Hout.
        intros [= <-]. exists m1, w. cbn.
        rewrite lookup_insert_eq. done.
    - rewrite (bind_run _ _ _ _ _ _ Ht).
      destruct (trained _) as [m1|x]; [|discriminate].
      rewrite (bind_run _ _ _ _ _ _ (load_weights_run m1 weights_file _)).
      cbn. destruct (fs s3 !! weights_file) as [[|d]|]; done. }
  pose proof (remove_stale_weights_run s2) as Hrm.
  change (fs s2) with (fs s) in Hrm.
  destruct (is_file (fs s) weights_file) eqn:Hf;
    rewrite (bind_run _ _ _ _ _ _ Hrm); cbn [res st evs]; intros H.
  - assert (Hd : is_file (fs (set_fs (delete weights_file (fs s)) s2))
                   weights_file = false).
    { unfold is_file, set_fs. cbn [fs]. now rewrite lookup_delete_eq. }
    destruct (Hrest _ Hd eq_refl H) as (m & w & H1 & H2 & H3 & H4).
    exists xn, m, w. cbn zeta. rewrite H1. done.
  - destruct (Hrest s2 Hf eq_refl H) as (m & w & H1 & H2 & H3 & H4).
    exists xn, m, w. cbn zeta. rewrite H1. done.
Qed.

Lemma filter_none (f : Event -> bool) l :
  Forall (fun e => f e = false) l -> List.filter f l = [].
Proof. induction 1 as [|e l He _ IH]; cbn; [done|]. now rewrite He. Qed.

Lemma count_for_each_Ok {A S} (f : Event -> bool) (n : nat)
    (l : list A) (body : A -> S -> M S) :
  (forall a acc s acc',
     res (body a acc s) = Ok acc' -> count f (evs (body a acc s)) = n) ->
  forall acc s acc',
    res (for_each l body acc s) = Ok acc' ->
    count f (evs (for_each l body acc s)) = (length l * n)%nat.
Proof.
  intros Hb. induction l as [|a l IH]; intros acc s acc' H;
    cbn [for_each length] in *; [done|].
  destruct (body a acc s) as [[acc1|x] s1 l1] eqn:E;
    rewrite (bind_run _ _ _ _ _ _ E) in *; cbn [res st evs] in *;
    [|discriminate].
  rewrite count_app, (IH _ _ _ H).
  pose proof (Hb a acc s acc1) as Hn. rewrite E in Hn.
  cbn [res st evs] in Hn. rewrite Hn by done. lia.
Qed.

Lemma run_trial_count X_train Y_train y1 y2 bsize params i acc s sc f :
  res (run_trial X_train Y_train y1 y2 bsize params i acc s) = Ok sc ->
  f = is_model \/ f = is_noise TrainSet \/ f = is_train \/
  f = is_evaluate Order1 \/ f = is_evaluate Order2 ->
  count f (evs (run_trial X_train Y_train y1 y2 bsize params i acc s)) = 1%nat.
Proof.
  intros H Hf. destruct (run_trial_Ok _ _ _ _ _ _ _ _ _ _ H)
    as (xn & m & w & -> & _).
  rewrite !count_app.
  destruct Hf as [->|[->|[->|[->| ->]]]];
    destruct (is_file (fs s) weights_file); reflexivity.
Qed.

Lemma py_range_length n : length (py_range n) = Z.to_nat n.
Proof. unfold py_range. now rewrite length_fmap, length_seq. Qed.

Lemma trials_count f X_train Y_train y1 y2 bsize params acc s sc :
  res (for_each (py_range (nb_trials params))
         (run_trial X_train Y_train y1 y2 bsize params) acc s) = Ok sc ->
  f = is_model \/ f = is_noise TrainSet \/ f = is_train \/
  f = is_evaluate Order1 \/ f = is_evaluate Order2 ->
  count f (evs (for_each (py_range (nb_trials params))
                  (run_trial X_train Y_train y1 y2 bsize params) acc s)) =
  Z.to_nat (nb_trials params).
Proof.
  intros H Hf.
  rewrite (count_for_each_Ok f 1 (py_range (nb_trials params))
             (run_trial X_train Y_train y1 y2 bsize params)) with (acc' := sc).
  - rewrite py_range_length. lia.
  - intros. eapply run_trial_count; eauto.
  - exact H.
Qed.

Lemma run_experiment_assert c e params s :
  (c <=? 50)%Z = false ->
  run_experiment c e params s = mkOut (Raise AssertionError) s [].
Proof.
  intros Hc. pose proof (run_experiment_run c e params s) as H.
  cbn zeta in H. now rewrite (run_setup_assert _ _ _ _ Hc) in H.
Qed.

(** A call that returns has gone through the setup and all repetitions. *)
Lemma run_experiment_Ok c e params s sc :
  res (run_experiment c e params s) = Ok sc ->
  (c <=? 50)%Z = true /\
  exists X_train Y_train y1 y2 s1 pre,
    run_setup c e params s =
      mkOut (Ok (X_train, Y_train, y1, y2,
                 Z.min (batch_size params) (batch_cap c e))) s1 pre /\
    let l := for_each (py_range (nb_trials params))
               (run_trial X_train Y_train y1 y2
                  (Z.min (batch_size params) (batch_cap c e)) params)
               ([], []) s1 in
    res l = Ok sc /\
    evs (run_experiment c e params s) =
      pre ++ evs l ++ [EvClearSession; EvSessionClose] /\
    st (run_experiment c e params s) = st l.
Proof.
  intros H. destruct (c <=? 50)%Z eqn:Hc.
  2:{ now rewrite (run_experiment_assert _ _ _ _ Hc) in H. }
  split; [done|].
  pose proof (run_experiment_run c e params s) as Hr. cbn zeta in Hr.
  destruct (run_setup_shape c e params s Hc) as (pools & g1 & o & _ & _ & Ho).
  destruct (res o) as [[[st' ct'] tt']|x].
  - destruct Ho as (X & Y & x1 & y1 & x2 & y2 & s' & Ho & _).
    rewrite Ho in Hr. cbn [res st evs] in Hr.
    exists X, Y, y1, y2, s'. eexists. split; [exact Ho|]. cbn zeta.
    destruct (res (for_each _ _ _ s')) as [sc'|x] eqn:Hl;
      rewrite Hr in H |- *; cbn [res st evs] in *; [|discriminate].
    now injection H as ->.
  - rewrite Ho in Hr. cbn [res] in Hr. rewrite Hr in H. discriminate.
Qed.

(** C2: in every call [run_experiment nb_categories nb_exemplars params],
    every call of the trainer is given the batch size
    [min(params['batch_size'], floor(nb_categories * nb_exemplars / 5))],
    the floor being the integer [k] with
    [5 * k <= nb_categories * nb_exemplars < 5 * k + 5];
    and a call that returns has called the trainer once per repetition. *)
Theorem batch_size_passed_to_training c e params s :
  let k := ((c * e) `div` 5)%Z in
  (5 * k <= c * e < 5 * k + 5)%Z /\
  Forall (trains_with (Z.min (batch_size params) k))
    (evs (run_experiment c e params s)) /\
  match res (run_experiment c e params s) with
  | Ok _ =>
      count is_train (evs (run_experiment c e params s)) =
      Z.to_nat (nb_trials params)
  | Raise _ => True
  end.
Proof.
  intros k. split; [|split].
  - subst k. pose proof (Z.div_mod (c * e) 5).
    pose proof (Z.mod_pos_bound (c * e) 5). lia.
  - assert (Hk : k = batch_cap c e) by reflexivity. rewrite Hk.
    destruct (c <=? 50)%Z eqn:Hc.
    + destruct (run_experiment_evs
                  (trains_with (Z.min (batch_size params) (batch_cap c e)))
                  c e params s Hc) as (rest & -> & H); try exact I.
      * now intros [].
      * intros X y1 y2 []; cbn; try done. tauto.
      * constructor; [exact I | exact H].
    + rewrite (run_experiment_assert _ _ _ _ Hc). constructor.
  - destruct (res (run_experiment c e params s)) as [sc|x] eqn:H; [|done].
    destruct (run_experiment_Ok _ _ _ _ _ H)
      as (Hc & X & Y & y1 & y2 & s1 & pre & Hs & Hl & -> & _).
    cbn zeta in Hl.
    destruct (run_setup_evs c e params s Hc) as (rest & Hev & Hrest).
    rewrite Hs in Hev. cbn [evs] in Hev. subst pre.
    rewrite !count_app.
    rewrite (trials_count is_train _ _ _ _ _ _ _ _ _ Hl) by auto 10.
    change (count is_train (EvSeed 0 :: rest)) with (count is_train rest).
    rewrite count_none; [cbn; lia|].
    eapply Forall_impl; [exact Hrest|]. now intros [].
Qed.

(** C3 (amended): the generator is reseeded from the fixed seed 0 exactly
    once per call of [run_experiment], before anything else is done, whatever
    the number of repetitions: once per grid cell, not once per
    repetition. *)
Theorem reseeded_once_per_call c e params s :
  (c <= 50)%Z ->
  exists rest,
    evs (run_experiment c e params s) = EvSeed 0 :: rest /\
    count is_seed rest = 0%nat.
Proof.
  intros Hc.
  destruct (run_experiment_evs (fun ev => is_seed ev = false) c e params s)
    as (rest & -> & H); try done.
  - lia.
  - now intros [].
  - intros X y1 y2 []; cbn; done.
  - exists rest. split; [done | now apply count_none].
Qed.

(** ** The pools handed to the builders *)

(** With train pools of fifty values and a category count between 0 and 50
    the setup succeeds, and this is what it logs. *)
Lemma run_setup_pools c e params s pools g :
  get_train_test_parameters false 20 (np_random_seed 0 (rng s)) = (pools, g) ->
  length pools.1.1.1 = 50%nat ->
  length pools.1.2.1 = 50%nat ->
  length pools.2.1 = 50%nat ->
  (0 <= c <= 50)%Z ->
  exists st' ct' tt' X_train Y_train x1 y1 x2 y2 s',
    run_setup c e params s =
      mkOut (Ok (X_train, Y_train, y1, y2,
                 Z.min (batch_size params) (batch_cap c e))) s'
        ([EvSeed 0; EvSessionOpen; EvSetSession; EvGetParameters]
           ++ split_events c
           ++ [EvPrint (stdout s) MsgBuildingTrain;
               EvSynthesize c e;
               EvBuildTrain st' ct' tt';
               EvPrint (stdout s) MsgBuildingTest;
               EvBuildTestO1 st' pools.1.1.2 ct' pools.1.2.2 tt' pools.2.2
                 (nb_test params);
               EvBuildTestO2 pools.1.1.2 pools.1.2.2 pools.2.2
                 (nb_test params);
               EvAddNoise (TestSet Order1) x1 y1;
               EvAddNoise (TestSet Order2) x2 y2]) /\
    fs s' = fs s /\ stdout s' = stdout s /\
    (length st' = Z.to_nat c /\ sublist st' pools.1.1.1) /\
    (length ct' = Z.to_nat c /\ sublist ct' pools.1.2.1) /\
    (length tt' = Z.to_nat c /\ sublist tt' pools.2.1) /\
    (c = 50%Z ->
     st' = pools.1.1.1 /\ ct' = pools.1.2.1 /\ tt' = pools.2.1).
Proof.
  intros Hp H1 H2 H3 Hc.
  destruct (run_setup_shape c e params s ltac:(lia))
    as (pools' & g' & o & Hp' & Ho & H).
  rewrite Hp in Hp'. injection Hp' as <- <-.
  unfold split_events.
  destruct (c <? 50)%Z eqn:Hlt.
  - destruct (reduce_train_pools_cut c _ _ _ (mkStore g (fs s) (stdout s))
                ltac:(lia) H1 H2 H3)
      as (st' & ct' & tt' & g2 & Hr & P1 & P2 & P3).
    rewrite Hr in Ho. subst o. cbn [res st evs] in H.
    destruct H as (X & Y & x1 & y1 & x2 & y2 & s' & H & F1 & F2).
    exists st', ct', tt', X, Y, x1, y1, x2, y2, s'.
    split; [exact H|]. repeat split; try tauto; try done. all: try (intros; lia).
  - rewrite (reduce_train_pools_keep _ _ _ _ _ Hlt) in Ho. subst o.
    cbn [res st evs] in H.
    destruct H as (X & Y & x1 & y1 & x2 & y2 & s' & H & F1 & F2).
    exists pools.1.1.1, pools.1.2.1, pools.2.1, X, Y, x1, y1, x2, y2, s'.
    split; [exact H|]. repeat split; try done; lia.
Qed.

Lemma run_experiment_after_setup c e params s X_train Y_train y1 y2 b s1 pre :
  run_setup c e params s = mkOut (Ok (X_train, Y_train, y1, y2, b)) s1 pre ->
  exists tail,
    evs (run_experiment c e params s) =
      pre ++ evs (for_each (py_range (nb_trials params))
                    (run_trial X_train Y_train y1 y2 b params) ([], []) s1)
          ++ tail /\
    Forall (fun ev => ev = EvClearSession \/ ev = EvSessionClose) tail.
Proof.
  intros Hs. pose proof (run_experiment_run c e params s) as Hr.
  cbn zeta in Hr. rewrite Hs in Hr. cbn [res st evs] in Hr.
  destruct (res (for_each _ _ _ s1)); rewrite Hr; cbn [evs].
  - eexists. split; [reflexivity|].
    repeat (apply Forall_cons; split; [auto|]). constructor.
  - exists []. now rewrite app_nil_r.
Qed.

Lemma trials_evs (Q : Event -> Prop) X_train Y_train y1 y2 b params l acc s :
  (forall ev, trial_ev X_train y1 y2 b params ev -> Q ev) ->
  Forall Q (evs (for_each l (run_trial X_train Y_train y1 y2 b params) acc s)).
Proof.
  intros HQ. eapply Forall_impl; [|exact HQ].
  apply Forall_evs_for_each. intros. apply run_trial_evs.
Qed.

(** C1: with train pools of fifty values and [0 <= C <= 50] (so for the
    [2 <= C < 50] the specification speaks of), the builders receive train
    pools of exactly [C] values each, taken from the full train pools by
    splitting off
    [50 - C] values, together with the test pools exactly as
    [get_train_test_parameters] returned them; for [C = 50] no split is made
    and the train pools are handed on as they are. *)
Theorem train_pools_reduced c e params s pools g :
  get_train_test_parameters false 20 (np_random_seed 0 (rng s)) = (pools, g) ->
  length pools.1.1.1 = 50%nat ->
  length pools.1.2.1 = 50%nat ->
  length pools.2.1 = 50%nat ->
  (0 <= c <= 50)%Z ->
  exists st' ct' tt',
    List.filter is_build (evs (run_experiment c e params s)) =
      [EvBuildTrain st' ct' tt';
       EvBuildTestO1 st' pools.1.1.2 ct' pools.1.2.2 tt' pools.2.2
         (nb_test params);
       EvBuildTestO2 pools.1.1.2 pools.1.2.2 pools.2.2 (nb_test params)] /\
    List.filter is_split (evs (run_experiment c e params s)) =
      split_events c /\
    (length st' = Z.to_nat c /\ sublist st' pools.1.1.1) /\
    (length ct' = Z.to_nat c /\ sublist ct' pools.1.2.1) /\
    (length tt' = Z.to_nat c /\ sublist tt' pools.2.1) /\
    (c = 50%Z ->
     st' = pools.1.1.1 /\ ct' = pools.1.2.1 /\ tt' = pools.2.1).
Proof.
  intros Hp H1 H2 H3 Hc.
  destruct (run_setup_pools c e params s pools g Hp H1 H2 H3 Hc)
    as (st' & ct' & tt' & X & Y & x1 & y1 & x2 & y2 & s' & Hs & _ & _ & P).
  destruct (run_experiment_after_setup _ _ _ _ _ _ _ _ _ _ _ Hs)
    as (tail & -> & Htail).
  exists st', ct', tt'. split; [|split; [|exact P]].
  - rewrite !List.filter_app.
    rewrite (filter_none is_build (evs (for_each _ _ _ _))).
    2:{ apply trials_evs. ev_cases. }
    rewrite (filter_none is_build tail).
    2:{ eapply Forall_impl; [exact Htail|]. now intros ? [-> | ->]. }
    unfold split_events. now destruct (c <? 50)%Z.
  - rewrite !List.filter_app.
    rewrite (filter_none is_split (evs (for_each _ _ _ _))).
    2:{ apply trials_evs. ev_cases. }
    rewrite (filter_none is_split tail).
    2:{ eapply Forall_impl; [exact Htail|]. now intros ? [-> | ->]. }
    unfold split_events. destruct (c <? 50)%Z; cbn; now rewrite ?app_nil_r.
Qed.

(** ** A batch size of zero *)

(** Whatever happens later, a repetition gets as far as calling the
    trainer. *)
Lemma run_trial_reaches_trainer X_train Y_train y1 y2 bsize params i acc s :
  exists xn w tail,
    evs (run_trial X_train Y_train y1 y2 bsize params i acc s) =
      [EvPrint (stdout s) (MsgRound (i + 1));
       EvAddNoise TrainSet X_train xn;
       EvModel (batch_width X_train) (onehot_width Y_train)]
      ++ (if is_file (fs s) weights_file then [EvRemove weights_file] else [])
      ++ EvTrain xn (nb_epochs params) bsize the_checkpoint 100 w :: tail.
Proof.
  unfold run_trial.
  cbn -[remove_stale_weights call_train_model load_weights].
  change (mkCheckpoint weights_file "loss" true true 2) with the_checkpoint.
  set (s2 := set_rng _ (set_rng _ s)).
  pose proof (remove_stale_weights_run s2) as Hrm.
  change (fs s2) with (fs s) in Hrm.
  destruct (is_file (fs s) weights_file);
    rewrite (bind_run _ _ _ _ _ _ Hrm); cbn [res st evs];
    match goal with
    | |- context [evs (bind ?m ?f ?s3)] =>
        destruct (evs_bind_prefix m f s3) as [t ->]
    end;
    rewrite evs_call_train_model; eexists _, _, t; reflexivity.
Qed.

(** C8 (amended): [run_experiment] does not check the batch size it
    computes.  When [min(params['batch_size'], floor(C * E / 5))] is 0 (with
    [0 <= C <= 50], train pools of fifty values and at least one repetition
    asked for) it reseeds, builds the training set and both test batches,
    creates the model and calls the trainer with [batch_size = 0]; what
    happens to a batch size of 0 is left to the trainer. *)
Theorem zero_batch_size_reaches_trainer c e params s pools g :
  get_train_test_parameters false 20 (np_random_seed 0 (rng s)) = (pools, g) ->
  length pools.1.1.1 = 50%nat ->
  length pools.1.2.1 = 50%nat ->
  length pools.2.1 = 50%nat ->
  (0 <= c <= 50)%Z ->
  (1 <= nb_trials params)%Z ->
  Z.min (batch_size params) (batch_cap c e) = 0%Z ->
  exists pre xn w post,
    evs (run_experiment c e params s) =
      pre ++ EvTrain xn (nb_epochs params) 0 the_checkpoint 100 w :: post /\
    count is_seed pre = 1%nat /\
    count is_build pre = 3%nat /\
    count is_model pre = 1%nat.
Proof.
  intros Hp H1 H2 H3 Hc Hn Hb.
  destruct (run_setup_pools c e params s pools g Hp H1 H2 H3 Hc)
    as (st' & ct' & tt' & X & Y & x1 & y1 & x2 & y2 & s' & Hs & Hfs & _).
  rewrite Hb in Hs.
  destruct (run_experiment_after_setup _ _ _ _ _ _ _ _ _ _ _ Hs)
    as (tail & -> & _).
  unfold py_range.
  destruct (Z.to_nat (nb_trials params)) as [|n] eqn:En; [lia|].
  cbn [seq fmap list_fmap for_each].
  match goal with
  | |- context [evs (bind ?m ?f ?s3)] =>
      destruct (evs_bind_prefix m f s3) as [t ->]
  end.
  destruct (run_trial_reaches_trainer X Y y1 y2 0 params (Z.of_nat 0)
              ([], []) s') as (xn & w & tl & ->).
  match goal with
  | |- context [?a ++ ((?b ++ ?r ++ _ :: tl) ++ t) ++ tail] =>
      exists (a ++ b ++ r), xn, w, (tl ++ t ++ tail)
  end.
  split.
  - repeat rewrite <- app_assoc. reflexivity.
  - rewrite !count_app. unfold split_events.
    destruct (c <? 50)%Z; destruct (is_file (fs s') weights_file);
      repeat split; reflexivity.
Qed.

(** ** Test batches and training sets *)



(** ** The checkpoint file *)















(** ** The grid of [main] *)

(** C9: for every category count of the grid [2, 4, 8, 16, 32, 50] the cap
    [floor(nb_categories * nb_exemplars / 5)] is at least 1 at every exemplar
    count of the grid [3, 6, 9, 12, 15, 18], and does not decrease from one
    exemplar count of the grid to a larger one. *)
Theorem batch_cap_on_grid c e1 e2 :
  c ∈ category_trials ->
  e1 ∈ exemplar_trials ->
  e2 ∈ exemplar_trials ->
  (e1 <= e2)%Z ->
  (1 <= batch_cap c e1 <= batch_cap c e2)%Z.
Proof.
  unfold category_trials, exemplar_trials, batch_cap.
  intros Hc H1 H2 Hle.
  assert (2 <= c)%Z.
  { repeat (apply elem_of_cons in Hc as [->|Hc]; [lia|]). inversion Hc. }
  assert (3 <= e1)%Z.
  { repeat (apply elem_of_cons in H1 as [->|H1]; [lia|]). inversion H1. }
  split.
  - apply Z.div_le_lower_bound; nia.
  - apply Z.div_le_mono; nia.
Qed.

(** ** Tensors *)

Lemma setitem_Ok T i j v s T' :
  res (setitem T i j v s) = Ok T' <-> write_slice T i j v = Some T'.
Proof.
  unfold setitem, write_slice, slice.
  destruct (T !! i ≫= (.!! j)) as [old|]; cbn; [|split; discriminate].
  destruct (broadcast_to (length old) v) as [v'|]; cbn; [|split; discriminate].
  split; intros [= <-]; reflexivity.
Qed.

Lemma setitem_pure T i j v s :
  st (setitem T i j v s) = s /\ evs (setitem T i j v s) = [].
Proof.
  unfold setitem.
  destruct (T !! i ≫= (.!! j)) as [old|]; cbn; [|done].
  destruct (broadcast_to (length old) v) as [v'|]; done.
Qed.

Lemma slice_zeros a b c i j :
  (i < a)%nat -> (j < b)%nat ->
  slice (zeros a b c) i j = Some (replicate (Z.to_nat c) score_zero).
Proof.
  intros Hi Hj. unfold slice, zeros.
  rewrite lookup_replicate_2 by done. cbn.
  now rewrite lookup_replicate_2.
Qed.

Lemma slice_alter_eq (T : Tensor) i j v old :
  slice T i j = Some old -> slice (alter (<[j := v]>) i T) i j = Some v.
Proof.
  unfold slice. intros H.
  destruct (T !! i) as [row|] eqn:Hr; [|discriminate]. cbn in H.
  rewrite list_lookup_alter_eq, Hr. cbn.
  apply list_lookup_insert_eq. eapply lookup_lt_Some; eauto.
Qed.

Lemma slice_alter_ne (T : Tensor) i j v i' j' :
  (i', j') <> (i, j) ->
  slice (alter (<[j := v]>) i T) i' j' = slice T i' j'.
Proof.
  unfold slice. intros Hne.
  destruct (decide (i = i')) as [<-|Hi].
  - rewrite list_lookup_alter_eq. destruct (T !! i) as [row|]; [|done]. cbn.
    apply list_lookup_insert_ne. congruence.
  - now rewrite list_lookup_alter_ne.
Qed.

Lemma alter_insert_id (T : Tensor) i j old :
  slice T i j = Some old -> alter (<[j := old]>) i T = T.
Proof.
  unfold slice. intros H.
  destruct (T !! i) as [row|] eqn:Hr; [|discriminate]. cbn in H.
  apply list_eq. intros k. destruct (decide (i = k)) as [<-|Hk].
  - rewrite list_lookup_alter_eq, Hr. cbn. now rewrite list_insert_id.
  - now rewrite list_lookup_alter_ne.
Qed.

(** Writing into a slice gives the slice the scores, broadcast to its
    length, and leaves every other slice alone. *)
Lemma write_slice_spec T i j v T' :
  write_slice T i j v = Some T' ->
  exists old v',
    slice T i j = Some old /\
    broadcast_to (length old) v = Some v' /\
    slice T' i j = Some v' /\
    (forall i' j', (i', j') <> (i, j) -> slice T' i' j' = slice T i' j').
Proof.
  unfold write_slice. intros H.
  destruct (slice T i j) as [old|] eqn:Ho; [|discriminate]. cbn in H.
  destruct (broadcast_to (length old) v) as [v'|] eqn:Hb; [|discriminate].
  injection H as <-. exists old, v'. repeat split; try done.
  - eapply slice_alter_eq; eauto.
  - intros. now apply slice_alter_ne.
Qed.

Lemma broadcast_zero n v v' :
  broadcast_to n v = Some v' ->
  Forall (fun x => x = score_zero) v ->
  v' = replicate n score_zero.
Proof.
  unfold broadcast_to. intros H Hz.
  destruct (decide (length v = n)) as [<-|Hn].
  - injection H as <-. symmetry. apply replicate_as_Forall. split; [done|].
    eapply Forall_impl; [exact Hz|]. now intros ? ->.
  - destruct v as [|x [|? ?]]; try discriminate. injection H as <-.
    now inversion Hz; subst.
Qed.

(** A slice that is still zero does not change when zeros are written
    into it. *)
Lemma write_slice_zero T i j v T' :
  write_slice T i j v = Some T' ->
  (exists n, slice T i j = Some (replicate n score_zero)) ->
  Forall (fun x => x = score_zero) v ->
  T' = T.
Proof.
  unfold write_slice. intros H [n Hs] Hz. rewrite Hs in H. cbn in H.
  rewrite length_replicate in H.
  destruct (broadcast_to n v) as [v'|] eqn:Hb; [|discriminate].
  injection H as <-. rewrite (broadcast_zero _ _ _ Hb Hz).
  now apply alter_insert_id.
Qed.

(** ** Loops *)

Lemma bind_ext {A B} (m : M A) (f g : A -> M B) s :
  (forall a s', f a s' = g a s') -> bind m f s = bind m g s.
Proof. intros H. unfold bind. destruct (res (m s)); [now rewrite H | done]. Qed.

Lemma bind_ext_l {A B} (m m' : M A) (f : A -> M B) s :
  (forall s', m s' = m' s') -> bind m f s = bind m' f s.
Proof. intros H. unfold bind. now rewrite H. Qed.

Lemma bind_assoc {A B C} (m : M A) (f : A -> M B) (g : B -> M C) s :
  bind (bind m f) g s = bind m (fun a => bind (f a) g) s.
Proof.
  unfold bind. destruct (res (m s)) as [a|x]; cbn [res st evs]; [|done].
  destruct (res (f a (st (m s)))) as [b|x]; cbn [res st evs]; [|done].
  now rewrite app_assoc.
Qed.

Lemma bind_ret_l {A B} (a : A) (f : A -> M B) s : bind (ret a) f s = f a s.
Proof. unfold bind, ret. cbn. now destruct (f a s). Qed.

Lemma for_each_ext {A S} (l : list A) (body body' : A -> S -> M S) :
  (forall a acc s, body a acc s = body' a acc s) ->
  forall acc s, for_each l body acc s = for_each l body' acc s.
Proof.
  intros H. induction l as [|a l IH]; intros acc s; cbn; [done|].
  unfold bind. rewrite H. destruct (res (body' a acc s)); [|done].
  now rewrite IH.
Qed.

Lemma for_each_app {A S} (l1 l2 : list A) (body : A -> S -> M S) :
  forall acc s,
    for_each (l1 ++ l2) body acc s =
    bind (for_each l1 body acc) (for_each l2 body) s.
Proof.
  induction l1 as [|a l1 IH]; intros acc s; cbn [for_each app].
  - now rewrite bind_ret_l.
  - rewrite bind_assoc. apply bind_ext. intros. apply IH.
Qed.

Lemma for_each_fmap {A B S} (g : A -> B) (l : list A) (body : B -> S -> M S) :
  forall acc s,
    for_each (g <$> l) body acc s = for_each l (fun a => body (g a)) acc s.
Proof.
  induction l as [|a l IH]; intros acc s; cbn; [done|].
  apply bind_ext. intros. apply IH.
Qed.

Lemma nested_loops_flat f params p out0 (l1 l2 : list (nat * Z)) :
  forall T s,
    for_each l1
      (fun '(i, nb_categories) =>
         for_each l2
           (fun '(j, nb_exemplars) =>
              run_cell f params p out0 i nb_categories j nb_exemplars)) T s =
    for_each (l1 ≫= (fun a => pair a <$> l2)) (cell_body f params p out0) T s.
Proof.
  induction l1 as [|[i c] l1 IH]; intros T s; cbn [for_each]; [done|].
  cbn [mbind list_bind]. rewrite for_each_app.
  transitivity
    (bind (for_each l2 (fun '(j, e) => run_cell f params p out0 i c j e) T)
       (for_each (l1 ≫= (fun a => pair a <$> l2)) (cell_body f params p out0))
       s).
  - apply bind_ext. intros. apply IH.
  - apply bind_ext_l. intros s'. rewrite for_each_fmap.
    apply for_each_ext. intros [j e] ? ?. reflexivity.
Qed.

(** ** One cell of the sweep *)

Lemma bind_Ok_inv {A B} (m : M A) (f : A -> M B) s b :
  res (bind m f s) = Ok b ->
  exists a,
    res (m s) = Ok a /\
    res (f a (st (m s))) = Ok b /\
    evs (bind m f s) = evs (m s) ++ evs (f a (st (m s))) /\
    st (bind m f s) = st (f a (st (m s))).
Proof.
  unfold bind. destruct (res (m s)) as [a|x]; cbn; [|discriminate].
  intros H. exists a. done.
Qed.

Lemma stdout_write_file p d s : stdout (st (write_file p d s)) = stdout s.
Proof.
  unfold write_file, bind, gets. cbn.
  destruct (fs s !! p) as [[|?]|]; cbn; try done;
    destruct (is_dir (fs s) (parent p)); done.
Qed.

Lemma evs_np_save p d s : evs (np_save p d s) = [EvSave p d].
Proof.
  unfold np_save, bind. cbn -[write_file]. now rewrite evs_write_file.
Qed.

Lemma stdout_np_save p d s : stdout (st (np_save p d s)) = stdout s.
Proof. unfold np_save, bind. cbn -[write_file]. apply stdout_write_file. Qed.

Lemma evs_open_w p s : evs (open_w p s) = [EvOpen p].
Proof.
  unfold open_w, bind. cbn -[write_file]. rewrite evs_write_file.
  now destruct (res (write_file p FText s)).
Qed.

Lemma res_open_w p s t : res (open_w p s) = Ok t -> t = LogFile p.
Proof.
  unfold open_w, bind. cbn -[write_file].
  destruct (res (write_file p FText s)); cbn; congruence.
Qed.

Lemma np_save_Ok p d s u :
  res (np_save p d s) = Ok u ->
  fs (st (np_save p d s)) = <[p := File d]> (fs s).
Proof.
  unfold np_save, write_file, bind, gets. cbn.
  destruct (fs s !! p) as [[|?]|]; cbn; try done;
    destruct (is_dir (fs s) (parent p)); done.
Qed.

Lemma cell_body_Ok f params p out0 cell T s T' :
  stdout s = out0 ->
  res (cell_body f params p out0 cell T s) = Ok T' ->
  exists k,
    evs (cell_body f params p out0 cell T s) = cell_events p out0 cell k /\
    write_slice T.1 cell.1.1 cell.2.1 (cl_o1 k) = Some (cl_T1 k) /\
    write_slice T.2 cell.1.1 cell.2.1 (cl_o2 k) = Some (cl_T2 k) /\
    T' = (cl_T1 k, cl_T2 k) /\
    stdout (st (cell_body f params p out0 cell T s)) = out0 /\
    cl_store k = st (cell_body f params p out0 cell T s) /\
    persisted p k.
Proof.
  destruct cell as [[i c] [j e]]. unfold cell_body, run_cell. cbn [fst snd].
  intros <- H.
  apply bind_Ok_inv in H as ([] & _ & H & -> & ->).
  apply bind_Ok_inv in H as (t & Ht & H & -> & ->).
  apply res_open_w in Ht as ->.
  apply bind_Ok_inv in H as ([] & _ & H & -> & ->).
  apply bind_Ok_inv in H as ([o1 o2] & Hf & H & -> & ->).
  apply bind_Ok_inv in H as (T1 & H1 & H & -> & ->).
  apply bind_Ok_inv in H as (T2 & H2 & H & -> & ->).
  apply bind_Ok_inv in H as ([] & _ & H & -> & ->).
  apply bind_Ok_inv in H as ([] & S1 & H & -> & ->).
  apply bind_Ok_inv in H as ([] & S2 & H & -> & ->).
  injection H as <-.
  apply setitem_Ok in H1, H2.
  rewrite !evs_np_save, evs_open_w.
  rewrite !(proj2 (setitem_pure _ _ _ _ _)).
  eexists (mkCellLog (evs (f c e params
            (st (assign_stdout (LogFile (os_path_join p (log_name c e)))
               (st (open_w (os_path_join p (log_name c e))
                  (st (print (MsgTesting c e) s))))))))
            o1 o2 T1 T2 _).
  unfold call_exectue_fn in Hf |- *. cbn [res st evs] in Hf |- *.
  rewrite Hf. cbn -[np_save setitem] in *.
  split; [done|]. split; [done|]. split; [done|]. split; [done|].
  split; [now rewrite !stdout_np_save|]. split; [reflexivity|].
  unfold persisted. cbn [cl_store cl_T1 cl_T2].
  rewrite (np_save_Ok _ _ _ _ S2), (np_save_Ok _ _ _ _ S1).
  split.
  - rewrite lookup_insert_ne, lookup_insert_eq; [done|].
    unfold os_path_join. intros [=]%app_inv_head.
  - now rewrite lookup_insert_eq.
Qed.

Lemma count_bind_0 {A B} f (m : M A) (k : A -> M B) s :
  count f (evs (m s)) = 0%nat ->
  (forall a s', count f (evs (k a s')) = 0%nat) ->
  count f (evs (bind m k s)) = 0%nat.
Proof.
  intros Hm Hk. unfold bind. destruct (res (m s)); cbn [evs]; [|done].
  now rewrite count_app, Hm, Hk.
Qed.

Lemma count_bind_l {A B} f n (m : M A) (k : A -> M B) s :
  count f (evs (m s)) = 0%nat ->
  (forall a s', (count f (evs (k a s')) <= n)%nat) ->
  (count f (evs (bind m k s)) <= n)%nat.
Proof.
  intros Hm Hk. unfold bind. destruct (res (m s)) as [a|x]; cbn [evs].
  - rewrite count_app, Hm. apply Hk.
  - lia.
Qed.

Lemma count_bind_r {A B} f n (m : M A) (k : A -> M B) s :
  (count f (evs (m s)) <= n)%nat ->
  (forall a s', count f (evs (k a s')) = 0%nat) ->
  (count f (evs (bind m k s)) <= n)%nat.
Proof.
  intros Hm Hk. unfold bind. destruct (res (m s)) as [a|x]; cbn [evs].
  - rewrite count_app, Hk. lia.
  - done.
Qed.

(** A cell, completed or not, calls [exectue_fn] at most once. *)
Lemma cell_body_exec f params p out0 cell T s :
  (count is_exec (evs (cell_body f params p out0 cell T s)) <= 1)%nat.
Proof.
  unfold cell_body, run_cell.
  apply count_bind_l; [done|]. intros _ s1.
  apply count_bind_l; [now rewrite evs_open_w|]. intros t s2.
  apply count_bind_l; [done|]. intros _ s3.
  apply count_bind_r; [done|]. intros [o1 o2] s4.
  apply count_bind_0; [now rewrite (proj2 (setitem_pure _ _ _ _ _))|].
  intros T1 s5.
  apply count_bind_0; [now rewrite (proj2 (setitem_pure _ _ _ _ _))|].
  intros T2 s6.
  apply count_bind_0; [done|]. intros _ s7.
  apply count_bind_0; [now rewrite evs_np_save|]. intros _ s8.
  apply count_bind_0; [now rewrite evs_np_save|]. done.
Qed.

(** ** The sweep *)

Lemma cells_run f params p out0 l :
  forall T s,
    stdout s = out0 ->
    exists logs tail,
      evs (for_each l (cell_body f params p out0) T s) =
        concat (zip_with (cell_events p out0) l logs) ++ tail /\
      sweep_log T l logs /\
      Forall (persisted p) logs /\
      (count is_exec tail <= 1)%nat /\
      match res (for_each l (cell_body f params p out0) T s) with
      | Ok _ =>
          length logs = length l /\ tail = [] /\
          stdout (st (for_each l (cell_body f params p out0) T s)) = out0
      | Raise _ => True
      end.
Proof.
  induction l as [|cell l IH]; intros T s Hout.
  - exists [], []. cbn. repeat split; try done. lia.
  - cbn [for_each].
    pose proof (cell_body_Ok f params p out0 cell T s) as Hok.
    pose proof (cell_body_exec f params p out0 cell T s) as Hex.
    destruct (cell_body f params p out0 cell T s) as [[T'|x] s1 l1] eqn:E;
      rewrite (bind_run _ _ _ _ _ _ E); cbn [res st evs] in *.
    + destruct (Hok T' Hout eq_refl)
        as (k & -> & W1 & W2 & -> & Hs1 & _ & Hp).
      destruct (IH (cl_T1 k, cl_T2 k) s1 Hs1)
        as (logs & tail & He & Hl & Hps & Ht & Hr).
      exists (k :: logs), tail. rewrite He. cbn [zip_with concat].
      rewrite <- app_assoc. split; [done|]. split; [done|].
      split; [now constructor|]. split; [done|].
      destruct (res (for_each l _ _ s1)); [|done].
      destruct Hr as (Hlen & Htl & Hst). cbn [length]. auto.
    + exists [], l1. cbn [zip_with concat app sweep_log]. done.
Qed.

(** ** The cells of a grid *)

Lemma elem_of_enumerate {A} (l : list A) i a :
  (i, a) ∈ enumerate l <-> l !! i = Some a.
Proof.
  unfold enumerate. rewrite list_elem_of_lookup. split.
  - intros [n Hn]. rewrite lookup_zip_with in Hn.
    destruct (seq 0 (length l) !! n) as [i'|] eqn:Hs; [|discriminate].
    cbn in Hn. destruct (l !! n) as [a'|] eqn:Hl; [|discriminate].
    cbn in Hn. injection Hn as <- <-.
    apply lookup_seq in Hs as [-> _]. exact Hl.
  - intros Hl. exists i. rewrite lookup_zip_with.
    rewrite (proj2 (lookup_seq 0 (length l) i i)); [|split; [done|]].
    + cbn. now rewrite Hl.
    + eapply lookup_lt_Some; eauto.
Qed.

Lemma NoDup_enumerate {A} (l : list A) : NoDup (enumerate l).
Proof.
  apply (NoDup_fmap_1 fst). unfold enumerate.
  rewrite fst_zip by (now rewrite length_seq). apply NoDup_seq.
Qed.

Lemma elem_of_cells cats exs cell :
  cell ∈ cells cats exs <->
  cats !! cell.1.1 = Some cell.1.2 /\ exs !! cell.2.1 = Some cell.2.2.
Proof.
  destruct cell as [[i c] [j e]]. unfold cells. cbn [fst snd].
  rewrite list_elem_of_bind. split.
  - intros ([i' c'] & Hin & Hc). apply list_elem_of_fmap in Hin as ([j' e'] & [= -> -> -> ->] & He).
    now rewrite <- !elem_of_enumerate.
  - intros [Hc He]. exists (i, c). split; [|now apply elem_of_enumerate].
    apply list_elem_of_fmap. exists (j, e). split; [done|].
    now apply elem_of_enumerate.
Qed.

Lemma NoDup_idx_cells cats exs : NoDup (idx <$> cells cats exs).
Proof.
  apply NoDup_fmap_2_strong.
  - intros [[i c] [j e]] [[i' c'] [j' e']] H1 H2 [= <- <-].
    apply elem_of_cells in H1 as [Hc He], H2 as [Hc' He']. cbn in *.
    congruence.
  - unfold cells. apply NoDup_bind; [| |apply NoDup_enumerate].
    + intros a1 a2 cell _ _ H1 H2.
      apply list_elem_of_fmap in H1 as (? & -> & _).
      apply list_elem_of_fmap in H2 as (? & [= -> _] & _). done.
    + intros a _. apply NoDup_fmap_2; [|apply NoDup_enumerate].
      intros ? ? [= ->]. done.
Qed.

(** ** What a chain of writes leaves in the tensors *)

Lemma uniform_zeros a b c : uniform (Z.to_nat c) (zeros a b c).
Proof.
  intros i j v. unfold slice, zeros. intros H.
  destruct (replicate a _ !! i) as [row|] eqn:Hr; [|discriminate].
  apply lookup_replicate in Hr as [-> _]. cbn in H.
  apply lookup_replicate in H as [-> _]. apply length_replicate.
Qed.

Lemma broadcast_to_length n v v' : broadcast_to n v = Some v' -> length v' = n.
Proof.
  unfold broadcast_to. destruct (decide (length v = n)) as [<-|_].
  - now intros [= <-].
  - destruct v as [|x [|? ?]]; try discriminate. intros [= <-].
    apply length_replicate.
Qed.

Lemma write_slice_uniform n T i j v T' :
  write_slice T i j v = Some T' -> uniform n T -> uniform n T'.
Proof.
  intros H Hu. apply write_slice_spec in H as (old & v' & Ho & Hb & Hs & Hne).
  intros i' j' w Hw. destruct (decide ((i', j') = (i, j))) as [[= -> ->]|Hd].
  - rewrite Hs in Hw. injection Hw as <-.
    rewrite (broadcast_to_length _ _ _ Hb). eapply Hu, Ho.
  - rewrite (Hne _ _ Hd) in Hw. eapply Hu, Hw.
Qed.

(** After each completed cell the cell's slice of each saved tensor holds
    the scores the call returned, broadcast to the length of a slice. *)
Lemma sweep_log_written n logs :
  forall l T,
    sweep_log T l logs -> uniform n T.1 -> uniform n T.2 ->
    forall m k cell,
      logs !! m = Some k -> l !! m = Some cell ->
      (exists v, broadcast_to n (cl_o1 k) = Some v /\
                 slice (cl_T1 k) cell.1.1 cell.2.1 = Some v) /\
      (exists v, broadcast_to n (cl_o2 k) = Some v /\
                 slice (cl_T2 k) cell.1.1 cell.2.1 = Some v).
Proof.
  induction logs as [|k0 logs IH]; intros [|c0 l] T Hlog U1 U2 m k cell Hk Hc;
    try done.
  destruct Hlog as (W1 & W2 & Hrest).
  destruct m as [|m]; cbn in Hk, Hc.
  - injection Hk as <-. injection Hc as <-.
    apply write_slice_spec in W1 as (old1 & v1 & Ho1 & Hb1 & Hs1 & _).
    apply write_slice_spec in W2 as (old2 & v2 & Ho2 & Hb2 & Hs2 & _).
    rewrite (U1 _ _ _ Ho1) in Hb1. rewrite (U2 _ _ _ Ho2) in Hb2.
    split; eauto.
  - eapply (IH l (cl_T1 k0, cl_T2 k0)); eauto using write_slice_uniform.
Qed.

(** In a chain that starts with the slices of all its cells equal to [z],
    the tensors saved after a cell still hold [z] in the slice of every
    later cell; and if [z] is all zeros, a cell that returns zeros leaves the
    tensor as it was before the cell ran. *)
Lemma sweep_log_later z logs :
  forall l T,
    sweep_log T l logs -> NoDup (idx <$> l) ->
    (forall cell, cell ∈ l ->
       slice T.1 cell.1.1 cell.2.1 = Some z /\
       slice T.2 cell.1.1 cell.2.1 = Some z) ->
    forall m k,
      logs !! m = Some k ->
      (forall m' cell, l !! m' = Some cell -> (m < m')%nat ->
         slice (cl_T1 k) cell.1.1 cell.2.1 = Some z /\
         slice (cl_T2 k) cell.1.1 cell.2.1 = Some z) /\
      ((exists n, z = replicate n score_zero) ->
       (Forall (fun x => x = score_zero) (cl_o1 k) ->
        cl_T1 k = (tensors_before T logs m).1) /\
       (Forall (fun x => x = score_zero) (cl_o2 k) ->
        cl_T2 k = (tensors_before T logs m).2)).
Proof.
  induction logs as [|k0 logs IH]; intros [|c0 l] T Hlog Hnd Hz m k Hk;
    try done.
  destruct Hlog as (W1 & W2 & Hrest).
  cbn [fmap list_fmap] in Hnd. apply NoDup_cons in Hnd as [Hnotin Hnd].
  assert (Hz' : forall cell, cell ∈ l ->
            slice (cl_T1 k0) cell.1.1 cell.2.1 = Some z /\
            slice (cl_T2 k0) cell.1.1 cell.2.1 = Some z).
  { intros cell Hin.
    assert (Hne : (cell.1.1, cell.2.1) <> (c0.1.1, c0.2.1)).
    { intros Heq. apply Hnotin. apply list_elem_of_fmap. now exists cell. }
    apply write_slice_spec in W1 as (_ & _ & _ & _ & _ & N1).
    apply write_slice_spec in W2 as (_ & _ & _ & _ & _ & N2).
    rewrite (N1 _ _ Hne), (N2 _ _ Hne). apply Hz. now right. }
  destruct m as [|m]; cbn in Hk.
  - injection Hk as <-. split.
    + intros [|m'] cell Hc Hlt; [lia|]. cbn in Hc.
      apply Hz'. eapply list_elem_of_lookup_2, Hc.
    + intros [n ->]. cbn [tensors_before].
      destruct (Hz c0 ltac:(now left)) as [Z1 Z2].
      split; intros Hzero; eapply write_slice_zero; eauto.
  - destruct (IH l (cl_T1 k0, cl_T2 k0) Hrest Hnd Hz' m k Hk) as [IH1 IH2].
    split.
    + intros [|m'] cell Hc Hlt; [lia|]. cbn in Hc.
      eapply IH1; [exact Hc | lia].
    + intros Hn. destruct (IH2 Hn) as [I1 I2].
      assert (Hb : tensors_before T (k0 :: logs) (S m) =
                   tensors_before (cl_T1 k0, cl_T2 k0) logs m).
      { destruct m as [|m]; [done|]. cbn.
        destruct (logs !! m) as [k'|] eqn:Hm; [done|].
        apply lookup_ge_None in Hm. apply lookup_lt_Some in Hk. lia. }
      rewrite Hb. done.
Qed.

(** ** The events of a sweep *)

Lemma sweep_shape_raise p out0 cs T0 x s l :
  count is_exec l = 0%nat ->
  exists header logs tail,
    sweep_shape p out0 cs T0 (mkOut (Raise x) s l) header logs tail.
Proof.
  intros Hl. exists l, [], []. unfold sweep_shape.
  rewrite zip_with_nil_r. cbn. rewrite app_nil_r.
  repeat split; try done. lia.
Qed.

Lemma sweep_shape_prefix p out0 cs T0 (o : Out unit) pre :
  count is_exec pre = 0%nat ->
  (exists header logs tail, sweep_shape p out0 cs T0 o header logs tail) ->
  exists header logs tail,
    sweep_shape p out0 cs T0 (mkOut (res o) (st o) (pre ++ evs o))
      header logs tail.
Proof.
  intros Hpre (header & logs & tail & He & Hh & Ht & Hl & Hp & Hr).
  exists (pre ++ header), logs, tail. unfold sweep_shape. cbn [res st evs].
  rewrite He, count_app, Hpre, Hh, <- app_assoc. done.
Qed.

(** A step that logs no call, in front of the rest. *)
Lemma sweep_shape_bind {A} p out0 cs T0 (m : M A) (k : A -> M unit) s :
  count is_exec (evs (m s)) = 0%nat ->
  (forall a, res (m s) = Ok a ->
     exists header logs tail,
       sweep_shape p out0 cs T0 (k a (st (m s))) header logs tail) ->
  exists header logs tail,
    sweep_shape p out0 cs T0 (bind m k s) header logs tail.
Proof.
  intros Hm Hk. unfold bind. destruct (res (m s)) as [a|x].
  - apply (sweep_shape_prefix p out0 cs T0 (k a (st (m s)))); auto.
  - now apply sweep_shape_raise.
Qed.

Lemma sweep_run f cats exs params p out0 s :
  stdout s = out0 ->
  exists header logs tail,
    sweep_shape p out0 (cells cats exs)
      (zeros (length cats) (length exs) (nb_trials params))
      (sweep f cats exs params p out0 s) header logs tail.
Proof.
  intros Hout. unfold sweep.
  apply sweep_shape_bind; [now rewrite evs_np_save|]. intros _ _.
  apply sweep_shape_bind; [now rewrite evs_np_save|]. intros _ _.
  set (s2 := st (np_save _ _ (st (np_save _ _ s)))).
  assert (Hs2 : stdout s2 = out0).
  { subst s2. now rewrite !stdout_np_save. }
  clearbody s2. unfold np_zeros.
  destruct (nb_trials params <? 0)%Z.
  { apply sweep_shape_raise. done. }
  fold (zeros (length cats) (length exs) (nb_trials params)).
  rewrite !bind_ret_l.
  set (T0 := zeros (length cats) (length exs) (nb_trials params)).
  rewrite (bind_ext_l _ _ _ _
             (nested_loops_flat f params p out0 (enumerate cats)
                (enumerate exs) (T0, T0))).
  fold (cells cats exs).
  destruct (cells_run f params p out0 (cells cats exs) (T0, T0) s2 Hs2)
    as (logs & tail & He & Hl & Hp & Ht & Hr).
  exists [], logs. unfold sweep_shape, bind. cbn [app].
  destruct (res (for_each _ _ _ s2)) as [T'|x]; cbn [res st evs].
  - destruct Hr as (Hlen & -> & Hst). rewrite app_nil_r in He.
    exists [EvPrint out0 MsgLoopComplete].
    change (evs (print MsgLoopComplete ?s'))
      with [EvPrint (stdout s') MsgLoopComplete].
    rewrite He, Hst. repeat split; try done.
  - exists tail. done.
Qed.

Lemma quiet_bind {A B} (m : M A) (k : A -> M B) :
  quiet m -> (forall a, quiet (k a)) -> quiet (bind m k).
Proof.
  intros Hm Hk s. destruct (Hm s) as [Hc Hs]. unfold bind.
  destruct (res (m s)) as [a|x]; cbn [res st evs]; [|done].
  destruct (Hk a (st (m s))) as [Hc' Hs'].
  now rewrite count_app, Hc, Hc', Hs', Hs.
Qed.

Lemma quiet_shutil_rmtree p : quiet (shutil_rmtree p).
Proof.
  intros s. unfold shutil_rmtree, bind, gets, emit, modify, raise.
  cbn [res st evs app]. now destruct (fs s !! p) as [[|?]|].
Qed.

Lemma quiet_os_mkdir p : quiet (os_mkdir p).
Proof.
  intros s. unfold os_mkdir, bind, gets, emit, modify, raise.
  cbn [res st evs app]. destruct (fs s !! p) as [?|]; [done|].
  now destruct (is_dir (fs s) (parent p)).
Qed.

Lemma fresh_results_dir_quiet p s :
  count is_exec (evs (fresh_results_dir p s)) = 0%nat /\
  stdout (st (fresh_results_dir p s)) = stdout s.
Proof.
  revert s. unfold fresh_results_dir.
  apply quiet_bind; [done|]. intros b.
  apply quiet_bind; [|intros _; apply quiet_os_mkdir].
  destruct b; [|done].
  apply quiet_bind; [done|]. intros _. apply quiet_shutil_rmtree.
Qed.

(** The log of the whole of [experiment_loop] has the shape of a sweep. *)
Lemma experiment_loop_run f cats exs params p s :
  exists header logs tail,
    sweep_shape p (stdout s) (cells cats exs)
      (zeros (length cats) (length exs) (nb_trials params))
      (experiment_loop f cats exs params p s) header logs tail.
Proof.
  unfold experiment_loop, gets. rewrite bind_run with (r := Ok (stdout s))
    (s1 := s) (l := []) by done.
  apply sweep_shape_prefix; [done|].
  apply sweep_shape_bind; [apply fresh_results_dir_quiet|]. intros _ _.
  apply sweep_run. apply fresh_results_dir_quiet.
Qed.

(** ** Row-major order *)

Lemma lookup_enumerate {A} (l : list A) i a :
  l !! i = Some a -> enumerate l !! i = Some (i, a).
Proof.
  intros Hl. unfold enumerate. rewrite lookup_zip_with.
  rewrite (proj2 (lookup_seq 0 (length l) i i)).
  - cbn. now rewrite Hl.
  - split; [done|]. eapply lookup_lt_Some; eauto.
Qed.

Lemma length_enumerate {A} (l : list A) : length (enumerate l) = length l.
Proof. unfold enumerate. rewrite length_zip_with, length_seq. lia. Qed.

Lemma lookup_bind_uniform {A B} (f : A -> list B) (b : nat) (l : list A) :
  (forall a, length (f a) = b) ->
  forall i j a y,
    l !! i = Some a -> f a !! j = Some y ->
    (l ≫= f) !! (i * b + j)%nat = Some y.
Proof.
  intros Hb. induction l as [|a0 l IH]; intros i j a y Hi Hj; [done|].
  cbn [mbind list_bind]. destruct i as [|i]; cbn in Hi.
  - injection Hi as ->. now apply lookup_app_l_Some.
  - rewrite lookup_app_r by (rewrite Hb; lia). rewrite Hb.
    replace (S i * b + j - b)%nat with (i * b + j)%nat by lia. eauto.
Qed.

(** The cell of row [i] and column [j] is visited as number
    [i * len(exemplar_trials) + j]. *)
Lemma cells_lookup cats exs i j c e :
  cats !! i = Some c -> exs !! j = Some e ->
  cells cats exs !! (i * length exs + j)%nat = Some ((i, c), (j, e)).
Proof.
  intros Hc He. unfold cells.
  apply lookup_bind_uniform with (a := (i, c)).
  - intros a. now rewrite length_fmap, length_enumerate.
  - now apply lookup_enumerate.
  - rewrite list_lookup_fmap, (lookup_enumerate _ _ _ He). done.
Qed.

(** ** The completed cells of a sweep *)

(** A slice that none of the cells of a chain writes is in every tensor of
    the chain what it was at the start. *)
Lemma sweep_log_frame logs :
  forall l T,
    sweep_log T l logs ->
    forall i j, (i, j) ∉ idx <$> l ->
    forall m k, logs !! m = Some k ->
      slice (cl_T1 k) i j = slice T.1 i j /\
      slice (cl_T2 k) i j = slice T.2 i j.
Proof.
  induction logs as [|k0 logs IH]; intros [|c0 l] T Hlog i j Hnin m k Hk;
    try done.
  destruct Hlog as (W1 & W2 & Hrest).
  cbn [fmap list_fmap] in Hnin. apply not_elem_of_cons in Hnin as [Hne Hnin].
  apply write_slice_spec in W1 as (_ & _ & _ & _ & _ & N1).
  apply write_slice_spec in W2 as (_ & _ & _ & _ & _ & N2).
  destruct m as [|m]; cbn in Hk.
  - injection Hk as <-. split; [now apply N1 | now apply N2].
  - destruct (IH l (cl_T1 k0, cl_T2 k0) Hrest i j Hnin m k Hk) as [-> ->].
    cbn [fst snd]. split; [now apply N1 | now apply N2].
Qed.

(** In the tensors saved after a cell, the slice of that cell and of every
    cell completed before it holds the scores that cell returned. *)
Lemma sweep_log_kept n logs :
  forall l T,
    sweep_log T l logs -> NoDup (idx <$> l) ->
    uniform n T.1 -> uniform n T.2 ->
    forall m' m k' k cell',
      (m' <= m)%nat ->
      logs !! m' = Some k' -> logs !! m = Some k -> l !! m' = Some cell' ->
      (exists v, broadcast_to n (cl_o1 k') = Some v /\
                 slice (cl_T1 k) cell'.1.1 cell'.2.1 = Some v) /\
      (exists v, broadcast_to n (cl_o2 k') = Some v /\
                 slice (cl_T2 k) cell'.1.1 cell'.2.1 = Some v).
Proof.
  induction logs as [|k0 logs IH];
    intros [|c0 l] T Hlog Hnd U1 U2 m' m k' k cell' Hle Hk' Hk Hc; try done.
  pose proof Hlog as (W1 & W2 & Hrest).
  cbn [fmap list_fmap] in Hnd. apply NoDup_cons in Hnd as [Hnotin Hnd].
  destruct m' as [|m']; cbn in Hk', Hc.
  - injection Hk' as <-. injection Hc as <-.
    destruct (sweep_log_written n (k0 :: logs) (c0 :: l) T Hlog U1 U2 0%nat
                k0 c0 eq_refl eq_refl) as [(v1 & B1 & S1) (v2 & B2 & S2)].
    destruct m as [|m]; cbn in Hk.
    + injection Hk as <-. split; eauto.
    + destruct (sweep_log_frame logs l (cl_T1 k0, cl_T2 k0) Hrest
                  c0.1.1 c0.2.1 Hnotin m k Hk) as [F1 F2].
      cbn [fst snd] in F1, F2. rewrite F1, F2. split; eauto.
  - destruct m as [|m]; [lia|]. cbn in Hk.
    apply (IH l (cl_T1 k0, cl_T2 k0) Hrest Hnd) with (m' := m') (m := m);
      eauto using write_slice_uniform.
    lia.
Qed.

Lemma sweep_log_length logs :
  forall l T, sweep_log T l logs -> (length logs <= length l)%nat.
Proof.
  induction logs as [|k logs IH]; intros [|c l] T H; cbn [length];
    try lia.
  - destruct H.
  - destruct H as (_ & _ & H). apply IH in H. lia.
Qed.

(** The cells of a list that complete, with the run up to each of them. *)
Lemma cells_run_tied f params p out0 l :
  forall T s,
    stdout s = out0 ->
    exists logs tail,
      evs (for_each l (cell_body f params p out0) T s) =
        concat (zip_with (cell_events p out0) l logs) ++ tail /\
      sweep_log T l logs /\
      Forall (persisted p) logs /\
      (count is_exec tail <= 1)%nat /\
      (forall m k,
         logs !! m = Some k ->
         for_each (take (S m) l) (cell_body f params p out0) T s =
         mkOut (Ok (cl_T1 k, cl_T2 k)) (cl_store k)
           (concat (take (S m) (zip_with (cell_events p out0) l logs)))) /\
      ((length logs < length l)%nat ->
       exists x,
         res (for_each (take (S (length logs)) l)
                (cell_body f params p out0) T s) = Raise x /\
         res (for_each l (cell_body f params p out0) T s) = Raise x) /\
      match res (for_each l (cell_body f params p out0) T s) with
      | Ok _ =>
          length logs = length l /\ tail = [] /\
          stdout (st (for_each l (cell_body f params p out0) T s)) = out0
      | Raise _ => True
      end.
Proof.
  induction l as [|cell l IH]; intros T s Hout.
  - exists [], []. cbn. repeat split; try done; lia.
  - pose proof (cell_body_Ok f params p out0 cell T s) as Hok.
    pose proof (cell_body_exec f params p out0 cell T s) as Hex.
    destruct (cell_body f params p out0 cell T s) as [[T'|x] s1 l1] eqn:E.
    + cbn [res st evs] in Hok, Hex.
      destruct (Hok T' Hout eq_refl)
        as (k & -> & W1 & W2 & -> & Hs1 & Hst & Hp).
      destruct (IH (cl_T1 k, cl_T2 k) s1 Hs1)
        as (logs & tail & He & Hl & Hps & Ht & Htie & Hmax & Hr).
      exists (k :: logs), tail.
      cbn [for_each]. rewrite (bind_run _ _ _ _ _ _ E). cbn [res st evs].
      rewrite He. cbn [zip_with concat]. rewrite <- app_assoc.
      split; [done|]. split; [done|]. split; [now constructor|].
      split; [done|]. split; [|split].
      * intros [|m] k' Hk'; cbn in Hk'.
        -- injection Hk' as <-. cbn [take for_each concat].
           rewrite (bind_run _ _ _ _ _ _ E). cbn [res st evs ret].
           now rewrite Hst, !app_nil_r.
        -- cbn [take for_each concat].
           rewrite (bind_run _ _ _ _ _ _ E).
           now rewrite (Htie m k' Hk').
      * cbn [length]. intros Hlt.
        destruct Hmax as (x & Hx1 & Hx2); [lia|]. exists x.
        cbn [take for_each]. rewrite (bind_run _ _ _ _ _ _ E).
        cbn [res]. done.
      * destruct (res (for_each l _ _ s1)); [|done].
        destruct Hr as (Hlen & Htl & Hst'). cbn [length]. auto.
    + exists [], l1. cbn [for_each]. rewrite (bind_run _ _ _ _ _ _ E).
      cbn [zip_with concat app sweep_log res st evs length].
      split; [done|]. split; [done|]. split; [constructor|].
      split; [done|]. split; [|split; [|done]].
      * intros m k Hk. done.
      * intros _. exists x. cbn [take for_each].
        now rewrite (bind_run _ _ _ _ _ _ E).
Qed.

(** What comes before the cells, lines 129 to 145, with what follows it left
    open: either it raises, without a call, or it hands on the output it
    was started with, two tensors of zeros and a store. *)
Lemma sweep_prelude_cases (cats exs : list Z) (params : Params Noise)
    (p : path) s :
  (exists x s' l,
     count is_exec l = 0%nat /\
     forall A (k : Target -> Tensor * Tensor -> M A),
       (let* stdout0 := gets stdout in
        fresh_results_dir p ;;
        np_save (os_path_join p "category_trials.npy") (FInts cats) ;;
        np_save (os_path_join p "exemplar_trials.npy") (FInts exs) ;;
        let* results_o1_gen :=
          np_zeros (length cats) (length exs) (nb_trials params) in
        let* results_o2_gen :=
          np_zeros (length cats) (length exs) (nb_trials params) in
        k stdout0 (results_o1_gen, results_o2_gen)) s
       = mkOut (Raise x) s' l) \/
  (exists s2 hdr,
     count is_exec hdr = 0%nat /\ stdout s2 = stdout s /\
     forall A (k : Target -> Tensor * Tensor -> M A),
       (let* stdout0 := gets stdout in
        fresh_results_dir p ;;
        np_save (os_path_join p "category_trials.npy") (FInts cats) ;;
        np_save (os_path_join p "exemplar_trials.npy") (FInts exs) ;;
        let* results_o1_gen :=
          np_zeros (length cats) (length exs) (nb_trials params) in
        let* results_o2_gen :=
          np_zeros (length cats) (length exs) (nb_trials params) in
        k stdout0 (results_o1_gen, results_o2_gen)) s
       = mkOut
           (res (k (stdout s)
                   (zeros (length cats) (length exs) (nb_trials params),
                    zeros (length cats) (length exs) (nb_trials params)) s2))
           (st (k (stdout s)
                  (zeros (length cats) (length exs) (nb_trials params),
                   zeros (length cats) (length exs) (nb_trials params)) s2))
           (hdr ++
            evs (k (stdout s)
                   (zeros (length cats) (length exs) (nb_trials params),
                    zeros (length cats) (length exs) (nb_trials params))
                   s2))).
Proof.
  assert (Hg : gets stdout s = mkOut (Ok (stdout s)) s []) by reflexivity.
  destruct (fresh_results_dir p s) as [r1 s1 l1] eqn:E1.
  destruct (fresh_results_dir_quiet p s) as [Q1 O1].
  rewrite E1 in Q1, O1. cbn [evs st] in Q1, O1.
  destruct r1 as [[]|x].
  2:{ left. exists x, s1, l1. split; [done|]. intros A k.
      rewrite (bind_run _ _ _ _ _ _ Hg). cbv beta iota.
      rewrite (bind_run _ _ _ _ _ _ E1). reflexivity. }
  destruct (np_save (os_path_join p "category_trials.npy") (FInts cats) s1)
    as [r2 s2 l2] eqn:E2.
  pose proof (evs_np_save (os_path_join p "category_trials.npy")
                (FInts cats) s1) as Q2.
  pose proof (stdout_np_save (os_path_join p "category_trials.npy")
                (FInts cats) s1) as O2.
  rewrite E2 in Q2, O2. cbn [evs st] in Q2, O2.
  destruct r2 as [[]|x].
  2:{ left. exists x, s2, (l1 ++ l2). split.
      { rewrite count_app, Q1, Q2. reflexivity. }
      intros A k.
      rewrite (bind_run _ _ _ _ _ _ Hg). cbv beta iota.
      rewrite (bind_run _ _ _ _ _ _ E1). cbv beta iota.
      rewrite (bind_run _ _ _ _ _ _ E2). reflexivity. }
  destruct (np_save (os_path_join p "exemplar_trials.npy") (FInts exs) s2)
    as [r3 s3 l3] eqn:E3.
  pose proof (evs_np_save (os_path_join p "exemplar_trials.npy")
                (FInts exs) s2) as Q3.
  pose proof (stdout_np_save (os_path_join p "exemplar_trials.npy")
                (FInts exs) s2) as O3.
  rewrite E3 in Q3, O3. cbn [evs st] in Q3, O3.
  assert (Hc : count is_exec (l1 ++ l2 ++ l3) = 0%nat).
  { rewrite !count_app, Q1, Q2, Q3. reflexivity. }
  destruct r3 as [[]|x].
  2:{ left. exists x, s3, (l1 ++ l2 ++ l3). split; [done|].
      intros A k.
      rewrite (bind_run _ _ _ _ _ _ Hg). cbv beta iota.
      rewrite (bind_run _ _ _ _ _ _ E1). cbv beta iota.
      rewrite (bind_run _ _ _ _ _ _ E2). cbv beta iota.
      rewrite (bind_run _ _ _ _ _ _ E3). reflexivity. }
  destruct (nb_trials params <? 0)%Z eqn:Hz.
  - left. exists ValueError, s3, (l1 ++ l2 ++ l3). split; [done|].
    intros A k.
    rewrite (bind_run _ _ _ _ _ _ Hg). cbv beta iota.
    rewrite (bind_run _ _ _ _ _ _ E1). cbv beta iota.
    rewrite (bind_run _ _ _ _ _ _ E2). cbv beta iota.
    rewrite (bind_run _ _ _ _ _ _ E3). cbv beta iota.
    unfold np_zeros. rewrite Hz.
    rewrite (bind_run _ _ _ _ _ _
               (eq_refl : raise ValueError s3 = mkOut (Raise ValueError) s3 [])).
    cbn [res st evs app]. now rewrite !app_nil_r.
  - right. exists s3, (l1 ++ l2 ++ l3). split; [done|].
    split; [congruence|]. intros A k.
    rewrite (bind_run _ _ _ _ _ _ Hg). cbv beta iota.
    rewrite (bind_run _ _ _ _ _ _ E1). cbv beta iota.
    rewrite (bind_run _ _ _ _ _ _ E2). cbv beta iota.
    rewrite (bind_run _ _ _ _ _ _ E3). cbv beta iota.
    unfold np_zeros. rewrite Hz. rewrite !bind_ret_l.
    fold (zeros (length cats) (length exs) (nb_trials params)).
    cbn [res st evs app]. now rewrite <- !app_assoc.
Qed.

(** The log of [experiment_loop] has the shape of a sweep whose [logs] are
    the cells it completed. *)
Lemma experiment_loop_run_tied f cats exs params p s :
  exists header logs tail,
    sweep_shape p (stdout s) (cells cats exs)
      (zeros (length cats) (length exs) (nb_trials params))
      (experiment_loop f cats exs params p s) header logs tail /\
    completed_cells f cats exs params p s header logs.
Proof.
  set (Z0 := zeros (length cats) (length exs) (nb_trials params)).
  destruct (sweep_prelude_cases cats exs params p s)
    as [(x & s' & l & Hl & Hk) | (s2 & hdr & Hh & Ho & Hk)].
  - assert (He : experiment_loop f cats exs params p s
                 = mkOut (Raise x) s' l).
    { exact (Hk _ (fun out0 T =>
                     for_each (enumerate cats)
                       (fun '(i, nb_categories) =>
                          for_each (enumerate exs)
                            (fun '(j, nb_exemplars) =>
                               run_cell f params p out0
                                 i nb_categories j nb_exemplars)) T ;;
                     print MsgLoopComplete)). }
    assert (Hu : forall n, sweep_upto f cats exs params p n s
                           = mkOut (Raise x) s' l).
    { intros n.
      exact (Hk _ (fun out0 T =>
                     for_each (take n (cells cats exs))
                       (cell_body f params p out0) T)). }
    exists l, [], []. split.
    + unfold sweep_shape. rewrite He, zip_with_nil_r. cbn.
      rewrite app_nil_r. repeat split; try done. lia.
    + split; [cbn; lia|]. split; [|split].
      * intros m k Hk'. done.
      * intros _. exists x. now rewrite Hu, He.
      * rewrite He. now rewrite (bind_run _ _ _ _ _ _ (Hu _)).
  - pose proof (Hk _ (fun out0 T =>
                        for_each (enumerate cats)
                          (fun '(i, nb_categories) =>
                             for_each (enumerate exs)
                               (fun '(j, nb_exemplars) =>
                                  run_cell f params p out0
                                    i nb_categories j nb_exemplars)) T ;;
                        print MsgLoopComplete)) as He.
    cbv beta in He.
    change (experiment_loop f cats exs params p s = mkOut
              (res ((for_each (enumerate cats)
                       (fun '(i, nb_categories) =>
                          for_each (enumerate exs)
                            (fun '(j, nb_exemplars) =>
                               run_cell f params p (stdout s)
                                 i nb_categories j nb_exemplars))
                       (Z0, Z0) ;; print MsgLoopComplete) s2))
              (st ((for_each (enumerate cats)
                      (fun '(i, nb_categories) =>
                         for_each (enumerate exs)
                           (fun '(j, nb_exemplars) =>
                              run_cell f params p (stdout s)
                                i nb_categories j nb_exemplars))
                      (Z0, Z0) ;; print MsgLoopComplete) s2))
              (hdr ++
               evs ((for_each (enumerate cats)
                       (fun '(i, nb_categories) =>
                          for_each (enumerate exs)
                            (fun '(j, nb_exemplars) =>
                               run_cell f params p (stdout s)
                                 i nb_categories j nb_exemplars))
                       (Z0, Z0) ;; print MsgLoopComplete) s2))) in He.
    rewrite (bind_ext_l _ _ _ _
               (nested_loops_flat f params p (stdout s) (enumerate cats)
                  (enumerate exs) (Z0, Z0))) in He.
    fold (cells cats exs) in He.
    assert (Hu : forall n,
              sweep_upto f cats exs params p n s =
              mkOut
                (res (for_each (take n (cells cats exs))
                        (cell_body f params p (stdout s)) (Z0, Z0) s2))
                (st (for_each (take n (cells cats exs))
                       (cell_body f params p (stdout s)) (Z0, Z0) s2))
                (hdr ++
                 evs (for_each (take n (cells cats exs))
                        (cell_body f params p (stdout s)) (Z0, Z0) s2))).
    { intros n.
      exact (Hk _ (fun out0 T =>
                     for_each (take n (cells cats exs))
                       (cell_body f params p out0) T)). }
    destruct (cells_run_tied f params p (stdout s) (cells cats exs)
                (Z0, Z0) s2 Ho)
      as (logs & tail & Hev & Hlog & Hp & Ht & Htie & Hmax & Hr).
    assert (Hall : sweep_upto f cats exs params p (length (cells cats exs)) s
                   = mkOut
                       (res (for_each (cells cats exs)
                               (cell_body f params p (stdout s)) (Z0, Z0) s2))
                       (st (for_each (cells cats exs)
                              (cell_body f params p (stdout s)) (Z0, Z0) s2))
                       (hdr ++
                        evs (for_each (cells cats exs)
                               (cell_body f params p (stdout s)) (Z0, Z0)
                               s2))).
    { rewrite Hu. now rewrite firstn_all. }
    destruct (for_each (cells cats exs) (cell_body f params p (stdout s))
                (Z0, Z0) s2) as [r so lo] eqn:Eo.
    rewrite (bind_run _ _ _ _ _ _ Eo) in He.
    cbn [res st evs] in Hev, Hr, Hmax, Hall.
    assert (Hcc : completed_cells f cats exs params p s hdr logs).
    { split; [eapply sweep_log_length, Hlog|]. split; [|split].
      - intros m k Hk'. rewrite Hu, (Htie m k Hk'). reflexivity.
      - intros Hlt. destruct (Hmax Hlt) as (x & Hx1 & ->). exists x.
        rewrite Hu, He. cbn [res]. done.
      - rewrite He, (bind_run _ _ _ _ _ _ Hall).
        destruct r; cbn [res st evs]; [|done].
        now rewrite <- app_assoc. }
    destruct r as [T'|x].
    + destruct Hr as (Hlen & -> & Hst). rewrite app_nil_r in Hev.
      exists hdr, logs, [EvPrint (stdout s) MsgLoopComplete].
      split; [|done]. unfold sweep_shape. rewrite He. cbn [res st evs].
      change (evs (print MsgLoopComplete so))
        with [EvPrint (stdout so) MsgLoopComplete].
      rewrite Hev, Hst. repeat split; try done.
    + exists hdr, logs, tail. split; [|done].
      unfold sweep_shape. rewrite He. cbn [res st evs].
      rewrite Hev. repeat split; try done.
Qed.

(** ** The sweep, cell by cell *)

(** C5: the log of [experiment_loop] is a header without any call of
    [exectue_fn], followed cell by cell, in row-major order over (category
    count, exemplar count), by the events of the cells the sweep completed,
    followed by a rest with at most one call in it.  The cells listed are
    exactly the completed ones: the sweep up to and including any of them
    returns that cell's tensors in that cell's store, and the cell after the
    last of them, if there is one, raised and ended the sweep.  The events
    of a completed cell end with the saving of both tensors; in these
    tensors the slice of the cell, and still the slice of every cell
    completed before it, holds the two score sequences that cell's call
    returned (broadcast to the number of repetitions), and both tensors are
    in their files in the store the cell leaves to the next one.  A sweep
    that returns has completed every cell. *)
Theorem cells_written_and_persisted f cats exs params p s :
  exists header logs tail,
    evs (experiment_loop f cats exs params p s) =
      header
        ++ concat (zip_with (cell_events p (stdout s)) (cells cats exs) logs)
        ++ tail /\
    count is_exec header = 0%nat /\
    (count is_exec tail <= 1)%nat /\
    completed_cells f cats exs params p s header logs /\
    (forall i j c e,
       cats !! i = Some c -> exs !! j = Some e ->
       cells cats exs !! (i * length exs + j)%nat = Some ((i, c), (j, e))) /\
    (forall m' m k' k cell',
       (m' <= m)%nat ->
       logs !! m' = Some k' -> logs !! m = Some k ->
       cells cats exs !! m' = Some cell' ->
       (exists v,
          broadcast_to (Z.to_nat (nb_trials params)) (cl_o1 k') = Some v /\
          slice (cl_T1 k) cell'.1.1 cell'.2.1 = Some v) /\
       (exists v,
          broadcast_to (Z.to_nat (nb_trials params)) (cl_o2 k') = Some v /\
          slice (cl_T2 k) cell'.1.1 cell'.2.1 = Some v)) /\
    Forall (persisted p) logs /\
    match res (experiment_loop f cats exs params p s) with
    | Ok _ =>
        length logs = length (cells cats exs) /\
        tail = [EvPrint (stdout s) MsgLoopComplete]
    | Raise _ => True
    end.
Proof.
  destruct (experiment_loop_run_tied f cats exs params p s)
    as (header & logs & tail & (He & Hh & Ht & Hl & Hp & Hr) & Hcc).
  exists header, logs, tail.
  split; [done|]. split; [done|]. split; [done|]. split; [done|].
  split; [apply cells_lookup|]. split; [|done].
  intros m' m k' k cell' Hle Hk' Hk Hc.
  eapply (sweep_log_kept (Z.to_nat (nb_trials params)) logs
            (cells cats exs)); eauto using uniform_zeros, NoDup_idx_cells.
Qed.

(** C10: both tensors start as all zeros, and in the tensors saved after a
    completed cell (the cells listed are exactly the completed ones, each in
    the store it left, with both tensors in their files) the slice of every
    cell that comes later in the sweep is still all zeros; a cell whose call
    returns only zeros leaves the tensor exactly as it was before the cell
    ran, so the saved tensors do not tell such a cell from one that has not
    run. *)
Theorem unrun_cells_read_zero f cats exs params p s :
  let Z0 := zeros (length cats) (length exs) (nb_trials params) in
  exists header logs tail,
    evs (experiment_loop f cats exs params p s) =
      header
        ++ concat (zip_with (cell_events p (stdout s)) (cells cats exs) logs)
        ++ tail /\
    count is_exec header = 0%nat /\
    (count is_exec tail <= 1)%nat /\
    completed_cells f cats exs params p s header logs /\
    Forall (persisted p) logs /\
    match res (experiment_loop f cats exs params p s) with
    | Ok _ =>
        length logs = length (cells cats exs) /\
        tail = [EvPrint (stdout s) MsgLoopComplete]
    | Raise _ => True
    end /\
    (forall m k,
       logs !! m = Some k ->
       (forall m' cell,
          cells cats exs !! m' = Some cell -> (m < m')%nat ->
          slice (cl_T1 k) cell.1.1 cell.2.1 =
            Some (replicate (Z.to_nat (nb_trials params)) score_zero) /\
          slice (cl_T2 k) cell.1.1 cell.2.1 =
            Some (replicate (Z.to_nat (nb_trials params)) score_zero)) /\
       (Forall (fun x => x = score_zero) (cl_o1 k) ->
        cl_T1 k = (tensors_before (Z0, Z0) logs m).1) /\
       (Forall (fun x => x = score_zero) (cl_o2 k) ->
        cl_T2 k = (tensors_before (Z0, Z0) logs m).2)).
Proof.
  intros Z0.
  destruct (experiment_loop_run_tied f cats exs params p s)
    as (header & logs & tail & (He & Hh & Ht & Hl & Hp & Hr) & Hcc).
  exists header, logs, tail.
  split; [done|]. split; [done|]. split; [done|]. split; [done|].
  split; [done|]. split; [done|].
  intros m k Hk.
  destruct (sweep_log_later
              (replicate (Z.to_nat (nb_trials params)) score_zero)
              logs (cells cats exs) (Z0, Z0) Hl (NoDup_idx_cells cats exs))
    with (m := m) (k := k) as [H1 H2]; [|done|].
  - intros cell [Hc Hx]%elem_of_cells. cbn [fst snd].
    apply lookup_lt_Some in Hc, Hx.
    split; apply slice_zeros; done.
  - split; [exact H1|]. apply H2. eauto.
Qed.

(** ** The results directory *)

Lemma lookup_rmtree (p : path) (m : gmap path Node) (q : path) :
  rmtree p m !! q = if is_under p q then None else m !! q.
Proof.
  unfold rmtree. destruct (is_under p q) eqn:Hu.
  - apply map_lookup_filter_None. right. intros x _. cbn. congruence.
  - destruct (m !! q) as [x|] eqn:Hq.
    + now apply map_lookup_filter_Some.
    + apply map_lookup_filter_None. now left.
Qed.

Lemma is_under_refl (p : path) : is_under p p = true.
Proof. induction p as [|a p IH]; cbn; [done|]. now rewrite decide_True. Qed.

Lemma is_under_length (p q : path) :
  is_under p q = true -> (length p <= length q)%nat.
Proof.
  revert q. induction p as [|a p IH]; intros [|b q]; cbn; try done; [lia|].
  destruct (decide (a = b)); [|done]. intros H%IH. lia.
Qed.

Lemma is_under_parent (p : path) : p <> [] -> is_under p (parent p) = false.
Proof.
  intros Hp. destruct (is_under p (parent p)) eqn:Hu; [|done].
  apply is_under_length in Hu. unfold parent in Hu.
  destruct p as [|a p] using rev_ind; [done|].
  rewrite removelast_last, length_app in Hu. cbn in Hu. lia.
Qed.

Lemma shutil_rmtree_run p s :
  fs s !! p = Some Dir ->
  shutil_rmtree p s =
  mkOut (Ok tt) (set_fs (rmtree p (fs s)) s) [EvRmtree p].
Proof.
  intros H. unfold shutil_rmtree, bind, gets, emit, modify.
  cbn [res st evs app]. now rewrite H.
Qed.

Lemma os_mkdir_run p s :
  fs s !! p = None -> is_dir (fs s) (parent p) = true ->
  os_mkdir p s = mkOut (Ok tt) (set_fs (<[p := Dir]> (fs s)) s) [EvMkdir p].
Proof.
  intros H Hd. unfold os_mkdir, bind, gets, emit, modify.
  cbn [res st evs app]. rewrite H, Hd. reflexivity.
Qed.

Lemma fresh_results_dir_existing p s :
  is_dir (fs s) p = true ->
  is_dir (fs s) (parent p) = true ->
  p <> [] ->
  fresh_results_dir p s =
  mkOut (Ok tt) (set_fs (<[p := Dir]> (rmtree p (fs s))) s)
    [EvWarn overwrite_warning; EvRmtree p; EvMkdir p].
Proof.
  intros Hd Hpar Hp. unfold fresh_results_dir.
  assert (His : os_path_isdir p s = mkOut (Ok true) s []).
  { unfold os_path_isdir, gets. now rewrite Hd. }
  rewrite (bind_run _ _ _ _ _ _ His).
  assert (Hlk : fs s !! p = Some Dir).
  { unfold is_dir in Hd. now destruct (fs s !! p) as [[|?]|]. }
  assert (Hrm : bind (warnings_warn overwrite_warning)
                  (fun _ => shutil_rmtree p) s =
                mkOut (Ok tt) (set_fs (rmtree p (fs s)) s)
                  [EvWarn overwrite_warning; EvRmtree p]).
  { rewrite (bind_run _ _ _ _ _ _
               (eq_refl : warnings_warn overwrite_warning s = mkOut _ _ _)).
    now rewrite (shutil_rmtree_run p s Hlk). }
  change (warnings_warn "Removing old results folder of the same name!")
    with (warnings_warn overwrite_warning).
  rewrite (bind_run _ _ _ _ _ _ Hrm).
  rewrite os_mkdir_run.
  - reflexivity.
  - cbn [fs set_fs]. now rewrite lookup_rmtree, is_under_refl.
  - cbn [fs set_fs]. unfold is_dir.
    rewrite lookup_rmtree, is_under_parent by done. exact Hpar.
Qed.


(** C6: when the results directory exists (and is not the working directory
    itself), [experiment_loop] does not raise on it: it warns, removes the
    directory with everything below it, creates it anew, and only then runs
    the sweep, from a store in which the directory is empty and everything
    outside it is as it was. *)
Theorem existing_results_dir_replaced f cats exs params p s :
  is_dir (fs s) p = true ->
  is_dir (fs s) (parent p) = true ->
  p <> [] ->
  let fresh := <[p := Dir]> (rmtree p (fs s)) in
  let o := sweep f cats exs params p (stdout s) (set_fs fresh s) in
  experiment_loop f cats exs params p s =
    mkOut (res o) (st o)
      ([EvWarn overwrite_warning; EvRmtree p; EvMkdir p] ++ evs o) /\
  fresh !! p = Some Dir /\
  (forall q, is_under p q = true -> q <> p -> fresh !! q = None) /\
  (forall q, is_under p q = false -> fresh !! q = fs s !! q).
Proof.
  intros Hd Hpar Hp fresh o. split; [|split; [|split]].
  - unfold experiment_loop.
    rewrite (bind_run _ _ _ _ _ _ (eq_refl : gets stdout s = mkOut _ _ _)).
    rewrite (bind_run _ _ _ _ _ _ (fresh_results_dir_existing p s Hd Hpar Hp)).
    reflexivity.
  - apply lookup_insert_eq.
  - intros q Hu Hq. subst fresh. rewrite lookup_insert_ne by done.
    now rewrite lookup_rmtree, Hu.
  - intros q Hu. subst fresh.
    rewrite lookup_insert_ne.
    + now rewrite lookup_rmtree, Hu.
    + intros <-. now rewrite is_under_refl in Hu.
Qed.

(** * Further properties of [run_experiment] *)

(** X1: the assertion on the category count is the first thing a call does.
    With more than fifty categories the call raises [AssertionError] with
    nothing logged and the store untouched; and only such a call logs
    nothing at all: with at most fifty categories the log is never empty. *)
Theorem run_experiment_precondition c e params s :
  ((50 < c)%Z <-> evs (run_experiment c e params s) = []) /\
  ((50 < c)%Z <->
   run_experiment c e params s = mkOut (Raise AssertionError) s []).
Proof.
  assert (Hfwd : (50 < c)%Z ->
                 run_experiment c e params s
                 = mkOut (Raise AssertionError) s []).
  { intros Hc. apply run_experiment_assert. lia. }
  assert (Hbwd : evs (run_experiment c e params s) = [] -> (50 < c)%Z).
  { intros H. destruct (c <=? 50)%Z eqn:Hc; [|lia].
    destruct (run_experiment_evs (fun _ => True) c e params s Hc)
      as (rest & Hev & _); try done.
    now rewrite H in Hev. }
  split; split; try done.
  - intros Hc. now rewrite Hfwd.
  - intros H. apply Hbwd. now rewrite H.
Qed.

Lemma touches_only_bind {A B} q (m : M A) (k : A -> M B) :
  touches_only q m -> (forall a, touches_only q (k a)) ->
  touches_only q (bind m k).
Proof.
  intros Hm Hk s. destruct (Hm s) as [Ho Hf]. unfold bind.
  destruct (res (m s)) as [a|x]; cbn [res st evs]; [|done].
  destruct (Hk a (st (m s))) as [Ho' Hf']. split; [congruence|].
  intros r Hr. rewrite Hf' by done. now apply Hf.
Qed.

Lemma touches_only_for_each {A S} q (l : list A) (body : A -> S -> M S) :
  (forall a acc, touches_only q (body a acc)) ->
  forall acc, touches_only q (for_each l body acc).
Proof.
  intros Hb. induction l as [|a l IH]; intros acc; cbn [for_each]; [done|].
  apply touches_only_bind; auto.
Qed.

Lemma touches_only_train_test_split {A} q a (x : list A) k :
  touches_only q (train_test_split a x k).
Proof.
  unfold train_test_split. apply touches_only_bind; [done|]. intros _.
  now destruct (_ || _).
Qed.

Lemma touches_only_remove_stale_weights :
  touches_only weights_file remove_stale_weights.
Proof.
  intros s. rewrite st_remove_stale_weights.
  destruct (is_file (fs s) weights_file); [|done].
  split; [done|]. intros r Hr. cbn [fs set_fs].
  now rewrite lookup_delete_ne.
Qed.

Lemma touches_only_call_train_model model x y epochs bsize burn :
  touches_only weights_file
    (call_train_model model x y epochs bsize the_checkpoint burn).
Proof.
  intros s. rewrite call_train_model_run. cbn zeta.
  change (filepath the_checkpoint) with weights_file.
  destruct (saved _) as [w|]; [|done].
  destruct (fs s !! weights_file) as [[|?]|];
    try destruct (is_dir (fs s) (parent weights_file)); try done.
  all: split; [done|]; intros r Hr; cbn [st fs set_fs set_rng];
    now rewrite lookup_insert_ne.
Qed.

Lemma touches_only_load_weights q model p : touches_only q (load_weights model p).
Proof. intros s. now rewrite load_weights_run. Qed.

Ltac touches_only_step :=
  lazymatch goal with
  | |- touches_only _ (bind _ _) => apply touches_only_bind; [| intros ?]
  | |- touches_only _ (for_each _ _ _) =>
      apply touches_only_for_each; intros ? ?
  | |- touches_only _ (match ?x with _ => _ end) => destruct x
  | |- touches_only _ (let (_, _) := ?x in _) => destruct x
  end.

Lemma touches_only_run_experiment c e params :
  touches_only weights_file (run_experiment c e params).
Proof.
  unfold run_experiment, run_setup, run_trial, py_assert, reduce_train_pools,
    call_get_train_test_parameters, call_synthesize_data,
    call_build_train_set_bits, call_build_test_trials_o1_bits,
    call_build_test_trials_o2_bits, call_add_noise, call_simple_mlp,
    call_evaluate_generalization.
  change (mkCheckpoint weights_file "loss" true true 2) with the_checkpoint.
  repeat touches_only_step;
    auto using touches_only_train_test_split,
      touches_only_remove_stale_weights, touches_only_call_train_model,
      touches_only_load_weights;
    done.
Qed.

(** X2: whatever its outcome, a call of [run_experiment] leaves [sys.stdout]
    pointing where it did, and it creates, removes or replaces no file or
    directory other than the checkpoint ['../data/mlp_combined.h5']: every
    other path holds after the call what it held before (what the call
    prints goes to wherever [sys.stdout] points). *)
Theorem run_experiment_touches_only_checkpoint c e params :
  touches_only weights_file (run_experiment c e params).
Proof. apply touches_only_run_experiment. Qed.

Lemma eval_scores_app o l1 l2 :
  eval_scores o (l1 ++ l2) = eval_scores o l1 ++ eval_scores o l2.
Proof. apply omap_app. Qed.

Lemma eval_scores_none o l :
  Forall (fun e => is_evaluate o e = false) l -> eval_scores o l = [].
Proof.
  induction 1 as [|ev l He _ IH]; [done|]. unfold eval_scores in *.
  cbn [omap list_omap]. rewrite IH.
  destruct ev; try done. destruct o0, o; cbn in *; done.
Qed.

Lemma trials_scores X_train Y_train y1 y2 bsize params l :
  forall acc s sc,
    res (for_each l (run_trial X_train Y_train y1 y2 bsize params) acc s)
      = Ok sc ->
    let ev := evs (for_each l (run_trial X_train Y_train y1 y2 bsize params)
                     acc s) in
    sc.1 = acc.1 ++ eval_scores Order1 ev /\
    sc.2 = acc.2 ++ eval_scores Order2 ev.
Proof.
  induction l as [|i l IH]; intros acc s sc H; cbn [for_each] in *.
  - injection H as <-. cbn. now rewrite !app_nil_r.
  - pose proof (run_trial_Ok X_train Y_train y1 y2 bsize params i acc s) as Hok.
    destruct (run_trial X_train Y_train y1 y2 bsize params i acc s)
      as [[acc1|x] s1 l1] eqn:E;
      rewrite (bind_run _ _ _ _ _ _ E) in *; cbn [res st evs] in *;
      [|discriminate].
    destruct (Hok acc1 eq_refl) as (xn & m & w & -> & -> & _).
    destruct (IH _ _ _ H) as [I1 I2]. cbn zeta in I1, I2. cbn [fst snd] in *.
    rewrite I1, I2, !eval_scores_app, <- !app_assoc.
    destruct (is_file (fs s) weights_file); done.
Qed.

Lemma run_experiment_Ok_scores c e params s sc :
  res (run_experiment c e params s) = Ok sc ->
  sc.1 = eval_scores Order1 (evs (run_experiment c e params s)) /\
  sc.2 = eval_scores Order2 (evs (run_experiment c e params s)) /\
  length sc.1 = Z.to_nat (nb_trials params) /\
  length sc.2 = Z.to_nat (nb_trials params).
Proof.
  intros H.
  destruct (run_experiment_Ok _ _ _ _ _ H)
    as (Hc & X & Y & y1 & y2 & s1 & pre & Hs & Hl & Hev & _).
  cbn zeta in Hl.
  destruct (run_setup_evs c e params s Hc) as (rest & Hpre & Hrest).
  rewrite Hs in Hpre. cbn [evs] in Hpre. subst pre.
  assert (Hnone : forall o, eval_scores o (EvSeed 0 :: rest) = []).
  { intros o. apply eval_scores_none. constructor; [now destruct o|].
    eapply Forall_impl; [exact Hrest|]. destruct o; ev_cases. }
  destruct (trials_scores _ _ _ _ _ _ _ _ _ _ Hl) as [S1 S2].
  cbn zeta in S1, S2. cbn [fst snd app] in S1, S2.
  rewrite Hev, !eval_scores_app, !Hnone, !app_nil_l.
  assert (E1 : forall o, eval_scores o [EvClearSession; EvSessionClose] = [])
    by (now intros []).
  rewrite !E1, !app_nil_r, <- S1, <- S2. split; [done|]. split; [done|].
  assert (Hlen : forall l acc s' sc',
            res (for_each l (run_trial X Y y1 y2
                   (Z.min (batch_size params) (batch_cap c e)) params)
                   acc s') = Ok sc' ->
            length sc'.1 = (length acc.1 + length l)%nat /\
            length sc'.2 = (length acc.2 + length l)%nat).
  { induction l as [|i l IH]; intros acc s' sc' Hr; cbn [for_each] in Hr.
    - injection Hr as <-. cbn. lia.
    - pose proof (run_trial_Ok X Y y1 y2
                    (Z.min (batch_size params) (batch_cap c e)) params i acc s')
        as Hok.
      destruct (run_trial X Y y1 y2 _ params i acc s')
        as [[acc1|x] s2 l2] eqn:E;
        rewrite (bind_run _ _ _ _ _ _ E) in Hr; cbn [res st evs] in *;
        [|discriminate].
      destruct (Hok acc1 eq_refl) as (xn & m & w & _ & -> & _).
      destruct (IH _ _ _ Hr) as [L1 L2]. cbn [fst snd] in L1, L2.
      rewrite length_app in L1, L2. cbn in *. lia. }
  destruct (Hlen _ _ _ _ Hl) as [L1 L2]. rewrite py_range_length in L1, L2.
  cbn in L1, L2. lia.
Qed.

(** X3: a call of [run_experiment] that returns, returns two sequences of
    exactly [nb_trials] scores (none when [nb_trials] is negative), and they
    are the scores of the order-1 and of the order-2 evaluations in the order
    the repetitions made them. *)
Theorem run_experiment_returns_evaluations c e params s sc :
  res (run_experiment c e params s) = Ok sc ->
  sc.1 = eval_scores Order1 (evs (run_experiment c e params s)) /\
  sc.2 = eval_scores Order2 (evs (run_experiment c e params s)) /\
  length sc.1 = Z.to_nat (nb_trials params) /\
  length sc.2 = Z.to_nat (nb_trials params).
Proof. apply run_experiment_Ok_scores. Qed.

(** X4: with no repetitions asked for ([nb_trials <= 0]) a call, given train
    pools of fifty values and [0 <= C <= 50], still reseeds and builds the
    training set and both test batches, but creates no model, never calls
    the trainer, leaves the file system as it was and returns two empty
    sequences. *)
Theorem run_experiment_no_repetitions c e params s pools g :
  get_train_test_parameters false 20 (np_random_seed 0 (rng s)) = (pools, g) ->
  length pools.1.1.1 = 50%nat ->
  length pools.1.2.1 = 50%nat ->
  length pools.2.1 = 50%nat ->
  (0 <= c <= 50)%Z ->
  (nb_trials params <= 0)%Z ->
  res (run_experiment c e params s) = Ok ([], []) /\
  fs (st (run_experiment c e params s)) = fs s /\
  count is_seed (evs (run_experiment c e params s)) = 1%nat /\
  count is_build (evs (run_experiment c e params s)) = 3%nat /\
  count is_model (evs (run_experiment c e params s)) = 0%nat /\
  count is_train (evs (run_experiment c e params s)) = 0%nat.
Proof.
  intros Hp H1 H2 H3 Hc Hn.
  destruct (run_setup_pools c e params s pools g Hp H1 H2 H3 Hc)
    as (st' & ct' & tt' & X & Y & x1 & y1 & x2 & y2 & s' & Hs & Hfs & _).
  pose proof (run_experiment_run c e params s) as Hr. cbn zeta in Hr.
  rewrite Hs in Hr. cbn [res st evs] in Hr.
  unfold py_range in Hr. replace (Z.to_nat (nb_trials params)) with 0%nat in Hr
    by lia.
  cbn [seq fmap list_fmap for_each ret res st evs] in Hr. rewrite Hr.
  cbn [res st evs]. split; [done|]. split; [done|].
  rewrite !count_app. unfold split_events.
  destruct (c <? 50)%Z; repeat split; reflexivity.
Qed.

(** * Further properties of [experiment_loop] *)

Lemma stdout_fresh_results_dir p s :
  stdout (st (fresh_results_dir p s)) = stdout s.
Proof. apply fresh_results_dir_quiet. Qed.

(** X5: a sweep that returns leaves [sys.stdout] pointing where it pointed
    when the sweep started, whatever [exectue_fn] did to it. *)
Theorem experiment_loop_restores_stdout f cats exs params p s u :
  res (experiment_loop f cats exs params p s) = Ok u ->
  stdout (st (experiment_loop f cats exs params p s)) = stdout s.
Proof.
  unfold experiment_loop. intros H.
  apply bind_Ok_inv in H as (out0 & [= <-] & H & _ & ->).
  change (st (gets stdout s)) with s in *.
  apply bind_Ok_inv in H as ([] & _ & H & _ & ->).
  pose proof (stdout_fresh_results_dir p s) as Hs1.
  set (s1 := st (fresh_results_dir p s)) in *. clearbody s1.
  unfold sweep in *.
  apply bind_Ok_inv in H as ([] & _ & H & _ & ->).
  apply bind_Ok_inv in H as ([] & _ & H & _ & ->).
  set (s2 := st (np_save _ _ (st (np_save _ _ s1)))) in *.
  assert (Hs2 : stdout s2 = stdout s).
  { subst s2. now rewrite !stdout_np_save. }
  clearbody s2.
  apply bind_Ok_inv in H as (T1 & HT1 & H & _ & ->).
  apply bind_Ok_inv in H as (T2 & HT2 & H & _ & ->).
  assert (Hz : forall a b c s' T, res (np_zeros a b c s') = Ok T ->
                 st (np_zeros a b c s') = s').
  { intros a b c s' T. unfold np_zeros. now destruct (c <? 0)%Z. }
  rewrite (Hz _ _ _ _ _ HT1) in *. rewrite (Hz _ _ _ _ _ HT2) in *.
  apply bind_Ok_inv in H as (T' & Hl & _ & _ & ->).
  change (st (print MsgLoopComplete ?s')) with s'.
  rewrite nested_loops_flat in Hl |- *.
  destruct (cells_run f params p (stdout s)
              (enumerate cats ≫= (fun a => pair a <$> enumerate exs))
              (T1, T2) s2 Hs2) as (logs & tail & _ & _ & _ & _ & Hr).
  rewrite Hl in Hr. tauto.
Qed.

Lemma Forall_evs_run_cell f params cats exs p out0 i c j e T s :
  c ∈ cats -> e ∈ exs ->
  Forall (exec_ev f params cats exs)
    (evs (run_cell f params p out0 i c j e T s)).
Proof.
  intros Hc He. unfold run_cell.
  repeat evs_step;
    rewrite ?evs_open_w, ?evs_np_save, ?(proj2 (setitem_pure _ _ _ _ _));
    evs_leaf.
  unfold exec_ev. eauto.
Qed.

Lemma elem_of_enumerate_2 {A} (l : list A) i a : (i, a) ∈ enumerate l -> a ∈ l.
Proof. intros H%elem_of_enumerate. eapply list_elem_of_lookup_2, H. Qed.

Lemma count_for_each_le {A S} (f : Event -> bool)
    (l : list A) (body : A -> S -> M S) :
  (forall a acc s, (count f (evs (body a acc s)) <= 1)%nat) ->
  forall acc s, (count f (evs (for_each l body acc s)) <= length l)%nat.
Proof.
  intros Hb. induction l as [|a l IH]; intros acc s; cbn [for_each length].
  - cbn. lia.
  - unfold bind. specialize (Hb a acc s).
    destruct (res (body a acc s)) as [acc1|x]; cbn [evs]; [|lia].
    rewrite count_app. specialize (IH acc1 (st (body a acc s))). lia.
Qed.

Lemma length_cells cats exs :
  length (cells cats exs) = (length cats * length exs)%nat.
Proof.
  unfold cells. rewrite <- (length_enumerate cats).
  induction (enumerate cats) as [|a l IH]; cbn [mbind list_bind length];
    [done|].
  rewrite length_app, length_fmap, length_enumerate, IH. lia.
Qed.

Lemma count_cell_chunks p out0 cs logs :
  count is_exec (concat (zip_with (cell_events p out0) cs logs)) =
  length (zip_with (cell_events p out0) cs logs).
Proof.
  induction (zip_with (cell_events p out0) cs logs) as [|ch chs IH] eqn:E
    in cs, logs |- *; [done|].
  destruct cs as [|c cs], logs as [|k logs]; try discriminate.
  cbn [zip_with] in E. injection E as <- E.
  cbn [concat length]. rewrite count_app, (IH _ _ E). reflexivity.
Qed.

Lemma experiment_loop_exec_evs f cats exs params p s :
  Forall (exec_ev f params cats exs)
    (evs (experiment_loop f cats exs params p s)).
Proof.
  unfold experiment_loop, sweep.
  apply Forall_evs_bind_any; [constructor|]. intros out0 s0.
  apply Forall_evs_bind_any.
  { eapply Forall_impl with (P := fun ev => is_exec ev = false).
    - destruct (fresh_results_dir_quiet p s0) as [Hq _].
      unfold count in Hq. apply Forall_forall. intros ev Hin.
      destruct (is_exec ev) eqn:Hx; [|done].
      assert (ev ∈ List.filter is_exec (evs (fresh_results_dir p s0))).
      { apply list_elem_of_In, List.filter_In. split; [|done].
        now apply list_elem_of_In. }
      destruct (List.filter is_exec _); [|discriminate].
      now apply not_elem_of_nil in H.
    - now intros []. }
  intros _ s1.
  apply Forall_evs_bind_any; [rewrite evs_np_save; evs_leaf|]. intros _ s2.
  apply Forall_evs_bind_any; [rewrite evs_np_save; evs_leaf|]. intros _ s3.
  apply Forall_evs_bind_any.
  { unfold np_zeros. destruct (_ <? 0)%Z; constructor. }
  intros T1 s4. apply Forall_evs_bind_any.
  { unfold np_zeros. destruct (_ <? 0)%Z; constructor. }
  intros T2 s5. apply Forall_evs_bind_any; [|intros; evs_leaf].
  apply Forall_evs_for_each. intros [i c] T s6 Hc%elem_of_enumerate_2.
  apply Forall_evs_for_each. intros [j e] T' s7 He%elem_of_enumerate_2.
  now apply Forall_evs_run_cell.
Qed.

(** X6: every call of [exectue_fn] a sweep logs is made at a category count
    and an exemplar count of the two lists, and carries what [exectue_fn]
    logged and returned there; there are never more calls than cells, and a
    sweep that returns has made exactly
    [len(category_trials) * len(exemplar_trials)] of them. *)
Theorem experiment_loop_calls f cats exs params p s :
  Forall (exec_ev f params cats exs)
    (evs (experiment_loop f cats exs params p s)) /\
  (count is_exec (evs (experiment_loop f cats exs params p s))
     <= length cats * length exs)%nat /\
  match res (experiment_loop f cats exs params p s) with
  | Ok _ =>
      count is_exec (evs (experiment_loop f cats exs params p s)) =
      (length cats * length exs)%nat
  | Raise _ => True
  end.
Proof.
  split; [|split].
  - apply experiment_loop_exec_evs.
  - unfold experiment_loop, sweep.
    apply count_bind_l; [done|]. intros out0 s0.
    apply count_bind_l; [apply fresh_results_dir_quiet|]. intros _ s1.
    apply count_bind_l; [now rewrite evs_np_save|]. intros _ s2.
    apply count_bind_l; [now rewrite evs_np_save|]. intros _ s3.
    apply count_bind_l.
    { unfold np_zeros. now destruct (_ <? 0)%Z. }
    intros T1 s4. apply count_bind_l.
    { unfold np_zeros. now destruct (_ <? 0)%Z. }
    intros T2 s5. apply count_bind_r; [|done].
    rewrite nested_loops_flat, <- length_cells.
    apply count_for_each_le. intros. apply cell_body_exec.
  - destruct (experiment_loop_run f cats exs params p s)
      as (header & logs & tail & He & Hh & Ht & Hl & Hp & Hr).
    destruct (res _); [|done]. destruct Hr as [Hlen ->].
    rewrite He, !count_app, Hh, count_cell_chunks, length_zip_with.
    rewrite Hlen, length_cells. cbn. lia.
Qed.

(** ** Run equations of the sweep *)

Lemma parent_os_path_join (p : path) n : parent (os_path_join p n) = p.
Proof. unfold parent, os_path_join. apply removelast_last. Qed.

Lemma is_under_app (p q : path) : is_under p (p ++ q) = true.
Proof. induction p as [|a p IH]; cbn; [done|]. now rewrite decide_True. Qed.

Lemma os_path_join_ne (p : path) n : os_path_join p n <> p.
Proof.
  unfold os_path_join. intros H. apply (f_equal length) in H.
  rewrite length_app in H. cbn in H. lia.
Qed.

Lemma os_path_join_inj (p : path) a b :
  os_path_join p a = os_path_join p b -> a = b.
Proof. unfold os_path_join. now intros [=]%app_inv_head. Qed.

Lemma write_file_run p d s :
  fs s !! p <> Some Dir -> is_dir (fs s) (parent p) = true ->
  write_file p d s = mkOut (Ok tt) (set_fs (<[p := File d]> (fs s)) s) [].
Proof.
  intros Hp Hd. unfold write_file, bind, gets, modify, raise.
  cbn [res st evs app]. rewrite Hd.
  now destruct (fs s !! p) as [[|?]|].
Qed.

Lemma np_save_run p d s :
  fs s !! p <> Some Dir -> is_dir (fs s) (parent p) = true ->
  np_save p d s =
  mkOut (Ok tt) (set_fs (<[p := File d]> (fs s)) s) [EvSave p d].
Proof.
  intros Hp Hd. unfold np_save.
  rewrite (bind_run _ _ _ _ _ _ (eq_refl : emit _ s = mkOut _ _ _)).
  now rewrite (write_file_run p d s Hp Hd).
Qed.

Lemma open_w_run p s :
  fs s !! p <> Some Dir -> is_dir (fs s) (parent p) = true ->
  open_w p s =
  mkOut (Ok (LogFile p)) (set_fs (<[p := File FText]> (fs s)) s) [EvOpen p].
Proof.
  intros Hp Hd. unfold open_w.
  rewrite (bind_run _ _ _ _ _ _ (eq_refl : emit _ s = mkOut _ _ _)).
  rewrite (bind_run _ _ _ _ _ _ (write_file_run p FText s Hp Hd)).
  reflexivity.
Qed.

(** The saving of the two grids into a directory that is there. *)
Lemma grids_saved_run {A} p cats exs (k : M A) s :
  fs s !! p = Some Dir ->
  fs s !! os_path_join p "category_trials.npy" <> Some Dir ->
  fs s !! os_path_join p "exemplar_trials.npy" <> Some Dir ->
  bind (np_save (os_path_join p "category_trials.npy") (FInts cats))
    (fun _ =>
       bind (np_save (os_path_join p "exemplar_trials.npy") (FInts exs))
         (fun _ => k)) s =
  mkOut (res (k (set_fs (with_grids p cats exs (fs s)) s)))
    (st (k (set_fs (with_grids p cats exs (fs s)) s)))
    ([EvSave (os_path_join p "category_trials.npy") (FInts cats);
      EvSave (os_path_join p "exemplar_trials.npy") (FInts exs)]
       ++ evs (k (set_fs (with_grids p cats exs (fs s)) s))).
Proof.
  intros Hp Hc He.
  assert (Hd : is_dir (fs s) p = true) by (unfold is_dir; now rewrite Hp).
  rewrite (bind_run _ _ _ _ _ _
             (np_save_run _ (FInts cats) s Hc
                ltac:(now rewrite parent_os_path_join))).
  cbn match.
  set (s1 := set_fs _ s).
  assert (H1 : fs s1 !! os_path_join p "exemplar_trials.npy" <> Some Dir).
  { subst s1. cbn [fs set_fs]. rewrite lookup_insert_ne; [done|].
    now intros [=]%os_path_join_inj. }
  assert (H2 : is_dir (fs s1) (parent (os_path_join p "exemplar_trials.npy"))
               = true).
  { subst s1. rewrite parent_os_path_join. unfold is_dir. cbn [fs set_fs].
    rewrite lookup_insert_ne by apply os_path_join_ne. now rewrite Hp. }
  rewrite (bind_run _ _ _ _ _ _ (np_save_run _ (FInts exs) s1 H1 H2)).
  cbn match. cbn [res st evs app]. reflexivity.
Qed.

Lemma lookup_fresh_dir (p : path) (m : gmap path Node) (q : path) :
  fresh_dir p m !! q =
  if decide (q = p) then Some Dir
  else if is_under p q then None else m !! q.
Proof.
  unfold fresh_dir. destruct (decide (q = p)) as [->|Hq].
  - apply lookup_insert_eq.
  - rewrite lookup_insert_ne by done. apply lookup_rmtree.
Qed.

Lemma lookup_fresh_dir_join (p : path) (m : gmap path Node) n :
  fresh_dir p m !! os_path_join p n = None.
Proof.
  rewrite lookup_fresh_dir, decide_False by apply os_path_join_ne.
  unfold os_path_join. now rewrite is_under_app.
Qed.

(** [experiment_loop] on a directory that is there, step by step: the
    directory is replaced, the grids are saved, the tensors are made, the
    cells are run in order, and the closing message is printed. *)
Lemma experiment_loop_existing f cats exs params p s :
  is_dir (fs s) p = true ->
  is_dir (fs s) (parent p) = true ->
  p <> [] ->
  experiment_loop f cats exs params p s =
  if (nb_trials params <? 0)%Z then
    mkOut (Raise ValueError)
      (set_fs (with_grids p cats exs (fresh_dir p (fs s))) s)
      (sweep_prelude p cats exs)
  else
    match res (for_each (cells cats exs) (cell_body f params p (stdout s))
                 (zeros (length cats) (length exs) (nb_trials params),
                  zeros (length cats) (length exs) (nb_trials params))
                 (set_fs (with_grids p cats exs (fresh_dir p (fs s))) s)) with
    | Ok _ =>
        mkOut (Ok tt)
          (st (for_each (cells cats exs) (cell_body f params p (stdout s))
                 (zeros (length cats) (length exs) (nb_trials params),
                  zeros (length cats) (length exs) (nb_trials params))
                 (set_fs (with_grids p cats exs (fresh_dir p (fs s))) s)))
          (sweep_prelude p cats exs ++
           evs (for_each (cells cats exs) (cell_body f params p (stdout s))
                  (zeros (length cats) (length exs) (nb_trials params),
                   zeros (length cats) (length exs) (nb_trials params))
                  (set_fs (with_grids p cats exs (fresh_dir p (fs s))) s)) ++
           [EvPrint
              (stdout
                 (st (for_each (cells cats exs)
                        (cell_body f params p (stdout s))
                        (zeros (length cats) (length exs) (nb_trials params),
                         zeros (length cats) (length exs) (nb_trials params))
                        (set_fs (with_grids p cats exs (fresh_dir p (fs s)))
                           s))))
              MsgLoopComplete])
    | Raise x =>
        mkOut (Raise x)
          (st (for_each (cells cats exs) (cell_body f params p (stdout s))
                 (zeros (length cats) (length exs) (nb_trials params),
                  zeros (length cats) (length exs) (nb_trials params))
                 (set_fs (with_grids p cats exs (fresh_dir p (fs s))) s)))
          (sweep_prelude p cats exs ++
           evs (for_each (cells cats exs) (cell_body f params p (stdout s))
                  (zeros (length cats) (length exs) (nb_trials params),
                   zeros (length cats) (length exs) (nb_trials params))
                  (set_fs (with_grids p cats exs (fresh_dir p (fs s))) s)))
    end.
Proof.
  intros Hd Hpar Hp. unfold experiment_loop.
  rewrite (bind_run _ _ _ _ _ _ (eq_refl : gets stdout s = mkOut _ _ _)).
  cbn match. cbn [app].
  rewrite (bind_run _ _ _ _ _ _ (fresh_results_dir_existing p s Hd Hpar Hp)).
  cbn match. fold (fresh_dir p (fs s)).
  set (s1 := set_fs (fresh_dir p (fs s)) s).
  unfold sweep.
  rewrite (grids_saved_run p cats exs _ s1).
  2:{ subst s1. cbn [fs set_fs]. rewrite lookup_fresh_dir.
      now rewrite decide_True. }
  2:{ subst s1. cbn [fs set_fs]. now rewrite lookup_fresh_dir_join. }
  2:{ subst s1. cbn [fs set_fs]. now rewrite lookup_fresh_dir_join. }
  assert (Hs : set_fs (with_grids p cats exs (fs s1)) s1 =
               set_fs (with_grids p cats exs (fresh_dir p (fs s))) s)
    by reflexivity.
  rewrite Hs. clear Hs. clearbody s1. clear s1.
  set (s2 := set_fs (with_grids p cats exs (fresh_dir p (fs s))) s).
  unfold np_zeros. destruct (nb_trials params <? 0)%Z.
  { rewrite (bind_run _ _ _ _ _ _ (eq_refl : raise ValueError s2 = mkOut _ _ _)).
    cbn [res st evs app]. reflexivity. }
  fold (zeros (length cats) (length exs) (nb_trials params)).
  rewrite !bind_ret_l.
  set (T0 := zeros (length cats) (length exs) (nb_trials params)).
  rewrite (bind_ext_l _ _ _ _
             (nested_loops_flat f params p (stdout s) (enumerate cats)
                (enumerate exs) (T0, T0))).
  fold (cells cats exs).
  destruct (for_each (cells cats exs) _ _ s2) as [r s3 l3] eqn:E.
  rewrite (bind_run _ _ _ _ _ _ E).
  destruct r; cbn [res st evs app]; reflexivity.
Qed.

(** X7: in a sweep of [run_experiment], whose log is a header without a
    call, then the events of exactly the cells it completed, then a rest
    with at most one call, the scores written into the slice of a completed
    cell are exactly the scores of the evaluations that the cell's call
    logged, order 1 in the first tensor and order 2 in the second, in the
    order the repetitions made them: nothing is broadcast.  They are still
    there in the tensors saved after every later cell. *)
Theorem sweep_slices_hold_the_evaluations cats exs params p s :
  exists header logs tail,
    evs (experiment_loop run_experiment cats exs params p s) =
      header
        ++ concat (zip_with (cell_events p (stdout s)) (cells cats exs) logs)
        ++ tail /\
    count is_exec header = 0%nat /\
    (count is_exec tail <= 1)%nat /\
    completed_cells run_experiment cats exs params p s header logs /\
    match res (experiment_loop run_experiment cats exs params p s) with
    | Ok _ =>
        length logs = length (cells cats exs) /\
        tail = [EvPrint (stdout s) MsgLoopComplete]
    | Raise _ => True
    end /\
    forall m' m k' k cell',
      (m' <= m)%nat ->
      logs !! m' = Some k' -> logs !! m = Some k ->
      cells cats exs !! m' = Some cell' ->
      slice (cl_T1 k) cell'.1.1 cell'.2.1
        = Some (eval_scores Order1 (cl_inner k')) /\
      slice (cl_T2 k) cell'.1.1 cell'.2.1
        = Some (eval_scores Order2 (cl_inner k')) /\
      cl_o1 k' = eval_scores Order1 (cl_inner k') /\
      cl_o2 k' = eval_scores Order2 (cl_inner k').
Proof.
  destruct (experiment_loop_run_tied run_experiment cats exs params p s)
    as (header & logs & tail & (He & Hh & Ht & Hl & Hp & Hr) & Hcc).
  exists header, logs, tail.
  split; [done|]. split; [done|]. split; [done|]. split; [done|].
  split; [done|].
  intros m' m k' k cell' Hle Hk' Hk Hc.
  pose proof (experiment_loop_exec_evs run_experiment cats exs params p s)
    as HF.
  rewrite He in HF.
  assert (Hin : EvExec cell'.1.2 cell'.2.2 (cl_inner k')
                  (Ok (cl_o1 k', cl_o2 k'))
                ∈ header
                  ++ concat (zip_with (cell_events p (stdout s))
                               (cells cats exs) logs)
                  ++ tail).
  { rewrite !elem_of_app. right. left.
    apply list_elem_of_In, in_concat.
    exists (cell_events p (stdout s) cell' k'). split.
    - apply list_elem_of_In, (list_elem_of_lookup_2 _ m').
      rewrite lookup_zip_with, Hc. cbn. now rewrite Hk'.
    - unfold cell_events. cbn. tauto. }
  apply (proj1 (Forall_forall _ _) HF) in Hin.
  destruct Hin as (_ & _ & s' & Hinner & Hres). symmetry in Hres.
  apply run_experiment_Ok_scores in Hres as (E1 & E2 & L1 & L2).
  cbn [fst snd] in E1, E2, L1, L2. rewrite <- Hinner in E1, E2.
  destruct (sweep_log_kept (Z.to_nat (nb_trials params)) logs
              (cells cats exs) _ Hl (NoDup_idx_cells cats exs)
              (uniform_zeros _ _ _) (uniform_zeros _ _ _)
              m' m k' k cell' Hle Hk' Hk Hc)
    as [(v1 & B1 & S1) (v2 & B2 & S2)].
  unfold broadcast_to in B1, B2.
  rewrite decide_True in B1 by done. rewrite decide_True in B2 by done.
  injection B1 as <-. injection B2 as <-.
  rewrite <- E1, <- E2. done.
Qed.

(** X8: on a results directory that is there, with an empty grid (no
    category counts or no exemplar counts) and [0 <= nb_trials], the sweep
    replaces the directory, saves the two grids, prints the closing message
    and returns: [exectue_fn] is never called, no log file is opened, and no
    tensor is ever saved. *)
Theorem empty_grid_runs_nothing f cats exs params p s :
  is_dir (fs s) p = true ->
  is_dir (fs s) (parent p) = true ->
  p <> [] ->
  (0 <= nb_trials params)%Z ->
  cats = [] \/ exs = [] ->
  experiment_loop f cats exs params p s =
    mkOut (Ok tt) (set_fs (with_grids p cats exs (fresh_dir p (fs s))) s)
      (sweep_prelude p cats exs ++ [EvPrint (stdout s) MsgLoopComplete]) /\
  with_grids p cats exs (fresh_dir p (fs s))
    !! os_path_join p "results_o1_gen.npy" = None /\
  with_grids p cats exs (fresh_dir p (fs s))
    !! os_path_join p "results_o2_gen.npy" = None.
Proof.
  intros Hd Hpar Hp Hn Hempty. split.
  - rewrite (experiment_loop_existing f cats exs params p s Hd Hpar Hp).
    destruct (nb_trials params <? 0)%Z eqn:Hlt; [lia|].
    assert (Hc : cells cats exs = []).
    { apply nil_length_inv. rewrite length_cells.
      destruct Hempty as [-> | ->]; cbn; lia. }
    rewrite Hc. cbn [for_each ret res st evs app stdout set_fs]. reflexivity.
  - unfold with_grids.
    rewrite !lookup_insert_ne by (now intros [=]%os_path_join_inj).
    now rewrite !lookup_fresh_dir_join.
Qed.

(** X9: a negative [nb_trials] is found out only when the tensors are made,
    after the directory that was there has been removed with everything in
    it and the grids have been saved: the sweep raises [ValueError] without
    a single call of [exectue_fn], and the directory holds the two grid
    files and nothing else. *)
Theorem negative_repetitions_raise_after_cleanup f cats exs params p s :
  is_dir (fs s) p = true ->
  is_dir (fs s) (parent p) = true ->
  p <> [] ->
  (nb_trials params < 0)%Z ->
  experiment_loop f cats exs params p s =
    mkOut (Raise ValueError)
      (set_fs (with_grids p cats exs (fresh_dir p (fs s))) s)
      (sweep_prelude p cats exs) /\
  forall q,
    is_under p q = true -> q <> p ->
    q <> os_path_join p "category_trials.npy" ->
    q <> os_path_join p "exemplar_trials.npy" ->
    with_grids p cats exs (fresh_dir p (fs s)) !! q = None.
Proof.
  intros Hd Hpar Hp Hn. split.
  - rewrite (experiment_loop_existing f cats exs params p s Hd Hpar Hp).
    destruct (nb_trials params <? 0)%Z eqn:Hlt; [done | lia].
  - intros q Hu Hq H1 H2. unfold with_grids.
    rewrite !lookup_insert_ne by done.
    now rewrite lookup_fresh_dir, decide_False, Hu.
Qed.

Lemma fresh_results_dir_absent p s :
  is_dir (fs s) p = false ->
  fresh_results_dir p s = os_mkdir p s.
Proof.
  intros Hd. unfold fresh_results_dir.
  assert (His : os_path_isdir p s = mkOut (Ok false) s []).
  { unfold os_path_isdir, gets. now rewrite Hd. }
  rewrite (bind_run _ _ _ _ _ _ His). cbn match.
  rewrite (bind_run _ _ _ _ _ _ (eq_refl : ret tt s = mkOut _ _ _)).
  cbn match. cbn [app]. now destruct (os_mkdir p s).
Qed.

(** X10: a results path that is not a directory and cannot be made one stops
    the sweep at [os.mkdir], before anything else is done: with a regular
    file at the path [FileExistsError] is raised, with nothing at the path
    and nothing where its parent directory should be [FileNotFoundError];
    the file system is left as it was and nothing but the attempt is
    logged. *)
Theorem unusable_results_path_raises f cats exs params p s :
  (exists d, fs s !! p = Some (File d)) \/
  (fs s !! p = None /\ fs s !! parent p = None) ->
  experiment_loop f cats exs params p s =
    mkOut
      (Raise match fs s !! p with
             | Some _ => FileExistsError
             | None => FileNotFoundError
             end)
      s [EvMkdir p].
Proof.
  intros Hbad. unfold experiment_loop.
  rewrite (bind_run _ _ _ _ _ _ (eq_refl : gets stdout s = mkOut _ _ _)).
  cbn match. cbn [app].
  assert (Hd : is_dir (fs s) p = false).
  { unfold is_dir. now destruct Hbad as [[d ->] | [-> _]]. }
  assert (Hm : os_mkdir p s =
               mkOut (Raise match fs s !! p with
                            | Some _ => FileExistsError
                            | None => FileNotFoundError
                            end) s [EvMkdir p]).
  { unfold os_mkdir, bind, gets, emit, modify, raise. cbn [res st evs app].
    destruct Hbad as [[d ->] | [-> Hpar]]; [done|].
    unfold is_dir. now rewrite Hpar. }
  rewrite <- (fresh_results_dir_absent p s Hd) in Hm.
  rewrite (bind_run _ _ _ _ _ _ Hm). reflexivity.
Qed.

(** X11: on a results path where nothing is yet, below a directory that is
    there, [experiment_loop] creates the directory, without a warning and
    without removing anything, and runs the sweep from the store that
    differs from the one it started with in the new directory only. *)
Theorem absent_results_dir_created f cats exs params p s :
  fs s !! p = None ->
  is_dir (fs s) (parent p) = true ->
  experiment_loop f cats exs params p s =
    mkOut
      (res (sweep f cats exs params p (stdout s)
              (set_fs (<[p := Dir]> (fs s)) s)))
      (st (sweep f cats exs params p (stdout s)
             (set_fs (<[p := Dir]> (fs s)) s)))
      (EvMkdir p ::
       evs (sweep f cats exs params p (stdout s)
              (set_fs (<[p := Dir]> (fs s)) s))).
Proof.
  intros Hl Hpar. unfold experiment_loop.
  rewrite (bind_run _ _ _ _ _ _ (eq_refl : gets stdout s = mkOut _ _ _)).
  cbn match. cbn [app].
  assert (Hd : is_dir (fs s) p = false) by (unfold is_dir; now rewrite Hl).
  pose proof (os_mkdir_run p s Hl Hpar) as Hm.
  rewrite <- (fresh_results_dir_absent p s Hd) in Hm.
  rewrite (bind_run _ _ _ _ _ _ Hm). reflexivity.
Qed.

(** ** A call that fails *)

Lemma stops_at_call_quiet p {A} (o : Out A) :
  count is_exec (evs o) = 0%nat -> stops_at_call p o.
Proof.
  intros Hc c e inner r [l' Hl]%last_Some.
  rewrite Hl, count_app in Hc. cbn in Hc. lia.
Qed.

Lemma stops_at_call_bind p {A B} (m : M A) (k : A -> M B) s :
  stops_at_call p (m s) ->
  (forall a, res (m s) = Ok a -> stops_at_call p (k a (st (m s)))) ->
  stops_at_call p (bind m k s).
Proof.
  intros Hm Hk. unfold bind. cbv zeta.
  destruct (res (m s)) as [a|x] eqn:Hr.
  - intros c e inner r. cbn [res st evs]. rewrite last_app.
    destruct (last (evs (k a (st (m s))))) as [y|] eqn:Hy.
    + intros [= ->]. exact (Hk a eq_refl c e inner r Hy).
    + intros Hl. destruct (Hm c e inner r Hl) as [(x & Hx & _) _].
      congruence.
  - intros c e inner r Hl. cbn [res st evs] in *.
    destruct (Hm c e inner r Hl) as [(x' & Hx & Hy) Ho].
    split; [|done]. exists x. split; [done|].
    intros y Hry. rewrite (Hy y Hry) in Hx. congruence.
Qed.

Lemma stops_at_call_for_each p {A S} (l : list A) (body : A -> S -> M S) :
  (forall a acc s, stops_at_call p (body a acc s)) ->
  forall acc s, stops_at_call p (for_each l body acc s).
Proof.
  intros Hb. induction l as [|a l IH]; intros acc s; cbn [for_each].
  - now apply stops_at_call_quiet.
  - apply stops_at_call_bind; auto.
Qed.

Lemma quiet_setitem T i j v : quiet (setitem T i j v).
Proof.
  intros s. destruct (setitem_pure T i j v s) as [-> ->]. done.
Qed.

(** The call and what follows it in a cell, run with [sys.stdout] at the
    cell's log file. *)
Lemma stops_at_call_from_call params p out0 i c j e (T : Tensor * Tensor) s :
  stdout s = LogFile (os_path_join p (log_name c e)) ->
  stops_at_call p
    (bind (call_exectue_fn run_experiment c e params)
       (fun '(o1, o2) =>
          let* results_o1_gen := setitem T.1 i j o1 in
          let* results_o2_gen := setitem T.2 i j o2 in
          assign_stdout out0 ;;
          np_save (os_path_join p "results_o1_gen.npy")
            (FTensor results_o1_gen) ;;
          np_save (os_path_join p "results_o2_gen.npy")
            (FTensor results_o2_gen) ;;
          ret (results_o1_gen, results_o2_gen)) s).
Proof.
  intros Hs.
  pose proof (proj1 (touches_only_run_experiment c e params s)) as Hst.
  rewrite Hs in Hst.
  assert (Hcall : call_exectue_fn run_experiment c e params s =
                  mkOut (res (run_experiment c e params s))
                    (st (run_experiment c e params s))
                    [EvExec c e (evs (run_experiment c e params s))
                       (res (run_experiment c e params s))])
    by reflexivity.
  rewrite (bind_run _ _ _ _ _ _ Hcall).
  set (o := run_experiment c e params s) in *. clearbody o.
  destruct (res o) as [[o1 o2]|x].
  - cbv beta iota.
    destruct (setitem T.1 i j o1 (st o)) as [r1 s1 l1] eqn:E1.
    destruct (setitem_pure T.1 i j o1 (st o)) as [S1 L1].
    rewrite E1 in S1, L1. cbn [st evs] in S1, L1. subst s1 l1.
    rewrite (bind_run _ _ _ _ _ _ E1).
    destruct r1 as [T1|x1].
    2:{ intros c' e' inner r Hl. cbn [res st evs app last] in Hl |- *.
        injection Hl as <- <- <- <-. split; [|done].
        exists x1. split; [done|]. discriminate. }
    destruct (setitem T.2 i j o2 (st o)) as [r2 s2 l2] eqn:E2.
    destruct (setitem_pure T.2 i j o2 (st o)) as [S2 L2].
    rewrite E2 in S2, L2. cbn [st evs] in S2, L2. subst s2 l2.
    rewrite (bind_run _ _ _ _ _ _ E2).
    destruct r2 as [T2|x2].
    2:{ intros c' e' inner r Hl. cbn [res st evs app last] in Hl |- *.
        injection Hl as <- <- <- <-. split; [|done].
        exists x2. split; [done|]. discriminate. }
    assert (Ha : assign_stdout out0 (st o) =
                 mkOut (Ok tt) (set_stdout out0 (st o)) [EvStdout out0])
      by reflexivity.
    rewrite (bind_run _ _ _ _ _ _ Ha).
    set (rest := bind (np_save _ _) _).
    intros c' e' inner r Hl. exfalso. revert Hl.
    cbn [res st evs app].
    change (EvExec c e (evs o) (Ok (o1, o2)) :: EvStdout out0 :: ?l)
      with ([EvExec c e (evs o) (Ok (o1, o2))] ++ EvStdout out0 :: l).
    rewrite last_app, last_cons.
    destruct (last (evs (rest _))) as [y|] eqn:Hy; [|discriminate].
    intros [= ->]. apply last_Some in Hy as [l' Hl'].
    assert (Hq : count is_exec (evs (rest (set_stdout out0 (st o))))
                 = 0%nat).
    { subst rest. apply count_bind_0; [now rewrite evs_np_save|].
      intros _ s1. apply count_bind_0; [now rewrite evs_np_save|]. done. }
    rewrite Hl', count_app in Hq. cbn in Hq. lia.
  - intros c' e' inner r Hl. cbn [res st evs app last] in Hl |- *.
    injection Hl as <- <- <- <-. split; [|done].
    exists x. split; [done|]. now intros y [= ->].
Qed.

Lemma stops_at_call_run_cell params p out0 i c j e T s :
  stops_at_call p (run_cell run_experiment params p out0 i c j e T s).
Proof.
  unfold run_cell.
  apply stops_at_call_bind; [now apply stops_at_call_quiet|]. intros _ _.
  set (s1 := st (print (MsgTesting c e) s)). clearbody s1.
  apply stops_at_call_bind.
  { apply stops_at_call_quiet. now rewrite evs_open_w. }
  intros t ->%res_open_w.
  set (s2 := st (open_w _ s1)). clearbody s2.
  apply stops_at_call_bind; [now apply stops_at_call_quiet|]. intros _ _.
  change (st (assign_stdout ?t s2)) with (set_stdout t s2).
  now apply stops_at_call_from_call.
Qed.

Lemma stops_at_call_experiment_loop cats exs params p s :
  stops_at_call p (experiment_loop run_experiment cats exs params p s).
Proof.
  unfold experiment_loop, sweep.
  apply stops_at_call_bind; [now apply stops_at_call_quiet|]. intros out0 _.
  apply stops_at_call_bind.
  { apply stops_at_call_quiet, fresh_results_dir_quiet. }
  intros _ _.
  apply stops_at_call_bind.
  { apply stops_at_call_quiet. now rewrite evs_np_save. }
  intros _ _.
  apply stops_at_call_bind.
  { apply stops_at_call_quiet. now rewrite evs_np_save. }
  intros _ _.
  apply stops_at_call_bind.
  { apply stops_at_call_quiet. unfold np_zeros. now destruct (_ <? 0)%Z. }
  intros T1 _.
  apply stops_at_call_bind.
  { apply stops_at_call_quiet. unfold np_zeros. now destruct (_ <? 0)%Z. }
  intros T2 _.
  apply stops_at_call_bind; [|intros; now apply stops_at_call_quiet].
  apply stops_at_call_for_each. intros [i c] T s1.
  apply stops_at_call_for_each. intros [j e] T' s2.
  apply stops_at_call_run_cell.
Qed.

(** X12: nothing restores [sys.stdout] when a call fails.  If the log of a
    sweep of [run_experiment] ends with a call that raised, the sweep raised
    the same exception, and it left [sys.stdout] pointing at the log file of
    the cell in which the call was made. *)
Theorem failed_call_leaves_stdout_redirected cats exs params p s c e inner x :
  last (evs (experiment_loop run_experiment cats exs params p s))
    = Some (EvExec c e inner (Raise x)) ->
  res (experiment_loop run_experiment cats exs params p s) = Raise x /\
  stdout (st (experiment_loop run_experiment cats exs params p s))
    = LogFile (os_path_join p (log_name c e)).
Proof.
  intros Hl.
  destruct (stops_at_call_experiment_loop cats exs params p s _ _ _ _ Hl)
    as [(x' & Hx & Hy) Ho].
  split; [|done]. now rewrite Hx, (Hy x eq_refl).
Qed.

(** ** [main] *)

Lemma grid_cap_positive c e :
  c ∈ category_trials -> e ∈ exemplar_trials ->
  (c <=? 50)%Z = true /\ (1 <= batch_cap c e)%Z.
Proof.
  unfold category_trials, exemplar_trials, batch_cap. intros Hc He.
  assert (2 <= c <= 50)%Z.
  { repeat (apply elem_of_cons in Hc as [->|Hc]; [lia|]). inversion Hc. }
  assert (3 <= e)%Z.
  { repeat (apply elem_of_cons in He as [->|He]; [lia|]). inversion He. }
  split; [lia|]. apply Z.div_le_lower_bound; nia.
Qed.

(** X13: started with a batch size of at least 1, [main] never has the
    trainer called with an empty batch: in every call of [run_experiment]
    that the sweep of [main] makes, every training run is given a batch size
    between 1 and the batch size asked for. *)
Theorem main_trains_on_nonempty_batches args s :
  (1 <= args_batch_size args)%Z ->
  Forall (calls_train_within 1 (args_batch_size args)) (evs (main args s)).
Proof.
  intros Hb. unfold main.
  apply Forall_evs_bind_any.
  { unfold py_assert. destruct (noise_in_unit_interval _); constructor. }
  intros _ s0. apply Forall_evs_bind_any; [evs_leaf|]. intros _ s1.
  eapply Forall_impl; [apply experiment_loop_exec_evs|].
  intros [] Hev; try exact I. cbn in Hev |- *.
  destruct Hev as (Hc & He & s' & -> & _).
  destruct (grid_cap_positive c e Hc He) as [Hc50 Hcap].
  destruct (run_experiment_evs (batch_within 1 (args_batch_size args)) c e
              (mkParams (args_nb_epochs args) (args_batch_size args) 10 1000
                 (args_noise args)) s' Hc50)
    as (rest & -> & Hrest).
  - intros ev. destruct ev; cbn; tauto.
  - intros X y1 y2 ev. destruct ev; cbn; try tauto.
    intros (_ & -> & _). lia.
  - exact I.
  - exact I.
  - constructor; [exact I | exact Hrest].
Qed.

(** ** What a sweep leaves in the results directory *)

Ltac keeps_leaf := let s := fresh in let H := fresh in intros s H; exact H.

Lemma keeps_bind q n {A B} (m : M A) (k : A -> M B) :
  keeps q n m -> (forall a, keeps q n (k a)) -> keeps q n (bind m k).
Proof.
  intros Hm Hk s Hs. unfold bind. cbv zeta.
  destruct (res (m s)) as [a|x]; cbn [res st evs]; [|now apply Hm].
  now apply Hk, Hm.
Qed.

Lemma keeps_for_each q n {A S} (l : list A) (body : A -> S -> M S) :
  (forall a acc, keeps q n (body a acc)) ->
  forall acc, keeps q n (for_each l body acc).
Proof.
  intros Hb. induction l as [|a l IH]; intros acc; cbn [for_each];
    [keeps_leaf|].
  apply keeps_bind; auto.
Qed.

Lemma keeps_write_file q n p d :
  (q = p -> n = File d) -> keeps q n (write_file p d).
Proof.
  intros Hq s Hs. unfold write_file, bind, gets, modify, raise.
  cbn [res st evs].
  assert (Hi : <[p := File d]> (fs s) !! q = Some n).
  { destruct (decide (q = p)) as [->|Hne].
    - now rewrite lookup_insert_eq, Hq.
    - now rewrite lookup_insert_ne. }
  destruct (fs s !! p) as [[|?]|]; cbn [res st evs]; try done;
    destruct (is_dir (fs s) (parent p)); done.
Qed.

Lemma keeps_np_save q n p d :
  (q = p -> n = File d) -> keeps q n (np_save p d).
Proof.
  intros Hq. unfold np_save. apply keeps_bind; [keeps_leaf|]. intros _.
  now apply keeps_write_file.
Qed.

Lemma keeps_open_w q n p :
  (q = p -> n = File FText) -> keeps q n (open_w p).
Proof.
  intros Hq. unfold open_w. apply keeps_bind; [keeps_leaf|]. intros _.
  apply keeps_bind; [now apply keeps_write_file | intros; keeps_leaf].
Qed.

Lemma keeps_setitem q n T i j v : keeps q n (setitem T i j v).
Proof. intros s Hs. now rewrite (proj1 (setitem_pure T i j v s)). Qed.

Lemma keeps_call_run_experiment q n c e params :
  q <> weights_file -> keeps q n (call_exectue_fn run_experiment c e params).
Proof.
  intros Hq s Hs. unfold call_exectue_fn. cbn [st].
  now rewrite (proj2 (touches_only_run_experiment c e params s) q Hq).
Qed.

Lemma os_path_join_ne_weights_file (p : path) name :
  name <> "mlp_combined.h5" -> os_path_join p name <> weights_file.
Proof.
  intros Hn H.
  change weights_file with ([".."; "data"] ++ ["mlp_combined.h5"]) in H.
  unfold os_path_join in H. now apply app_inj_tail in H as [_ ?].
Qed.

Lemma log_name_head c e : exists t, log_name c e = ("l" +:+ t)%string.
Proof. unfold log_name. eexists. reflexivity. Qed.

Lemma log_name_ne c e name :
  (forall t, name <> ("l" +:+ t)%string) -> log_name c e <> name.
Proof. intros Hn H. destruct (log_name_head c e) as [t Ht]. congruence. Qed.

(** What follows the opening of the log file in a cell. *)
Lemma keeps_after_open q n params p out0 i c j e (T : Tensor * Tensor) t :
  q <> weights_file ->
  q <> os_path_join p "results_o1_gen.npy" ->
  q <> os_path_join p "results_o2_gen.npy" ->
  keeps q n
    (assign_stdout t ;;
     let* (o1, o2) := call_exectue_fn run_experiment c e params in
     let* results_o1_gen := setitem T.1 i j o1 in
     let* results_o2_gen := setitem T.2 i j o2 in
     assign_stdout out0 ;;
     np_save (os_path_join p "results_o1_gen.npy")
       (FTensor results_o1_gen) ;;
     np_save (os_path_join p "results_o2_gen.npy")
       (FTensor results_o2_gen) ;;
     ret (results_o1_gen, results_o2_gen)).
Proof.
  intros Hw H1 H2.
  apply keeps_bind; [keeps_leaf|]. intros _.
  apply keeps_bind; [now apply keeps_call_run_experiment|]. intros [o1 o2].
  apply keeps_bind; [apply keeps_setitem|]. intros T1.
  apply keeps_bind; [apply keeps_setitem|]. intros T2.
  apply keeps_bind; [keeps_leaf|]. intros _.
  apply keeps_bind; [now apply keeps_np_save|]. intros _.
  apply keeps_bind; [now apply keeps_np_save | intros; keeps_leaf].
Qed.

Lemma keeps_run_cell q n params p out0 i c j e T :
  (q = os_path_join p (log_name c e) -> n = File FText) ->
  q <> weights_file ->
  q <> os_path_join p "results_o1_gen.npy" ->
  q <> os_path_join p "results_o2_gen.npy" ->
  keeps q n (run_cell run_experiment params p out0 i c j e T).
Proof.
  intros Hl Hw H1 H2. unfold run_cell.
  apply keeps_bind; [keeps_leaf|]. intros _.
  apply keeps_bind; [now apply keeps_open_w|]. intros t.
  now apply keeps_after_open.
Qed.

Lemma write_file_Ok p d s u :
  res (write_file p d s) = Ok u ->
  fs (st (write_file p d s)) = <[p := File d]> (fs s).
Proof.
  unfold write_file, bind, gets, modify, raise. cbn [res st evs].
  destruct (fs s !! p) as [[|?]|]; cbn [res st evs]; try done;
    destruct (is_dir (fs s) (parent p)); done.
Qed.

Lemma open_w_Ok p s t :
  res (open_w p s) = Ok t ->
  fs (st (open_w p s)) = <[p := File FText]> (fs s).
Proof.
  unfold open_w. intros H.
  apply bind_Ok_inv in H as ([] & _ & H & _ & ->).
  apply bind_Ok_inv in H as ([] & H & _ & _ & ->).
  change (st (emit (EvOpen p) s)) with s in *.
  change (st (ret (LogFile p) ?s')) with s'.
  now apply write_file_Ok with (u := tt).
Qed.

Lemma keeps_log_cell_body params p out0 c e cell T :
  keeps (os_path_join p (log_name c e)) (File FText)
    (cell_body run_experiment params p out0 cell T).
Proof.
  unfold cell_body. apply keeps_run_cell; [done|..].
  - apply os_path_join_ne_weights_file, log_name_ne. intros t. cbn. discriminate.
  - intros H%os_path_join_inj. revert H. apply log_name_ne.
    intros t. cbn. discriminate.
  - intros H%os_path_join_inj. revert H. apply log_name_ne.
    intros t. cbn. discriminate.
Qed.

(** A completed cell leaves its log file behind. *)
Lemma cell_body_log params p out0 cell T s T' :
  res (cell_body run_experiment params p out0 cell T s) = Ok T' ->
  fs (st (cell_body run_experiment params p out0 cell T s))
    !! os_path_join p (log_name cell.1.2 cell.2.2) = Some (File FText).
Proof.
  destruct cell as [[i c] [j e]]. unfold cell_body, run_cell. cbn [fst snd].
  intros H.
  apply bind_Ok_inv in H as ([] & _ & H & _ & ->).
  apply bind_Ok_inv in H as (t & Ht & H & _ & ->).
  eapply (keeps_after_open _ _ params p out0 i c j e T t).
  - apply os_path_join_ne_weights_file, log_name_ne. intros ?. cbn. discriminate.
  - intros E%os_path_join_inj. revert E. apply log_name_ne.
    intros ?. cbn. discriminate.
  - intros E%os_path_join_inj. revert E. apply log_name_ne.
    intros ?. cbn. discriminate.
  - rewrite (open_w_Ok _ _ _ Ht). apply lookup_insert_eq.
Qed.

Lemma cells_leave_logs params p out0 l :
  forall T s T',
    res (for_each l (cell_body run_experiment params p out0) T s) = Ok T' ->
    forall cell, cell ∈ l ->
      fs (st (for_each l (cell_body run_experiment params p out0) T s))
        !! os_path_join p (log_name cell.1.2 cell.2.2) = Some (File FText).
Proof.
  induction l as [|cell0 l IH]; intros T s T' H cell Hin;
    [inversion Hin|].
  cbn [for_each] in H |- *.
  apply bind_Ok_inv in H as (T1 & H1 & H & _ & ->).
  apply elem_of_cons in Hin as [->|Hin].
  - apply keeps_for_each.
    + intros. apply keeps_log_cell_body.
    + eapply cell_body_log, H1.
  - eapply IH; eauto.
Qed.

(** X14: a sweep of [run_experiment] that returns leaves in the results
    directory the two grids it was given, each in its file, and the log file
    of every cell of the grid: no later cell and no call removes or
    overwrites them. *)
Theorem returning_sweep_leaves_grids_and_logs cats exs params p s u :
  res (experiment_loop run_experiment cats exs params p s) = Ok u ->
  fs (st (experiment_loop run_experiment cats exs params p s))
    !! os_path_join p "category_trials.npy" = Some (File (FInts cats)) /\
  fs (st (experiment_loop run_experiment cats exs params p s))
    !! os_path_join p "exemplar_trials.npy" = Some (File (FInts exs)) /\
  forall c e, c ∈ cats -> e ∈ exs ->
    fs (st (experiment_loop run_experiment cats exs params p s))
      !! os_path_join p (log_name c e) = Some (File FText).
Proof.
  unfold experiment_loop. intros H.
  apply bind_Ok_inv in H as (out0 & [= <-] & H & _ & ->).
  change (st (gets stdout s)) with s in *.
  apply bind_Ok_inv in H as ([] & _ & H & _ & ->).
  set (s1 := st (fresh_results_dir p s)) in *. clearbody s1.
  unfold sweep in *.
  apply bind_Ok_inv in H as ([] & S1 & H & _ & ->).
  apply bind_Ok_inv in H as ([] & S2 & H & _ & ->).
  pose proof (np_save_Ok _ _ _ _ S1) as F1.
  pose proof (np_save_Ok _ _ _ _ S2) as F2. rewrite F1 in F2. clear F1 S1 S2.
  set (s3 := st (np_save _ _ (st (np_save _ _ s1)))) in *. clearbody s3.
  assert (Hcat : fs s3 !! os_path_join p "category_trials.npy"
                 = Some (File (FInts cats))).
  { rewrite F2, lookup_insert_ne, lookup_insert_eq; [done|].
    now intros [=]%os_path_join_inj. }
  assert (Hex : fs s3 !! os_path_join p "exemplar_trials.npy"
                = Some (File (FInts exs))).
  { rewrite F2. apply lookup_insert_eq. }
  clear F2.
  assert (Hkeep : forall name d,
            name <> "mlp_combined.h5" -> name <> "results_o1_gen.npy" ->
            name <> "results_o2_gen.npy" ->
            (forall t, name <> ("l" +:+ t)%string) ->
            fs s3 !! os_path_join p name = Some (File d) ->
            fs (st ((let* T1 := np_zeros (length cats) (length exs)
                                  (nb_trials params) in
                     let* T2 := np_zeros (length cats) (length exs)
                                  (nb_trials params) in
                     for_each (enumerate cats)
                       (fun '(i, nb_categories) =>
                          for_each (enumerate exs)
                            (fun '(j, nb_exemplars) =>
                               run_cell run_experiment params p (stdout s)
                                 i nb_categories j nb_exemplars))
                       (T1, T2) ;;
                     print MsgLoopComplete) s3))
              !! os_path_join p name = Some (File d)).
  { intros name d N1 N2 N3 N4.
    apply (keeps_bind (os_path_join p name) (File d)).
    { intros s'. unfold np_zeros. now destruct (_ <? 0)%Z. }
    intros T1. apply keeps_bind.
    { intros s'. unfold np_zeros. now destruct (_ <? 0)%Z. }
    intros T2. apply keeps_bind; [|intros; keeps_leaf].
    apply keeps_for_each. intros [i c] T.
    apply keeps_for_each. intros [j e] T'.
    apply keeps_run_cell.
    - intros E%os_path_join_inj. destruct (log_name_head c e) as [t Ht].
      exfalso. apply (N4 t). congruence.
    - now apply os_path_join_ne_weights_file.
    - now intros E%os_path_join_inj.
    - now intros E%os_path_join_inj. }
  split; [|split].
  - apply Hkeep; try done; intros t; cbn; discriminate.
  - apply Hkeep; try done; intros t; cbn; discriminate.
  - intros c e Hc He.
    apply bind_Ok_inv in H as (T1 & HT1 & H & _ & ->).
    apply bind_Ok_inv in H as (T2 & HT2 & H & _ & ->).
    assert (Hz : forall a b k s' T, res (np_zeros a b k s') = Ok T ->
                   st (np_zeros a b k s') = s').
    { intros a b k s' T. unfold np_zeros. now destruct (k <? 0)%Z. }
    rewrite (Hz _ _ _ _ _ HT1) in *. rewrite (Hz _ _ _ _ _ HT2) in *.
    apply bind_Ok_inv in H as (T' & Hl & _ & _ & ->).
    change (st (print MsgLoopComplete ?s')) with s'.
    rewrite nested_loops_flat in Hl |- *.
    apply list_elem_of_lookup in Hc as [i Hi], He as [j Hj].
    apply (cells_leave_logs params p (stdout s) _ _ _ _ Hl ((i, c), (j, e))).
    apply elem_of_cells. done.
Qed.

(** ** Training runs of a whole sweep *)

Lemma run_experiment_Ok_trainings c e params s sc :
  res (run_experiment c e params s) = Ok sc ->
  count is_train (evs (run_experiment c e params s))
    = Z.to_nat (nb_trials params).
Proof.
  intros H.
  destruct (run_experiment_Ok _ _ _ _ _ H)
    as (Hc & X & Y & y1 & y2 & s1 & pre & Hs & Hl & -> & _).
  cbn zeta in Hl.
  destruct (run_setup_evs c e params s Hc) as (rest & Hev & Hrest).
  rewrite Hs in Hev. cbn [evs] in Hev. subst pre.
  rewrite !count_app.
  rewrite (trials_count is_train _ _ _ _ _ _ _ _ _ Hl) by auto 10.
  change (count is_train (EvSeed 0 :: rest)) with (count is_train rest).
  rewrite count_none; [cbn; lia|].
  eapply Forall_impl; [exact Hrest|]. now intros [].
Qed.

Lemma sum_trainings_quiet l :
  count is_exec l = 0%nat -> sum_list_with trainings_in l = 0%nat.
Proof.
  induction l as [|ev l IH]; [done|].
  change (ev :: l) with ([ev] ++ l). rewrite count_app, sum_list_with_app.
  intros H. rewrite IH by lia. destruct ev; cbn in *; lia.
Qed.

Lemma sum_trainings_chunks p out0 n cs logs :
  Forall (fun k => count is_train (cl_inner k) = n) logs ->
  sum_list_with trainings_in (concat (zip_with (cell_events p out0) cs logs))
    = (length (zip_with (cell_events p out0) cs logs) * n)%nat.
Proof.
  intros Hn. revert cs.
  induction Hn as [|k logs Hk _ IH]; intros cs.
  - now rewrite zip_with_nil_r.
  - destruct cs as [|cell cs]; [done|].
    cbn [zip_with concat length]. rewrite sum_list_with_app, IH.
    unfold cell_events. cbn. lia.
Qed.

(** A sweep of [run_experiment] that returns has made one call per cell,
    each with [nb_trials] training runs. *)
Lemma sweep_trainings cats exs params p s u :
  res (experiment_loop run_experiment cats exs params p s) = Ok u ->
  count is_exec (evs (experiment_loop run_experiment cats exs params p s))
    = (length cats * length exs)%nat /\
  sum_list_with trainings_in
    (evs (experiment_loop run_experiment cats exs params p s))
    = (length cats * length exs * Z.to_nat (nb_trials params))%nat.
Proof.
  intros H.
  destruct (experiment_loop_run run_experiment cats exs params p s)
    as (header & logs & tail & He & Hh & Ht & Hl & Hp & Hr).
  pose proof (experiment_loop_exec_evs run_experiment cats exs params p s)
    as HF.
  rewrite H in Hr. destruct Hr as [Hlen ->].
  rewrite He in HF |- *.
  assert (Hn : Forall (fun k => count is_train (cl_inner k)
                               = Z.to_nat (nb_trials params)) logs).
  { apply Forall_lookup. intros m k Hk.
    destruct (lookup_lt_is_Some_2 (cells cats exs) m) as [cell Hc].
    { rewrite <- Hlen. now apply lookup_lt_Some in Hk. }
    assert (Hin : EvExec cell.1.2 cell.2.2 (cl_inner k)
                    (Ok (cl_o1 k, cl_o2 k))
                  ∈ header
                    ++ concat (zip_with (cell_events p (stdout s))
                                 (cells cats exs) logs)
                    ++ [EvPrint (stdout s) MsgLoopComplete]).
    { rewrite !elem_of_app. right. left.
      apply list_elem_of_In, in_concat.
      exists (cell_events p (stdout s) cell k). split.
      - apply list_elem_of_In, (list_elem_of_lookup_2 _ m).
        rewrite lookup_zip_with, Hc. cbn. now rewrite Hk.
      - unfold cell_events. cbn. tauto. }
    apply (proj1 (Forall_forall _ _) HF) in Hin.
    destruct Hin as (_ & _ & s' & -> & Hres). symmetry in Hres.
    now apply run_experiment_Ok_trainings in Hres. }
  rewrite !count_app, !sum_list_with_app, Hh, count_cell_chunks.
  rewrite (sum_trainings_quiet header Hh).
  rewrite (sum_trainings_chunks _ _ _ _ _ Hn).
  rewrite length_zip_with, Hlen, length_cells. cbn. lia.
Qed.

(** X15: a sweep of [run_experiment] that returns has called
    [run_experiment] once for every cell of the grid, and the calls together
    have run the trainer [nb_trials] times per cell. *)
Theorem returning_sweep_trains_every_cell cats exs params p s u :
  res (experiment_loop run_experiment cats exs params p s) = Ok u ->
  count is_exec (evs (experiment_loop run_experiment cats exs params p s))
    = (length cats * length exs)%nat /\
  sum_list_with trainings_in
    (evs (experiment_loop run_experiment cats exs params p s))
    = (length cats * length exs * Z.to_nat (nb_trials params))%nat.
Proof. apply sweep_trainings. Qed.

(** X16: a run of [main] that returns was given a noise level the check
    accepts, has announced it on the output it was started with, has called
    [run_experiment] for each of the 36 cells of its grid, and has run the
    trainer 360 times in all. *)
Theorem main_returns_after_360_training_runs args s u :
  res (main args s) = Ok u ->
  noise_in_unit_interval (args_noise args) = true /\
  head (evs (main args s))
    = Some (EvPrint (stdout s) (MsgNoiseLevel (args_noise args))) /\
  count is_exec (evs (main args s)) = 36%nat /\
  sum_list_with trainings_in (evs (main args s)) = 360%nat.
Proof.
  unfold main. intros H.
  destruct (noise_in_unit_interval (args_noise args)) eqn:Hn.
  2:{ rewrite (bind_run _ _ _ _ _ _
                 (eq_refl : py_assert false s
                            = mkOut (Raise AssertionError) s [])) in H.
      discriminate. }
  split; [done|].
  assert (Ha : py_assert true s = mkOut (Ok tt) s []) by reflexivity.
  assert (Hp : print (MsgNoiseLevel (args_noise args)) s =
               mkOut (Ok tt) s
                 [EvPrint (stdout s) (MsgNoiseLevel (args_noise args))])
    by reflexivity.
  rewrite (bind_run _ _ _ _ _ _ Ha) in H |- *.
  rewrite (bind_run _ _ _ _ _ _ Hp) in H |- *.
  cbn [res st evs app] in H |- *.
  split; [done|].
  destruct (sweep_trainings _ _ _ _ _ _ H) as [Hc Ht].
  change (EvPrint (stdout s) (MsgNoiseLevel (args_noise args)) :: ?l)
    with ([EvPrint (stdout s) (MsgNoiseLevel (args_noise args))] ++ l).
  rewrite count_app, sum_list_with_app, Hc, Ht. split; reflexivity.
Qed.

(** ** The names of the log files *)

Lemma str_app_assoc (a b c : string) : ((a +:+ b) +:+ c = a +:+ b +:+ c)%string.
Proof.
  induction a as [|x a IH]; [done|].
  change (String x ((a +:+ b) +:+ c) = String x (a +:+ b +:+ c)).
  now rewrite IH.
Qed.

Lemma str_app_nil_r (a : string) : (a +:+ "" = a)%string.
Proof.
  induction a as [|x a IH]; [done|].
  change (String x (a +:+ "") = String x a). now rewrite IH.
Qed.

Lemma is_nat_pretty_N_char d :
  (d < 10)%N -> Ascii.is_nat (pretty_N_char d) = Some (N.to_nat d).
Proof.
  intros H.
  assert (d = 0 \/ d = 1 \/ d = 2 \/ d = 3 \/ d = 4 \/ d = 5 \/ d = 6 \/
          d = 7 \/ d = 8 \/ d = 9)%N as Hd by lia.
  repeat (destruct Hd as [->|Hd]; [reflexivity|]). now subst.
Qed.

Lemma pretty_N_go_app x : forall s r,
  pretty_N_go x (s +:+ r) = (pretty_N_go x s +:+ r)%string.
Proof.
  induction (N.lt_wf_0 x) as [x _ IH]. intros s r.
  destruct (decide (x = 0)%N) as [->|Hx].
  - now rewrite !pretty_N_go_0.
  - rewrite !(pretty_N_go_step x) by lia.
    rewrite <- IH by (apply N.div_lt; lia). reflexivity.
Qed.

Lemma read_pretty_N_go x : forall rest,
  read_digits 0 (pretty_N_go x rest) = read_digits x rest.
Proof.
  induction (N.lt_wf_0 x) as [x _ IH]. intros rest.
  destruct (decide (x = 0)%N) as [->|Hx].
  - now rewrite pretty_N_go_0.
  - rewrite pretty_N_go_step by lia.
    rewrite IH by (apply N.div_lt; lia).
    cbn [read_digits].
    rewrite is_nat_pretty_N_char by (apply N.mod_lt; lia).
    rewrite N2Nat.id. f_equal.
    pose proof (N.div_mod x 10). lia.
Qed.

Lemma read_pretty (n : N) rest :
  read_digits 0 (pretty n +:+ rest) = read_digits n rest.
Proof.
  unfold pretty, pretty_N. destruct (decide (n = 0)%N) as [->|Hn].
  - reflexivity.
  - rewrite <- pretty_N_go_app. apply read_pretty_N_go.
Qed.

Lemma read_zeros k X :
  read_digits 0 (String.concat "" (replicate k "0") +:+ X) = read_digits 0 X.
Proof.
  induction k as [|k IH]; [done|].
  destruct k as [|k]; [done|].
  change (String.concat "" (replicate (S (S k)) "0"))
    with ("0" +:+ "" +:+ String.concat "" (replicate (S k) "0"))%string.
  rewrite !str_app_assoc. exact IH.
Qed.

Lemma zeros_no_dash k X t :
  (forall t', X <> "-" +:+ t')%string ->
  (String.concat "" (replicate k "0") +:+ X <> "-" +:+ t)%string.
Proof.
  intros HX. destruct k as [|[|k]]; [apply HX | discriminate | discriminate].
Qed.

Lemma pretty_no_dash (n : N) rest t :
  (forall t', rest <> "-" +:+ t')%string ->
  (pretty n +:+ rest <> "-" +:+ t)%string.
Proof.
  intros Hr. unfold pretty, pretty_N. destruct (decide (n = 0)%N) as [->|Hn].
  - discriminate.
  - rewrite <- pretty_N_go_app. apply pretty_N_go_ne_dash, Hr.
Qed.

Lemma read_int_no_dash s :
  (forall t, s <> "-" +:+ t)%string ->
  read_int s = (Z.of_N (read_digits 0 s).1, (read_digits 0 s).2).
Proof.
  intros H. destruct s as [|a t]; [done|]. unfold read_int.
  destruct (decide (a = "-"%char)) as [->|Hne]; [|done].
  now destruct (H t).
Qed.

Lemma read_int_fmt_04i z rest :
  (forall acc, read_digits acc rest = (acc, rest)) ->
  (forall t, rest <> "-" +:+ t)%string ->
  read_int (fmt_04i z +:+ rest) = (z, rest).
Proof.
  intros Hstop Hdash. unfold fmt_04i. cbv zeta.
  set (d := pretty (Z.abs_N z)).
  set (k := (4 - String.length d)%nat). clearbody k.
  destruct (z <? 0)%Z eqn:Hz.
  - change (read_int (("-" +:+ String.concat "" (replicate k "0") +:+ d)
                      +:+ rest))
      with (let r := read_digits 0
                       ((String.concat "" (replicate k "0") +:+ d) +:+ rest)
            in (- Z.of_N r.1, r.2)%Z).
    cbv zeta. rewrite str_app_assoc, read_zeros. subst d.
    rewrite read_pretty, Hstop. cbn [fst snd]. f_equal. lia.
  - change (("" +:+ String.concat "" (replicate k "0") +:+ d) +:+ rest)%string
      with ((String.concat "" (replicate k "0") +:+ d) +:+ rest)%string.
    rewrite str_app_assoc, read_int_no_dash.
    + rewrite read_zeros. subst d. rewrite read_pretty, Hstop.
      cbn [fst snd]. f_equal. lia.
    + intros t. apply zeros_no_dash. intros t'. subst d.
      now apply pretty_no_dash.
Qed.

Lemma read_log_name_log_name c e : read_log_name (log_name c e) = (c, e).
Proof.
  unfold read_log_name, log_name. cbv zeta.
  change (drop_chars 6 ("log_ca" +:+ fmt_04i c +:+ "_ex" +:+ fmt_04i e))
    with (fmt_04i c +:+ "_ex" +:+ fmt_04i e)%string.
  rewrite (read_int_fmt_04i c); [| done | discriminate].
  cbn [fst snd].
  change (drop_chars 3 ("_ex" +:+ fmt_04i e)) with (fmt_04i e).
  rewrite <- (str_app_nil_r (fmt_04i e)).
  rewrite (read_int_fmt_04i e); [done | done | discriminate].
Qed.

(** X17: the name of a cell's log file determines the cell: two calls of
    [log_name] give the same name only for the same category count and the
    same exemplar count, whatever their signs and numbers of digits, so
    distinct cells never share a log file. *)
Theorem log_name_injective c1 e1 c2 e2 :
  log_name c1 e1 = log_name c2 e2 <-> c1 = c2 /\ e1 = e2.
Proof.
  split.
  - intros H. apply (f_equal read_log_name) in H.
    rewrite !read_log_name_log_name in H. now injection H.
  - now intros [-> ->].
Qed.

(** ** The session and the trainer's configuration *)

(** X18: a call of [run_experiment] that gets past its assertion opens
    exactly one TensorFlow session, and the session is closed exactly when
    the call returns: a call that raises, at whatever point, leaves it
    open. *)
Theorem session_closed_only_on_return c e params s :
  count is_session_open (evs (run_experiment c e params s))
    = (if (c <=? 50)%Z then 1 else 0)%nat /\
  count is_session_close (evs (run_experiment c e params s))
    = match res (run_experiment c e params s) with
      | Ok _ => 1%nat
      | Raise _ => 0%nat
      end.
Proof.
  destruct (c <=? 50)%Z eqn:Hc.
  2:{ now rewrite (run_experiment_assert _ _ _ _ Hc). }
  pose proof (run_experiment_run c e params s) as Hr. cbn zeta in Hr.
  destruct (run_setup_shape c e params s Hc) as (pools & g1 & o & _ & Ho & H).
  assert (Ho1 : forall f, (forall a k, f (EvSplit a k) = false) ->
                  count f (evs o) = 0%nat).
  { intros f Hf. apply count_none. subst o.
    eapply Forall_impl; [apply reduce_train_pools_evs|].
    intros ev [a ->]. apply Hf. }
  destruct (res o) as [[[st' ct'] tt']|x].
  - destruct H as (X & Y & x1 & y1 & x2 & y2 & s' & H & _).
    rewrite H in Hr. cbn [res st evs] in Hr.
    set (l := for_each _ _ _ s') in Hr.
    assert (Hl : forall f,
              (forall ev,
                 trial_ev X y1 y2 (Z.min (batch_size params) (batch_cap c e))
                   params ev -> f ev = false) ->
              count f (evs l) = 0%nat).
    { intros f Hf. apply count_none. subst l.
      eapply Forall_impl.
      - apply Forall_evs_for_each. intros. apply run_trial_evs.
      - intros ev Hev. now apply Hf. }
    clearbody l.
    assert (L1 : count is_session_open (evs l) = 0%nat).
    { apply Hl. now intros [] Hev; try destruct m; try destruct o0;
        try destruct r. }
    assert (L2 : count is_session_close (evs l) = 0%nat).
    { apply Hl. now intros [] Hev; try destruct m; try destruct o0;
        try destruct r. }
    assert (O1 : count is_session_open (evs o) = 0%nat) by now apply Ho1.
    assert (O2 : count is_session_close (evs o) = 0%nat) by now apply Ho1.
    destruct (res l); rewrite Hr; cbn [res st evs];
      rewrite !count_app, L1, L2, O1, O2; split; reflexivity.
  - rewrite H in Hr. cbn [res st evs] in Hr. rewrite Hr. cbn [res st evs].
    rewrite !count_app, (Ho1 is_session_open), (Ho1 is_session_close)
      by done.
    split; reflexivity.
Qed.

(** X19: every training run a call of [run_experiment] starts is started
    for [params['nb_epochs']] epochs, with a burn period of 100 epochs and
    with the one checkpoint callback of the script: on
    ['../data/mlp_combined.h5'], monitoring the training loss, keeping the
    best weights only, every second epoch. *)
Theorem trainer_started_as_configured c e params s :
  Forall (trains_as_configured (nb_epochs params))
    (evs (run_experiment c e params s)).
Proof.
  destruct (c <=? 50)%Z eqn:Hc.
  - destruct (run_experiment_evs (trains_as_configured (nb_epochs params))
                c e params s Hc) as (rest & -> & H); try exact I.
    + now intros [].
    + intros X y1 y2 []; cbn; try done. intros (-> & _ & -> & ->). done.
    + constructor; [exact I | exact H].
  - rewrite (run_experiment_assert _ _ _ _ Hc). constructor.
Qed.

End Facts.

(** * The properties on the small instance *)

Import Demo.

Lemma train_pools_reduced_witness :
  let ev := evs (run_experiment (L:=demo) 2 3 (params0 1) store0) in
  get_train_test_parameters false 20 (np_random_seed 0 (rng store0))
    = ((pool 0, pool 100, pool 200), 1%nat) /\
  length (pool 0).1 = 50%nat /\
  length (pool 100).1 = 50%nat /\
  length (pool 200).1 = 50%nat /\
  (0 <= 2 <= 50)%Z /\
  exists st' ct' tt',
    List.filter is_build ev =
      [EvBuildTrain st' ct' tt';
       EvBuildTestO1 st' (pool 0).2 ct' (pool 100).2 tt' (pool 200).2 3;
       EvBuildTestO2 (pool 0).2 (pool 100).2 (pool 200).2 3] /\
    List.filter is_split ev = split_events 2 /\
    (length st' = Z.to_nat 2 /\ sublist st' (pool 0).1) /\
    (length ct' = Z.to_nat 2 /\ sublist ct' (pool 100).1) /\
    (length tt' = Z.to_nat 2 /\ sublist tt' (pool 200).1) /\
    (2%Z = 50%Z ->
     st' = (pool 0).1 /\ ct' = (pool 100).1 /\ tt' = (pool 200).1).
Proof.
  cbv zeta. split; [reflexivity|]. split; [reflexivity|].
  split; [reflexivity|]. split; [reflexivity|]. split; [lia|].
  apply (train_pools_reduced (L:=demo) 2 3 (params0 1) store0
           (pool 0, pool 100, pool 200) 1%nat);
    [reflexivity | reflexivity | reflexivity | reflexivity | lia].
Defined.

Lemma reseeded_once_per_call_witness :
  (2 <= 50)%Z /\
  exists rest,
    evs (run_experiment (L:=demo) 2 3 (params0 2) store0) = EvSeed 0 :: rest /\
    count is_seed rest = 0%nat.
Proof.
  split; [lia|]. apply (reseeded_once_per_call (L:=demo) 2 3 (params0 2) store0). lia.
Defined.

(** C3, as the spec states it, fails: a call with two repetitions reseeds
    once, not twice. *)
Lemma reseeded_per_repetition_fails :
  ~ reseeded_per_repetition (L:=demo) 2 3 (params0 2) store0.
Proof. unfold reseeded_per_repetition. vm_compute. discriminate. Qed.


(** The file the first repetition wrote is still there when the second one
    starts, and is removed then. *)
Example checkpoint_left_for_next_repetition :
  count is_remove (evs (run_experiment (L:=demo) 2 3 (params0 2) store0)) = 1%nat /\
  is_file (fs (st (run_experiment (L:=demo) 2 3 (params0 2) store0))) weights_file
    = true.
Proof. vm_compute. split; reflexivity. Qed.

(** C8, as the spec states it, fails: with two categories and two exemplars
    the batch size is 0 and the trainer is called all the same. *)
Lemma fails_fast_on_zero_batch_fails :
  ~ fails_fast_on_zero_batch (L:=demo) 2 2 (params0 1) store0.
Proof.
  unfold fails_fast_on_zero_batch. intros H.
  destruct (H eq_refl) as [_ Hc]. vm_compute in Hc. discriminate.
Qed.

Lemma zero_batch_size_reaches_trainer_witness :
  get_train_test_parameters false 20 (np_random_seed 0 (rng store0))
    = ((pool 0, pool 100, pool 200), 1%nat) /\
  length (pool 0).1 = 50%nat /\
  length (pool 100).1 = 50%nat /\
  length (pool 200).1 = 50%nat /\
  (0 <= 2 <= 50)%Z /\
  (1 <= nb_trials (params0 1))%Z /\
  Z.min (batch_size (params0 1)) (batch_cap 2 2) = 0%Z /\
  exists pre xn w post,
    evs (run_experiment (L:=demo) 2 2 (params0 1) store0) =
      pre ++ EvTrain xn (nb_epochs (params0 1)) 0 the_checkpoint 100 w
          :: post /\
    count is_seed pre = 1%nat /\
    count is_build pre = 3%nat /\
    count is_model pre = 1%nat.
Proof.
  split; [reflexivity|]. split; [reflexivity|]. split; [reflexivity|].
  split; [reflexivity|]. split; [lia|]. split; [cbn; lia|].
  split; [reflexivity|].
  apply (zero_batch_size_reaches_trainer (L:=demo) 2 2 (params0 1) store0
           (pool 0, pool 100, pool 200) 1%nat);
    [reflexivity | reflexivity | reflexivity | reflexivity | lia
    | cbn; lia | reflexivity].
Defined.


Lemma batch_cap_on_grid_witness :
  (2 : Z) ∈ category_trials /\
  (3 : Z) ∈ exemplar_trials /\
  (6 : Z) ∈ exemplar_trials /\
  (3 <= 6)%Z /\
  (1 <= batch_cap 2 3 <= batch_cap 2 6)%Z.
Proof.
  assert (H2 : (2 : Z) ∈ category_trials) by repeat constructor.
  assert (H3 : (3 : Z) ∈ exemplar_trials) by repeat constructor.
  assert (H6 : (6 : Z) ∈ exemplar_trials) by repeat constructor.
  split; [exact H2|]. split; [exact H3|]. split; [exact H6|]. split; [lia|].
  apply (batch_cap_on_grid 2 3 6 H2 H3 H6). lia.
Defined.

Lemma existing_results_dir_replaced_witness :
  let p := [".."; "results"; "old"] in
  let fresh := <[p := Dir]> (rmtree p (fs store1)) in
  let o := sweep (L:=demo) run_experiment [2]%Z [3]%Z (params0 1) p (stdout store1)
             (set_fs fresh store1) in
  is_dir (fs store1) p = true /\
  is_dir (fs store1) (parent p) = true /\
  p <> [] /\
  experiment_loop (L:=demo) run_experiment [2]%Z [3]%Z (params0 1) p store1 =
    mkOut (res o) (st o)
      ([EvWarn overwrite_warning; EvRmtree p; EvMkdir p] ++ evs o) /\
  fresh !! p = Some Dir /\
  (forall q, is_under p q = true -> q <> p -> fresh !! q = None) /\
  (forall q, is_under p q = false -> fresh !! q = fs store1 !! q).
Proof.
  cbv zeta. split; [vm_compute; reflexivity|].
  split; [vm_compute; reflexivity|]. split; [discriminate|].
  apply (existing_results_dir_replaced (L:=demo) run_experiment [2]%Z [3]%Z (params0 1)
           [".."; "results"; "old"] store1);
    [vm_compute; reflexivity | vm_compute; reflexivity | discriminate].
Defined.

(** ** Further properties on the small instance *)

Lemma run_experiment_returns_evaluations_witness :
  let o := run_experiment (L:=demo) 2 3 (params0 2) store0 in
  res o = Ok ([4498; 4525], [4498; 4525])%nat /\
  [4498; 4525]%nat = eval_scores Order1 (evs o) /\
  [4498; 4525]%nat = eval_scores Order2 (evs o) /\
  length [4498; 4525]%nat = Z.to_nat (nb_trials (params0 2)) /\
  length [4498; 4525]%nat = Z.to_nat (nb_trials (params0 2)).
Proof.
  cbv zeta. split; [vm_compute; reflexivity|].
  apply (run_experiment_returns_evaluations (L:=demo) 2 3 (params0 2) store0
           ([4498; 4525], [4498; 4525])%nat).
  vm_compute. reflexivity.
Defined.

Lemma run_experiment_no_repetitions_witness :
  let o := run_experiment (L:=demo) 2 3 (params0 0) store0 in
  get_train_test_parameters false 20 (np_random_seed 0 (rng store0))
    = ((pool 0, pool 100, pool 200), 1%nat) /\
  length (pool 0).1 = 50%nat /\
  length (pool 100).1 = 50%nat /\
  length (pool 200).1 = 50%nat /\
  (0 <= 2 <= 50)%Z /\
  (nb_trials (params0 0) <= 0)%Z /\
  res o = Ok ([], []) /\
  fs (st o) = fs store0 /\
  count is_seed (evs o) = 1%nat /\
  count is_build (evs o) = 3%nat /\
  count is_model (evs o) = 0%nat /\
  count is_train (evs o) = 0%nat.
Proof.
  cbv zeta. split; [reflexivity|]. split; [reflexivity|].
  split; [reflexivity|]. split; [reflexivity|]. split; [lia|].
  split; [cbn; lia|].
  apply (run_experiment_no_repetitions (L:=demo) 2 3 (params0 0) store0
           (pool 0, pool 100, pool 200) 1%nat);
    [reflexivity | reflexivity | reflexivity | reflexivity | lia | cbn; lia].
Defined.

Lemma experiment_loop_restores_stdout_witness :
  let o := experiment_loop (L:=demo) run_experiment [2]%Z [3]%Z (params0 1)
             [".."; "results"; "old"] store1 in
  res o = Ok tt /\ stdout (st o) = stdout store1.
Proof.
  cbv zeta. split; [vm_compute; reflexivity|].
  apply (experiment_loop_restores_stdout (L:=demo) run_experiment [2]%Z [3]%Z
           (params0 1) [".."; "results"; "old"] store1 tt).
  vm_compute. reflexivity.
Defined.

Lemma empty_grid_runs_nothing_witness :
  let p := [".."; "results"; "old"] in
  let m := with_grids p [] [3]%Z (fresh_dir p (fs store1)) in
  is_dir (fs store1) p = true /\
  is_dir (fs store1) (parent p) = true /\
  p <> [] /\
  (0 <= nb_trials (params0 1))%Z /\
  ((@nil Z) = [] \/ [3]%Z = []) /\
  experiment_loop (L:=demo) run_experiment [] [3]%Z (params0 1) p store1 =
    mkOut (Ok tt) (set_fs m store1)
      (sweep_prelude p [] [3]%Z ++ [EvPrint (stdout store1) MsgLoopComplete])
  /\
  m !! os_path_join p "results_o1_gen.npy" = None /\
  m !! os_path_join p "results_o2_gen.npy" = None.
Proof.
  cbv zeta. split; [vm_compute; reflexivity|].
  split; [vm_compute; reflexivity|]. split; [discriminate|].
  split; [cbn; lia|]. split; [left; reflexivity|].
  apply (empty_grid_runs_nothing (L:=demo) run_experiment [] [3]%Z (params0 1)
           [".."; "results"; "old"] store1);
    [vm_compute; reflexivity | vm_compute; reflexivity | discriminate
    | cbn; lia | left; reflexivity].
Defined.

Lemma negative_repetitions_raise_after_cleanup_witness :
  let p := [".."; "results"; "old"] in
  let m := with_grids p [2]%Z [3]%Z (fresh_dir p (fs store1)) in
  is_dir (fs store1) p = true /\
  is_dir (fs store1) (parent p) = true /\
  p <> [] /\
  (nb_trials (params0 (-1)) < 0)%Z /\
  experiment_loop (L:=demo) run_experiment [2]%Z [3]%Z (params0 (-1)) p store1
    = mkOut (Raise ValueError) (set_fs m store1) (sweep_prelude p [2]%Z [3]%Z)
  /\
  forall q,
    is_under p q = true -> q <> p ->
    q <> os_path_join p "category_trials.npy" ->
    q <> os_path_join p "exemplar_trials.npy" ->
    m !! q = None.
Proof.
  cbv zeta. split; [vm_compute; reflexivity|].
  split; [vm_compute; reflexivity|]. split; [discriminate|].
  split; [cbn; lia|].
  apply (negative_repetitions_raise_after_cleanup (L:=demo) run_experiment
           [2]%Z [3]%Z (params0 (-1)) [".."; "results"; "old"] store1);
    [vm_compute; reflexivity | vm_compute; reflexivity | discriminate
    | cbn; lia].
Defined.

Lemma unusable_results_path_raises_witness :
  let p := [".."; "nowhere"; "new"] in
  ((exists d, fs store0 !! p = Some (File d)) \/
   (fs store0 !! p = None /\ fs store0 !! parent p = None)) /\
  experiment_loop (L:=demo) run_experiment [2]%Z [3]%Z (params0 1) p store0 =
    mkOut
      (Raise match fs store0 !! p with
             | Some _ => FileExistsError
             | None => FileNotFoundError
             end)
      store0 [EvMkdir p].
Proof.
  cbv zeta. split; [right; split; vm_compute; reflexivity|].
  apply (unusable_results_path_raises (L:=demo) run_experiment [2]%Z [3]%Z
           (params0 1) [".."; "nowhere"; "new"] store0).
  right. split; vm_compute; reflexivity.
Defined.

Lemma absent_results_dir_created_witness :
  let p := [".."; "results"; "new"] in
  let o := sweep (L:=demo) run_experiment [2]%Z [3]%Z (params0 1) p
             (stdout store0) (set_fs (<[p := Dir]> (fs store0)) store0) in
  fs store0 !! p = None /\
  is_dir (fs store0) (parent p) = true /\
  experiment_loop (L:=demo) run_experiment [2]%Z [3]%Z (params0 1) p store0 =
    mkOut (res o) (st o) (EvMkdir p :: evs o).
Proof.
  cbv zeta. split; [vm_compute; reflexivity|].
  split; [vm_compute; reflexivity|].
  apply (absent_results_dir_created (L:=demo) run_experiment [2]%Z [3]%Z
           (params0 1) [".."; "results"; "new"] store0);
    vm_compute; reflexivity.
Defined.

Lemma failed_call_leaves_stdout_redirected_witness :
  let p := [".."; "results"; "old"] in
  let o := experiment_loop (L:=demo) run_experiment [51]%Z [3]%Z (params0 1)
             p store1 in
  last (evs o) = Some (EvExec 51 3 [] (Raise AssertionError)) /\
  res o = Raise AssertionError /\
  stdout (st o) = LogFile (os_path_join p (log_name 51 3)).
Proof.
  cbv zeta. split; [vm_compute; reflexivity|].
  apply (failed_call_leaves_stdout_redirected (L:=demo) [51]%Z [3]%Z
           (params0 1) [".."; "results"; "old"] store1 51 3 []
           AssertionError).
  vm_compute. reflexivity.
Defined.

Lemma main_trains_on_nonempty_batches_witness :
  (1 <= args_batch_size args0)%Z /\
  Forall (calls_train_within 1 (args_batch_size args0))
    (evs (main (L:=demo) args0 store1)).
Proof.
  split; [cbn; lia|].
  apply (main_trains_on_nonempty_batches (L:=demo) args0 store1). cbn. lia.
Defined.

Lemma returning_sweep_leaves_grids_and_logs_witness :
  let p := [".."; "results"; "old"] in
  let o := experiment_loop (L:=demo) run_experiment [2]%Z [3]%Z (params0 1)
             p store1 in
  res o = Ok tt /\
  fs (st o) !! os_path_join p "category_trials.npy"
    = Some (File (FInts [2]%Z)) /\
  fs (st o) !! os_path_join p "exemplar_trials.npy"
    = Some (File (FInts [3]%Z)) /\
  forall c e, c ∈ [2]%Z -> e ∈ [3]%Z ->
    fs (st o) !! os_path_join p (log_name c e) = Some (File FText).
Proof.
  cbv zeta. split; [vm_compute; reflexivity|].
  apply (returning_sweep_leaves_grids_and_logs (L:=demo) [2]%Z [3]%Z
           (params0 1) [".."; "results"; "old"] store1 tt).
  vm_compute. reflexivity.
Defined.

Lemma returning_sweep_trains_every_cell_witness :
  let o := experiment_loop (L:=demo) run_experiment [2; 4]%Z [3; 6]%Z
             (params0 2) [".."; "results"; "old"] store1 in
  res o = Ok tt /\
  count is_exec (evs o) = (length [2; 4]%Z * length [3; 6]%Z)%nat /\
  sum_list_with trainings_in (evs o)
    = (length [2; 4]%Z * length [3; 6]%Z
       * Z.to_nat (nb_trials (params0 2)))%nat.
Proof.
  cbv zeta. split; [vm_compute; reflexivity|].
  apply (returning_sweep_trains_every_cell (L:=demo) [2; 4]%Z [3; 6]%Z
           (params0 2) [".."; "results"; "old"] store1 tt).
  vm_compute. reflexivity.
Defined.

Lemma main_returns_after_360_training_runs_witness :
  res (main (L:=demo) args0 store1) = Ok tt /\
  noise_in_unit_interval (args_noise args0) = true /\
  head (evs (main (L:=demo) args0 store1))
    = Some (EvPrint (stdout store1) (MsgNoiseLevel (args_noise args0))) /\
  count is_exec (evs (main (L:=demo) args0 store1)) = 36%nat /\
  sum_list_with trainings_in (evs (main (L:=demo) args0 store1)) = 360%nat.
Proof.
  split; [vm_compute; reflexivity|].
  apply (main_returns_after_360_training_runs (L:=demo) args0 store1 tt).
  vm_compute. reflexivity.
Defined.
